(** * Phoenix Wolf Systems: the Sovereign OS worker and the KV-backed scaffold

    The repository holds two worker scripts.  [Sovereign] embeds
    [workers/worker.js] (the worker the README documents: one-time setup
    behind a flag, placeholder OAuth, delivery tokens); [Scaffold] embeds
    the KV-backed scaffold that follows it in the source (secrets nested
    under [secrets], provider configuration read from the secret store,
    checkout sessions).  Both run on the same runtime: three key-value
    namespaces, a clock, a random source and outbound [fetch]. *)

From Stdlib Require Import ZArith String Ascii DecimalString Sorted Permutation.
From stdpp Require Import gmap strings list sorting.

Local Open Scope Z_scope.
Local Open Scope string_scope.
Local Open Scope list_scope.

(** ** JavaScript values and the operations the handlers use *)

Module Js.

#[local] Set Warnings "-register-all".

(** A JSON value as [request.json()] and [JSON.parse] deliver it.  Numbers
    are integers here; an object is the list of its own properties in
    enumeration order, with distinct names. *)
Inductive json : Type :=
| JNull
| JBool (b : bool)
| JNum (n : Z)
| JStr (s : string)
| JArr (xs : list json)
| JObj (fields : list (string * json)).

(** [!!v]; [undefined] is [None]. *)
Definition truthy (v : json) : bool :=
  match v with
  | JNull => false
  | JBool b => b
  | JNum n => negb (n =? 0)%Z
  | JStr s => negb (String.eqb s "")
  | JArr _ | JObj _ => true
  end.

Definition truthy_opt (o : option json) : bool :=
  match o with Some v => truthy v | None => false end.

(** Truthiness of a string-or-null such as [searchParams.get(..)]. *)
Definition nonempty (o : option string) : bool :=
  match o with Some s => negb (String.eqb s "") | None => false end.

(** [typeof v === "object"]. *)
Definition typeof_object (v : json) : bool :=
  match v with JNull | JArr _ | JObj _ => true | _ => false end.

Fixpoint assoc (name : string) (fields : list (string * json)) : option json :=
  match fields with
  | [] => None
  | (k, v) :: rest => if String.eqb k name then Some v else assoc name rest
  end.

(** [v.name] for a data property [name] of a non-null [v]; primitives and
    arrays have none of the names the handlers read. *)
Definition prop (v : json) (name : string) : option json :=
  match v with JObj fields => assoc name fields | _ => None end.

(** [o.name = x] on an object: an existing property keeps its place. *)
Fixpoint set_field (name : string) (x : json) (fields : list (string * json))
  : list (string * json) :=
  match fields with
  | [] => [(name, x)]
  | (k, v) :: rest =>
      if String.eqb k name then (k, x) :: rest
      else (k, v) :: set_field name x rest
  end.

Definition Z_to_string (n : Z) : string := NilZero.string_of_int (Z.to_int n).

Definition nat_to_string (n : nat) : string := Z_to_string (Z.of_nat n).

(** [String(v)], also what a template literal inserts.  In an array
    [null] prints as the empty string. *)
Fixpoint to_String (v : json) : string :=
  match v with
  | JNull => "null"
  | JBool true => "true"
  | JBool false => "false"
  | JNum n => Z_to_string n
  | JStr s => s
  | JArr xs =>
      String.concat ","
        (List.map (fun x => match x with JNull => "" | _ => to_String x end) xs)
  | JObj _ => "[object Object]"
  end.

Definition dquote : ascii := ascii_of_nat 34.
Definition backslash : ascii := ascii_of_nat 92.

Definition escape_char (c : ascii) : string :=
  let n := nat_of_ascii c in
  let esc (x : ascii) := String backslash (String x EmptyString) in
  if (n =? 34)%nat then esc dquote
  else if (n =? 92)%nat then esc backslash
  else if (n =? 8)%nat then esc "b"%char
  else if (n =? 9)%nat then esc "t"%char
  else if (n =? 10)%nat then esc "n"%char
  else if (n =? 12)%nat then esc "f"%char
  else if (n =? 13)%nat then esc "r"%char
  else if (n <? 32)%nat then
    String backslash
      ("u00" +:+ String (if (n <? 16)%nat then "0"%char else "1"%char)
                   (String (nth (n mod 16) (list_ascii_of_string "0123456789abcdef") "0"%char)
                      EmptyString))
  else String c EmptyString.

Fixpoint quote_body (s : string) : string :=
  match s with
  | EmptyString => EmptyString
  | String c rest => escape_char c +:+ quote_body rest
  end.

Definition quote (s : string) : string :=
  String dquote (quote_body s +:+ String dquote EmptyString).

(** [JSON.stringify(v)] without indentation. *)
Fixpoint JSON_stringify (v : json) : string :=
  match v with
  | JNull => "null"
  | JBool true => "true"
  | JBool false => "false"
  | JNum n => Z_to_string n
  | JStr s => quote s
  | JArr xs => "[" +:+ String.concat "," (List.map JSON_stringify xs) +:+ "]"
  | JObj fields =>
      "{" +:+ String.concat ","
                (List.map (fun '(k, x) => quote k +:+ ":" +:+ JSON_stringify x) fields)
          +:+ "}"
  end.

(** [`${v}`] where [v] may be [undefined]. *)
Definition template (o : option json) : string :=
  match o with Some v => to_String v | None => "undefined" end.

Fixpoint indexed (i : nat) (xs : list json) : list (string * json) :=
  match xs with
  | [] => []
  | x :: rest => (nat_to_string i, x) :: indexed (S i) rest
  end.

Fixpoint chars (s : string) : list json :=
  match s with
  | EmptyString => []
  | String c rest => JStr (String c EmptyString) :: chars rest
  end.

(** The own enumerable properties of [v] once it is made an object. *)
Definition own_entries (v : json) : list (string * json) :=
  match v with
  | JObj fields => fields
  | JArr xs => indexed 0 xs
  | JStr s => indexed 0 (chars s)
  | JNull | JBool _ | JNum _ => []
  end.

(** [Object.entries(v)]; [null] is a TypeError. *)
Definition Object_entries (v : json) : option (list (string * json)) :=
  match v with JNull => None | _ => Some (own_entries v) end.

(** [Object.assign(target, source)] on the property list of [target]. *)
Definition assign_fields (target : list (string * json)) (source : json)
  : list (string * json) :=
  fold_left (fun acc kv => set_field (fst kv) (snd kv) acc) (own_entries source) target.

Definition upper_ascii (c : ascii) : ascii :=
  let n := nat_of_ascii c in
  if (andb (97 <=? n) (n <=? 122))%nat then ascii_of_nat (n - 32) else c.

Definition lower_ascii (c : ascii) : ascii :=
  let n := nat_of_ascii c in
  if (andb (65 <=? n) (n <=? 90))%nat then ascii_of_nat (n + 32) else c.

Fixpoint map_string (f : ascii -> ascii) (s : string) : string :=
  match s with
  | EmptyString => EmptyString
  | String c rest => String (f c) (map_string f rest)
  end.

(** [s.toUpperCase()] and [s.toLowerCase()] on the ASCII letters. *)
Definition toUpperCase : string -> string := map_string upper_ascii.
Definition toLowerCase : string -> string := map_string lower_ascii.

(** The text is ASCII: on such text a character is a byte, and the case
    maps above are those of [toUpperCase] and [toLowerCase]. *)
Definition is_ascii (s : string) : bool :=
  forallb (fun c => (nat_of_ascii c <? 128)%nat) (list_ascii_of_string s).

Definition is_alnum (c : ascii) : bool :=
  let n := nat_of_ascii c in
  ((andb (48 <=? n) (n <=? 57)) || (andb (65 <=? n) (n <=? 90))
   || (andb (97 <=? n) (n <=? 122)))%nat.

Definition hex_digit (n : nat) : ascii :=
  if (n <? 10)%nat then ascii_of_nat (48 + n) else ascii_of_nat (55 + n).

Definition percent (c : ascii) : string :=
  let n := nat_of_ascii c in
  String "%" (String (hex_digit (n / 16)) (String (hex_digit (n mod 16)) EmptyString)).

Definition in_string (c : ascii) (s : string) : bool :=
  existsb (Ascii.eqb c) (list_ascii_of_string s).

Fixpoint escape (keep : ascii -> bool) (space_plus : bool) (s : string) : string :=
  match s with
  | EmptyString => EmptyString
  | String c rest =>
      (if keep c then String c EmptyString
       else if andb space_plus (Ascii.eqb c " ") then "+"
       else percent c) +:+ escape keep space_plus rest
  end.

(** [encodeURIComponent(s)] on the bytes of [s]. *)
Definition encodeURIComponent : string -> string :=
  escape (fun c => is_alnum c || in_string c "-_.!~*'()") false.

(** The application/x-www-form-urlencoded byte serialiser. *)
Definition form_encode : string -> string :=
  escape (fun c => is_alnum c || in_string c "*-._") true.

(** [URLSearchParams]: the list of pairs, [set] and [toString]. *)
Definition params := list (string * string).

Fixpoint params_set (name value : string) (p : params) : params :=
  match p with
  | [] => [(name, value)]
  | (k, v) :: rest =>
      if String.eqb k name
      then (k, value) :: List.filter (fun kv => negb (String.eqb (fst kv) name)) rest
      else (k, v) :: params_set name value rest
  end.

Definition params_toString (p : params) : string :=
  String.concat "&" (List.map (fun kv => form_encode (fst kv) +:+ "=" +:+ form_encode (snd kv)) p).

(** [searchParams.get(name)]: the first value, or [null]. *)
Fixpoint params_get (name : string) (p : params) : option string :=
  match p with
  | [] => None
  | (k, v) :: rest => if String.eqb k name then Some v else params_get name rest
  end.

(** A value handed to [params.set]: [null] becomes the text "null". *)
Definition or_null (o : option string) : string :=
  match o with Some s => s | None => "null" end.

(** [Array.prototype.sort(cmp)] as the stable insertion sort: [x] goes
    before the first element it does not compare greater than. *)
Section Sort.
Context {A : Type} (cmp : A -> A -> Z).

Fixpoint insert_sorted (x : A) (l : list A) : list A :=
  match l with
  | [] => [x]
  | y :: rest => if (cmp x y <=? 0)%Z then x :: y :: rest else y :: insert_sorted x rest
  end.

Definition sort (l : list A) : list A := fold_right insert_sorted [] l.
End Sort.

End Js.

(** ** The runtime: key-value namespaces, clock, random source, fetch *)

Module Runtime.
Import Js.

(** The text held under a key.  [Json j] is the text [JSON.stringify(j)],
    kept as the value it denotes; [Text s] is a string written as it is. *)
Inductive kv_value : Type :=
| Text (s : string)
| Json (j : json).

Record stored : Type := { content : kv_value; expirationTtl : option Z }.

(** What [kv.get] hands back as a string. *)
Definition text_of (v : kv_value) : string :=
  match v with Text s => s | Json j => JSON_stringify j end.

(** Truthiness of a stored text; [JSON.stringify] never gives the empty
    string. *)
Definition text_truthy (o : option kv_value) : bool :=
  match o with
  | Some (Text s) => negb (String.eqb s "")
  | Some (Json _) => true
  | None => false
  end.

(** [existing === 'true']. *)
Definition is_true_text (o : option kv_value) : bool :=
  match o with
  | Some (Text s) => String.eqb s "true"
  | Some (Json (JBool true)) => true
  | _ => false
  end.

(** A value handed to [kv.put] as it is: a non-string is converted to a
    string (a runtime that rejects it instead is a failing put). *)
Definition put_arg (v : json) : kv_value := Text (to_String v).

Inductive binding : Type := SECRETS_KV | SESSIONS_KV | AUDIT_KV.

Record fetch_call : Type :=
  { fetch_url : string; fetch_method : string;
    fetch_content_type : string; fetch_body : string }.

(** The answer to a [fetch]: a network failure, or a response with its
    [ok] flag and its body as JSON ([None]: the body is not JSON). *)
Inductive fetch_result : Type :=
| FetchFails
| FetchResponse (ok : bool) (body : option json).

(** What the URL parser makes of a text: the URL written out again, or a
    TypeError with its message. *)
Inductive parsed_url : Type :=
| Href (href : string)
| NotAUrl (message : string).

(** Everything the worker asks of its surroundings, by the number of the
    request to the surroundings (the [tick]). *)
Record runtime : Type :=
  { rt_randomUUID : nat -> string;          (* crypto.randomUUID() *)
    rt_has_randomUUID : bool;               (* crypto.randomUUID is there *)
    rt_toISOString : nat -> string;         (* new Date().toISOString() *)
    rt_now : nat -> Z;                      (* Date.now() *)
    rt_random36 : nat -> string;            (* Math.random().toString(36) *)
    rt_random_words : nat -> list Z;        (* crypto.getRandomValues(new Uint32Array(4)) *)
    rt_fetch : nat -> fetch_call -> fetch_result;
    rt_put_fails : nat -> bool;             (* this kv.put rejects *)
    rt_JSON_parse : string -> option json;  (* JSON.parse; None: SyntaxError *)
    rt_Date_parse : string -> option Z;     (* Date.parse; None: NaN *)
    rt_URL : string -> parsed_url;          (* the URL parser *)
    rt_list_page : nat }.                   (* keys per list() when no limit is given *)

(** The globals of a deployment that a script can read. *)
Record globals : Type :=
  { SETUP_TOKEN : option string }.   (* None: the binding is not defined *)

Record world : Type :=
  { secrets_kv : option (gmap string stored);    (* None: not bound *)
    sessions_kv : option (gmap string stored);
    audit_kv : option (gmap string stored);
    tick : nat;
    outbound : list fetch_call }.

Definition namespace_of (b : binding) (w : world) : option (gmap string stored) :=
  match b with
  | SECRETS_KV => secrets_kv w
  | SESSIONS_KV => sessions_kv w
  | AUDIT_KV => audit_kv w
  end.

Definition set_namespace (b : binding) (ns : gmap string stored) (w : world) : world :=
  match b with
  | SECRETS_KV =>
      {| secrets_kv := Some ns; sessions_kv := sessions_kv w; audit_kv := audit_kv w;
         tick := tick w; outbound := outbound w |}
  | SESSIONS_KV =>
      {| secrets_kv := secrets_kv w; sessions_kv := Some ns; audit_kv := audit_kv w;
         tick := tick w; outbound := outbound w |}
  | AUDIT_KV =>
      {| secrets_kv := secrets_kv w; sessions_kv := sessions_kv w; audit_kv := Some ns;
         tick := tick w; outbound := outbound w |}
  end.

(** A handler either completes or throws; effects up to the throw stay. *)
Inductive outcome (A : Type) : Type :=
| Done (a : A)
| Thrown (message : string).
Arguments Done {A} a.
Arguments Thrown {A} message.

Definition M (A : Type) : Type := world -> outcome A * world.

Definition ret {A} (a : A) : M A := fun w => (Done a, w).

Definition throw {A} (message : string) : M A := fun w => (Thrown message, w).

Definition bind {A B} (c : M A) (k : A -> M B) : M B :=
  fun w =>
    match c w with
    | (Done a, w') => k a w'
    | (Thrown message, w') => (Thrown message, w')
    end.

Notation "x <- c ;; k" := (bind c (fun x => k))
  (at level 200, c at level 99, k at level 200, right associativity).
Notation "c ;;; k" := (bind c (fun _ => k))
  (at level 200, k at level 200, right associativity).

(** [try { c } catch (e) { h }]. *)
Definition try_catch {A} (c : M A) (h : string -> M A) : M A :=
  fun w =>
    match c w with
    | (Done a, w') => (Done a, w')
    | (Thrown message, w') => h message w'
    end.

Definition next_tick : M nat :=
  fun w =>
    (Done (tick w),
     {| secrets_kv := secrets_kv w; sessions_kv := sessions_kv w; audit_kv := audit_kv w;
        tick := S (tick w); outbound := outbound w |}).

(** [typeof B !== "undefined"]. *)
Definition is_bound (b : binding) : M bool :=
  fun w => (Done (match namespace_of b w with Some _ => true | None => false end), w).

Definition binding_name (b : binding) : string :=
  match b with
  | SECRETS_KV => "SECRETS_KV"
  | SESSIONS_KV => "SESSIONS_KV"
  | AUDIT_KV => "AUDIT_KV"
  end.

(** The keys of a namespace as [list] reports them: in byte order. *)
Definition keys_in_order (ns : gmap string stored) : list string :=
  merge_sort (fun a b => String.leb a b = true)
    (H := fun a b => decide (String.leb a b = true)) (List.map fst (map_to_list ns)).

Definition list_keys (prefix : string) (limit : nat) (ns : gmap string stored) : list string :=
  firstn limit (List.filter (String.prefix prefix) (keys_in_order ns)).

Section Primitives.
Variable R : runtime.

Definition randomUUID : M string := t <- next_tick ;; ret (rt_randomUUID R t).
Definition toISOString_now : M string := t <- next_tick ;; ret (rt_toISOString R t).
Definition Date_now : M Z := t <- next_tick ;; ret (rt_now R t).
Definition Math_random36 : M string := t <- next_tick ;; ret (rt_random36 R t).
Definition random_words : M (list Z) := t <- next_tick ;; ret (rt_random_words R t).

(** [B.get(key)]; an unbound [B] is a ReferenceError. *)
Definition kv_get (b : binding) (key : string) : M (option kv_value) :=
  fun w =>
    match namespace_of b w with
    | None => (Thrown (binding_name b +:+ " is not defined"), w)
    | Some ns => (Done (content <$> ns !! key), w)
    end.

(** [B.put(key, value, {expirationTtl})]. *)
Definition kv_put (b : binding) (key : string) (v : kv_value) (ttl : option Z) : M unit :=
  t <- next_tick ;;
  fun w =>
    match namespace_of b w with
    | None => (Thrown (binding_name b +:+ " is not defined"), w)
    | Some ns =>
        if rt_put_fails R t then (Thrown "KV put failed", w)
        else (Done tt, set_namespace b (<[key := {| content := v; expirationTtl := ttl |}]> ns) w)
    end.

(** [B.list({prefix, limit})]: the names, in listing order. *)
Definition kv_list (b : binding) (prefix : string) (limit : option nat) : M (list string) :=
  fun w =>
    match namespace_of b w with
    | None => (Thrown (binding_name b +:+ " is not defined"), w)
    | Some ns =>
        (Done (list_keys prefix (match limit with Some n => n | None => rt_list_page R end) ns), w)
    end.

(** [JSON.parse] of a stored text. *)
Definition parse_stored (v : kv_value) : option json :=
  match v with Json j => Some j | Text s => rt_JSON_parse R s end.

Definition JSON_parse (v : kv_value) : M json :=
  match parse_stored v with
  | Some j => ret j
  | None => throw "Unexpected token in JSON"
  end.

(** [fetch(url, init)]: records the call, then the runtime answers. *)
Definition fetch (call : fetch_call) : M fetch_result :=
  t <- next_tick ;;
  fun w =>
    (Done (rt_fetch R t call),
     {| secrets_kv := secrets_kv w; sessions_kv := sessions_kv w; audit_kv := audit_kv w;
        tick := tick w; outbound := outbound w ++ [call] |}).

(** The time value of [new Date(v)]; [None] is an invalid date.  A number
    is a time value up to 8.64e15 milliseconds either side of the epoch. *)
Definition Date_time (o : option json) : option Z :=
  match o with
  | None => None
  | Some JNull => Some 0
  | Some (JBool b) => Some (if b then 1 else 0)
  | Some (JNum n) => if (Z.abs n <=? 8640000000000000)%Z then Some n else None
  | Some (JStr s) => rt_Date_parse R s
  | Some v => rt_Date_parse R (to_String v)
  end.

(** [new Date(y) - new Date(x)] as [sort] uses it: NaN counts as 0. *)
Definition Date_minus (y x : option json) : Z :=
  match Date_time y, Date_time x with
  | Some a, Some b => a - b
  | _, _ => 0
  end.
End Primitives.

(** An inbound request: method, path, query, the [x-setup-token] header
    and the body as JSON ([None]: [request.json()] rejects). *)
Record request : Type :=
  { method : string; path : string; query : params;
    x_setup_token : option string; body : option json }.

Inductive payload : Type :=
| NoBody
| JsonBody (j : json)
| TextBody (s : string)
| StoredBody (v : kv_value).

Record response : Type :=
  { status : Z; content_of : payload; location : option string }.

Definition respond (p : payload) (code : Z) : response :=
  {| status := code; content_of := p; location := None |}.

(** [request.json()]. *)
Definition request_json (req : request) : M json :=
  match body req with
  | Some j => ret j
  | None => throw "Unexpected end of JSON input"
  end.

End Runtime.

(** ** [workers/worker.js]: the Sovereign OS worker *)

Module Sovereign.
Import Js Runtime.

Section Worker.
Variable R : runtime.
Variable G : globals.

Definition json_response (j : json) (code : Z) : response := respond (JsonBody j) code.

Definition error_response (message : string) (code : Z) : response :=
  json_response (JObj [("error", JStr message)]) code.

(** [logAudit(action, details, admin = 'Keli')]: the third argument is
    not read. *)
Definition logAudit (action details : string) : M unit :=
  auditId <- randomUUID R ;;
  timestamp <- toISOString_now R ;;
  kv_put R AUDIT_KV ("audit_" +:+ auditId)
    (Json (JObj [("admin", JStr "Keli"); ("action", JStr action);
                 ("details", JStr details); ("timestamp", JStr timestamp)]))
    (Some (86400 * 365)).

(** The loop over [Object.entries(secrets)]. *)
Fixpoint store_each (entries : list (string * json)) : M unit :=
  match entries with
  | [] => ret tt
  | (key, value) :: rest =>
      kv_put R SECRETS_KV ("secret_" +:+ key) (put_arg value) None ;;;
      store_each rest
  end.

Definition handleStoreSecrets (req : request) : M response :=
  match x_setup_token req with
  | None => ret (error_response "Invalid setup token" 403)
  | Some setupToken =>
      if String.eqb setupToken "" then ret (error_response "Invalid setup token" 403)
      else
        match SETUP_TOKEN G with
        | None => throw "SETUP_TOKEN is not defined"
        | Some expected =>
            if negb (String.eqb setupToken expected)
            then ret (error_response "Invalid setup token" 403)
            else
              existing <- kv_get SECRETS_KV "secrets_initialized" ;;
              if is_true_text existing
              then ret (error_response "Secrets already initialized" 403)
              else
                secrets <- request_json req ;;
                match Object_entries secrets with
                | None => throw "Cannot convert undefined or null to object"
                | Some entries =>
                    store_each entries ;;;
                    kv_put R SECRETS_KV "secrets_initialized" (Text "true") None ;;;
                    logAudit "secrets_stored" "System secrets initialized" ;;;
                    ret (json_response
                           (JObj [("success", JBool true);
                                  ("message", JStr "Secrets stored successfully")]) 200)
                end
        end
  end.

(** [oauthUrls[provider] || '#'] as it reaches the response: the three
    own entries, the names every object inherits (functions, which
    [JSON.stringify] leaves out, and the prototype itself), else '#'. *)
Definition auth_url (provider sessionId : string) : option json :=
  if String.eqb provider "stripe" then
    Some (JStr ("https://connect.stripe.com/oauth/authorize?response_type=code&client_id=CLIENT_ID&scope=read_write&state=" +:+ sessionId))
  else if String.eqb provider "protonmail" then
    Some (JStr ("https://account.proton.me/authorize?client_id=CLIENT_ID&state=" +:+ sessionId))
  else if String.eqb provider "youtube" then
    Some (JStr ("https://accounts.google.com/o/oauth2/v2/auth?client_id=CLIENT_ID&redirect_uri=REDIRECT_URI&response_type=code&scope=https://www.googleapis.com/auth/youtube.readonly&state=" +:+ sessionId))
  else if String.eqb provider "__proto__" then Some (JObj [])
  else if existsb (String.eqb provider)
            ["constructor"; "hasOwnProperty"; "isPrototypeOf"; "propertyIsEnumerable";
             "toLocaleString"; "toString"; "valueOf"; "__defineGetter__";
             "__defineSetter__"; "__lookupGetter__"; "__lookupSetter__"]
  then None
  else Some (JStr "#").

Definition handleOAuthInit (req : request) : M response :=
  match params_get "provider" (query req) with
  | None => ret (error_response "Provider required" 400)
  | Some provider =>
      if String.eqb provider "" then ret (error_response "Provider required" 400)
      else
        sessionId <- randomUUID R ;;
        created <- toISOString_now R ;;
        kv_put R SESSIONS_KV ("session_" +:+ sessionId)
          (Json (JObj [("provider", JStr provider); ("created", JStr created);
                       ("admin", JStr "Keli")]))
          (Some 600) ;;;
        logAudit "oauth_init" ("OAuth initiated for " +:+ provider) ;;;
        ret (json_response
               (JObj (match auth_url provider sessionId with
                      | Some u => [("auth_url", u)]
                      | None => []
                      end ++ [("session_id", JStr sessionId)])) 200)
  end.

Definition handleOAuthCallback (req : request) : M response :=
  let code := params_get "code" (query req) in
  let state := params_get "state" (query req) in
  if negb (nonempty code) || negb (nonempty state)
  then ret (error_response "Invalid callback" 400)
  else
    sessionData <- kv_get SESSIONS_KV ("session_" +:+ or_null state) ;;
    match sessionData with
    | None => ret (error_response "Session expired" 403)
    | Some data =>
        if negb (text_truthy sessionData)
        then ret (error_response "Session expired" 403)
        else
          session <- JSON_parse R data ;;
          let token := "token_" +:+ String.substring 0 10 (or_null code) in
          match session with
          | JNull => throw "Cannot read properties of null (reading 'provider')"
          | _ =>
              let provider := template (prop session "provider") in
              kv_put R SECRETS_KV ("oauth_token_" +:+ provider) (Text token) None ;;;
              logAudit "oauth_complete" ("OAuth completed for " +:+ provider) ;;;
              ret (json_response
                     (JObj [("success", JBool true);
                            ("message", JStr "OAuth completed successfully")]) 200)
          end
    end.

Definition handleInboundEmail (req : request) : M response :=
  email <- request_json req ;;
  emailId <- randomUUID R ;;
  received <- toISOString_now R ;;
  kv_put R SECRETS_KV ("email_" +:+ emailId)
    (Json (JObj (set_field "received" (JStr received) (assign_fields [] email))))
    (Some (86400 * 30)) ;;;
  match email with
  | JNull => throw "Cannot read properties of null (reading 'from')"
  | _ =>
      logAudit "email_received" ("Email from " +:+ template (prop email "from")) ;;;
      ret (json_response (JObj [("success", JBool true); ("email_id", JStr emailId)]) 200)
  end.

(** [const isPresold = true]. *)
Definition isPresold : bool := true.

Definition handleCreateCheckout (req : request) : M response :=
  order <- request_json req ;;
  match order with
  | JNull => throw "Cannot destructure property 'product_id' of null"
  | _ =>
      match prop order "product_id", prop order "sku", prop order "buyer_email" with
      | Some product_id, Some sku, Some buyer_email =>
          if negb (truthy product_id) || negb (truthy sku) || negb (truthy buyer_email)
          then ret (error_response "Missing required fields" 400)
          else if isPresold then
            uuid <- randomUUID R ;;
            let deliveryToken := toUpperCase (String.substring 0 12 uuid) in
            let deliveryUrl := "https://proton.me/s/" +:+ deliveryToken in
            delivered <- toISOString_now R ;;
            kv_put R SECRETS_KV ("delivery_" +:+ deliveryToken)
              (Json (JObj [("product_id", product_id); ("sku", sku);
                           ("buyer_email", buyer_email); ("delivered", JStr delivered);
                           ("admin", JStr "Keli")]))
              (Some (86400 * 90)) ;;;
            logAudit "auto_delivery"
              ("Auto-delivered " +:+ to_String sku +:+ " to " +:+ to_String buyer_email) ;;;
            ret (json_response
                   (JObj [("presold_delivery", JBool true);
                          ("delivery_url", JStr deliveryUrl);
                          ("message", JStr "Package auto-delivered. Check your email for access details.")])
                   200)
          else
            uuid <- randomUUID R ;;
            let checkoutUrl := "https://checkout.stripe.com/session_" +:+ uuid in
            logAudit "checkout_created" ("Checkout created for " +:+ to_String sku) ;;;
            ret (json_response
                   (JObj [("presold_delivery", JBool false);
                          ("checkout_url", JStr checkoutUrl)]) 200)
      | _, _, _ => ret (error_response "Missing required fields" 400)
      end
  end.

Definition handleDeliver (req : request) : M response :=
  match params_get "token" (query req) with
  | None => ret (error_response "Token required" 400)
  | Some token =>
      if String.eqb token "" then ret (error_response "Token required" 400)
      else
        delivery <- kv_get SECRETS_KV ("delivery_" +:+ token) ;;
        match delivery with
        | None => ret (error_response "Delivery not found" 404)
        | Some d =>
            if negb (text_truthy delivery)
            then ret (error_response "Delivery not found" 404)
            else
              logAudit "delivery_accessed" ("Delivery " +:+ token +:+ " accessed") ;;;
              ret (respond (StoredBody d) 200)
        end
  end.

(** [entry.admin = 'Keli'; entry.timestamp = entry.timestamp || now]:
    on an object the two properties are set; [null] is a TypeError; on a
    primitive the assignments do nothing, and an array takes them as
    properties that [JSON.stringify] does not print. *)
Definition stamp (entry : json) : M json :=
  match entry with
  | JNull => throw "Cannot set properties of null (setting 'admin')"
  | JObj fields =>
      let forced := set_field "admin" (JStr "Keli") fields in
      match assoc "timestamp" forced with
      | Some t =>
          if truthy t then ret (JObj (set_field "timestamp" t forced))
          else now <- toISOString_now R ;; ret (JObj (set_field "timestamp" (JStr now) forced))
      | None =>
          now <- toISOString_now R ;; ret (JObj (set_field "timestamp" (JStr now) forced))
      end
  | other => toISOString_now R ;;; ret other
  end.

Definition handleAudit (req : request) : M response :=
  entry <- request_json req ;;
  stamped <- stamp entry ;;
  auditId <- randomUUID R ;;
  kv_put R AUDIT_KV ("audit_" +:+ auditId) (Json stamped) (Some (86400 * 365)) ;;;
  ret (json_response (JObj [("success", JBool true); ("audit_id", JStr auditId)]) 200).

(** The loop [for (const key of list.keys)]: a truthy text is parsed and
    pushed. *)
Fixpoint collect (b : binding) (names : list string) : M (list json) :=
  match names with
  | [] => ret []
  | name :: rest =>
      item <- kv_get b name ;;
      match item with
      | Some v =>
          if text_truthy item
          then parsed <- JSON_parse R v ;; more <- collect b rest ;; ret (parsed :: more)
          else collect b rest
      | None => collect b rest
      end
  end.

Definition is_null (v : json) : bool := match v with JNull => true | _ => false end.

(** [logs.sort((a, b) => new Date(b[field]) - new Date(a[field]))]; a
    [null] element is a TypeError as soon as it is compared. *)
Definition sort_newest_first (field : string) (logs : list json) : M (list json) :=
  if existsb is_null logs && (2 <=? length logs)%nat
  then throw "Cannot read properties of null"
  else ret (Js.sort (fun a b => Date_minus R (prop b field) (prop a field)) logs).

Definition handleGetAuditLogs (req : request) : M response :=
  names <- kv_list R AUDIT_KV "audit_" None ;;
  logs <- collect AUDIT_KV names ;;
  sorted <- sort_newest_first "timestamp" logs ;;
  ret (json_response (JArr sorted) 200).

Definition handleGetMessages (req : request) : M response :=
  names <- kv_list R SECRETS_KV "email_" None ;;
  messages <- collect SECRETS_KV names ;;
  sorted <- sort_newest_first "received" messages ;;
  ret (json_response (JArr sorted) 200).

Definition handleStoreToken (req : request) : M response :=
  obj <- request_json req ;;
  match obj with
  | JNull => throw "Cannot destructure property 'token' of null"
  | _ =>
      match prop obj "token" with
      | None => ret (error_response "Token required" 400)
      | Some token =>
          if negb (truthy token) then ret (error_response "Token required" 400)
          else
            kv_put R SECRETS_KV "manual_token" (put_arg token) None ;;;
            logAudit "token_stored" "Manual token stored" ;;;
            ret (json_response (JObj [("success", JBool true)]) 200)
      end
  end.

(** The router.  The handlers are returned without [await], so what a
    handler throws is not caught here. *)
Definition handleRequest (req : request) : M response :=
  let route (p m : string) := String.eqb (path req) p && String.eqb (method req) m in
  if String.eqb (method req) "OPTIONS" then ret (respond NoBody 200)
  else if route "/api/store-secrets" "POST" then handleStoreSecrets req
  else if route "/api/oauth/init" "GET" then handleOAuthInit req
  else if route "/api/oauth/callback" "GET" then handleOAuthCallback req
  else if route "/api/inbound-email" "POST" then handleInboundEmail req
  else if route "/api/create-checkout" "POST" then handleCreateCheckout req
  else if route "/api/deliver" "GET" then handleDeliver req
  else if route "/api/audit" "POST" then handleAudit req
  else if route "/api/audit/logs" "GET" then handleGetAuditLogs req
  else if route "/api/inbound-messages" "GET" then handleGetMessages req
  else if route "/api/store-token" "POST" then handleStoreToken req
  else ret (error_response "Not found" 404).
End Worker.

End Sovereign.

(** ** The KV-backed scaffold *)

Module Scaffold.
Import Js Runtime.

(** [n.toString(36)] for a non-negative integer. *)
Fixpoint base36_digits (fuel : nat) (n : Z) (acc : string) : string :=
  match fuel with
  | O => acc
  | S fuel' =>
      let d := Z.to_nat (n mod 36) in
      let c := if (d <? 10)%nat then ascii_of_nat (48 + d) else ascii_of_nat (87 + d) in
      if (n / 36 =? 0)%Z then String c acc
      else base36_digits fuel' (n / 36) (String c acc)
  end.

Definition toString36 (n : Z) : string := base36_digits (S (Z.to_nat (Z.log2 n))) n "".

(** [s.slice(from)] and [s.slice(from, to)] for indices within range. *)
Definition slice_from (from : nat) (s : string) : string :=
  String.substring from (String.length s - from) s.
Definition slice (from to : nat) (s : string) : string :=
  String.substring from (to - from) s.

(** [o.name = x] as the handlers use it on a parsed record: a primitive
    ignores it and an array does not print it. *)
Definition assign_prop (name : string) (x : json) (o : json) : json :=
  match o with JObj fields => JObj (set_field name x fields) | other => other end.

Section Worker.
Variable R : runtime.
Variable G : globals.

(** [json(body, status = 200)]. *)
Definition json_response (j : json) (code : Z) : response := respond (JsonBody j) code.

Definition error_response (message : string) (code : Z) : response :=
  json_response (JObj [("error", JStr message)]) code.

Definition getSecret (name : string) : M (option string) :=
  bound <- is_bound SECRETS_KV ;;
  if negb bound then ret None
  else v <- kv_get SECRETS_KV ("secret:" +:+ name) ;; ret (text_of <$> v).

Definition kvPut (kv : binding) (key : string) (obj : json) : M unit :=
  bound <- is_bound kv ;;
  if negb bound then throw ("KV not bound: " +:+ key)
  else kv_put R kv key (Json obj) None.

(** [kvGet]: [null] is [JNull]. *)
Definition kvGet (kv : binding) (key : string) : M json :=
  bound <- is_bound kv ;;
  if negb bound then ret JNull
  else
    r <- kv_get kv key ;;
    match r with
    | Some v => if text_truthy r then JSON_parse R v else ret JNull
    | None => ret JNull
    end.

Definition makeSessionId : M string :=
  words <- random_words R ;;
  let rand := String.concat "-" (List.map Z_to_string words) in
  now <- Date_now R ;;
  ret ("sess_" +:+ toString36 now +:+ "_" +:+ rand).

(** The message of the ReferenceError, as V8 words it. *)
Definition reference_error : string := "Cannot access 'ADMIN_HANDLE' before initialization".

(** A read of [ADMIN_HANDLE].  The script declares it as
    [const ADMIN_HANDLE = typeof ADMIN_HANDLE !== "undefined" ? ADMIN_HANDLE : "Keli"]:
    the name in the initialiser is the constant being declared, which is
    not initialised yet, so the initialiser fails and the constant stays
    without a value.  Whatever the deployment defines, every read of it
    is a ReferenceError. *)
#[using="G"] Definition ADMIN_HANDLE : M string := throw reference_error.

(** The audit record the handlers build,
    [{ time: new Date().toISOString(), admin: ADMIN_HANDLE, event, details }],
    property by property. *)
Definition audit_record (event : string) (details : json) : M json :=
  time <- toISOString_now R ;;
  admin <- ADMIN_HANDLE ;;
  ret (JObj [("time", JStr time); ("admin", JStr admin);
             ("event", JStr event); ("details", details)]).

(** [if (typeof AUDIT_KV !== "undefined") await kvPut(AUDIT_KV,
    `audit:${Date.now()}:${Math.random().toString(36).slice(2,8)}`, entry)]. *)
Definition audit_put (entry : json) : M unit :=
  bound <- is_bound AUDIT_KV ;;
  if negb bound then ret tt
  else
    now <- Date_now R ;;
    rnd <- Math_random36 R ;;
    kvPut AUDIT_KV ("audit:" +:+ Z_to_string now +:+ ":" +:+ slice 2 8 rnd) entry.

(** The loop over [Object.entries(body.secrets)]; gives [stored]. *)
Fixpoint store_each (entries : list (string * json)) : M (list string) :=
  match entries with
  | [] => ret []
  | (k, v) :: rest =>
      kv_put R SECRETS_KV ("secret:" +:+ k) (Text (to_String v)) None ;;;
      more <- store_each rest ;;
      ret (k :: more)
  end.

Definition handleStoreSecrets (req : request) : M response :=
  if negb (String.eqb (method req) "POST") then ret (error_response "method not allowed" 405)
  else
    let provided := match x_setup_token req with Some s => s | None => "" end in
    if String.eqb provided "" then ret (error_response "missing setup token" 401)
    else
      match SETUP_TOKEN G with
      | None => ret (error_response "worker not configured with SETUP_TOKEN" 500)
      | Some expected =>
          if String.eqb expected ""
          then ret (error_response "worker not configured with SETUP_TOKEN" 500)
          else if negb (String.eqb provided expected)
          then ret (error_response "invalid setup token" 403)
          else
            match body req with
            | None => ret (error_response "invalid json" 400)
            | Some payload =>
                match (if truthy payload then prop payload "secrets" else None) with
                | Some secrets =>
                    if negb (truthy secrets) || negb (typeof_object secrets)
                    then ret (error_response "invalid payload: {secrets:{...}} expected" 400)
                    else
                      bound <- is_bound SECRETS_KV ;;
                      if negb bound then ret (error_response "SECRETS_KV not configured" 500)
                      else
                        stored <- store_each (own_entries secrets) ;;
                        let names := JArr (List.map JStr stored) in
                        audit <- audit_record "store_secrets" (JObj [("stored", names)]) ;;
                        audit_put audit ;;;
                        ret (json_response (JObj [("ok", JBool true); ("stored", names)]) 200)
                | None => ret (error_response "invalid payload: {secrets:{...}} expected" 400)
                end
            end
      end.

Definition provider_key (provider suffix : string) : string :=
  "OAUTH_" +:+ toUpperCase provider +:+ suffix.

(** [crypto.randomUUID ? crypto.randomUUID() : (..)]. *)
Definition fresh_state : M string :=
  if rt_has_randomUUID R then randomUUID R
  else
    rnd <- Math_random36 R ;;
    now <- Date_now R ;;
    ret (slice_from 2 rnd +:+ toString36 now).

(** [Response.redirect(url, 302)] parses [url]: a URL that does not parse
    is a TypeError, and [Location] is the parsed URL written out again. *)
Definition Response_redirect (url : string) : M response :=
  match rt_URL R url with
  | Href href => ret {| status := 302; content_of := NoBody; location := Some href |}
  | NotAUrl message => throw message
  end.

Definition handleOAuthInit (req : request) : M response :=
  match params_get "provider" (query req) with
  | None => ret (error_response "missing provider param" 400)
  | Some provider =>
      if String.eqb provider "" then ret (error_response "missing provider param" 400)
      else
        clientId <- getSecret (provider_key provider "_CLIENT_ID") ;;
        authUrl <- getSecret (provider_key provider "_AUTH_URL") ;;
        redirect <- getSecret "OAUTH_REDIRECT_URI" ;;
        if negb (nonempty clientId) || negb (nonempty authUrl) || negb (nonempty redirect)
        then ret (error_response "OAuth info missing for provider." 400)
        else
          state <- fresh_state ;;
          bound <- is_bound SESSIONS_KV ;;
          (if bound then
             created_at <- toISOString_now R ;;
             kvPut SESSIONS_KV ("oauth_state:" +:+ state)
               (JObj [("provider", JStr provider); ("created_at", JStr created_at)])
           else ret tt) ;;;
          scope <- getSecret (provider_key provider "_SCOPE") ;;
          let p0 := params_set "response_type" "code" [] in
          let p1 := params_set "client_id" (or_null clientId) p0 in
          let p2 := params_set "redirect_uri" (or_null redirect) p1 in
          let p3 := if nonempty scope then params_set "scope" (or_null scope) p2 else p2 in
          let p4 := params_set "state" state p3 in
          Response_redirect (or_null authUrl +:+ "?" +:+ params_toString p4)
  end.

(** The body of the token request. *)
Definition token_params (code : string) (redirect : option string) (clientId : string)
    (clientSecret : option string) : params :=
  let p0 := params_set "grant_type" "authorization_code" [] in
  let p1 := params_set "code" code p0 in
  let p2 := params_set "redirect_uri" (or_null redirect) p1 in
  let p3 := params_set "client_id" clientId p2 in
  if nonempty clientSecret then params_set "client_secret" (or_null clientSecret) p3 else p3.

Definition token_key (provider : string) : string :=
  "secret:oauth:" +:+ toLowerCase provider +:+ ":token".

Definition handleOAuthCallback (req : request) : M response :=
  let code := params_get "code" (query req) in
  let state := params_get "state" (query req) in
  if negb (nonempty code) || negb (nonempty state)
  then ret (error_response "missing code or state" 400)
  else
    stateObj <- kvGet SESSIONS_KV ("oauth_state:" +:+ or_null state) ;;
    if negb (truthy stateObj) then ret (error_response "invalid or expired state" 400)
    else
      match prop stateObj "provider" with
      | Some (JStr provider) =>
          tokenUrl <- getSecret (provider_key provider "_TOKEN_URL") ;;
          clientId <- getSecret (provider_key provider "_CLIENT_ID") ;;
          clientSecret <- getSecret (provider_key provider "_CLIENT_SECRET") ;;
          redirect <- getSecret "OAUTH_REDIRECT_URI" ;;
          if negb (nonempty tokenUrl) || negb (nonempty clientId)
          then ret (error_response "token configuration missing for provider" 500)
          else
            r <- fetch R {| fetch_url := or_null tokenUrl; fetch_method := "POST";
                            fetch_content_type := "application/x-www-form-urlencoded";
                            fetch_body := params_toString
                                            (token_params (or_null code) redirect
                                               (or_null clientId) clientSecret) |} ;;
            match r with
            | FetchFails => throw "fetch failed"
            | FetchResponse _ None => throw "Unexpected token in JSON"
            | FetchResponse ok (Some tokenResp) =>
                if negb ok
                then ret (json_response
                            (JObj [("error", JStr "token exchange failed");
                                   ("detail", tokenResp)]) 500)
                else
                  bound <- is_bound SECRETS_KV ;;
                  (if bound
                   then kv_put R SECRETS_KV (token_key provider)
                          (Text (JSON_stringify tokenResp)) None
                   else ret tt) ;;;
                  audit <- audit_record "oauth_connected"
                             (JObj [("provider", JStr provider)]) ;;
                  audit_put audit ;;;
                  ret (respond
                         (TextBody ("<html><body><h2>Connected " +:+ provider +:+
                                    "</h2><p>Close this window and return to your admin console.</p></body></html>"))
                         200)
            end
      | _ => throw "provider.toUpperCase is not a function"
      end.

Definition handleInboundEmail (req : request) : M response :=
  match body req with
  | None => ret (error_response "invalid json" 400)
  | Some payload =>
      now <- Date_now R ;;
      rnd <- Math_random36 R ;;
      let id := "msg:" +:+ Z_to_string now +:+ ":" +:+ slice 2 8 rnd in
      received_at <- toISOString_now R ;;
      let stored := JObj [("id", JStr id); ("received_at", JStr received_at);
                          ("payload", payload)] in
      bound <- is_bound SESSIONS_KV ;;
      (if bound then kvPut SESSIONS_KV id stored else ret tt) ;;;
      audit <- audit_record "inbound_email" (JObj [("id", JStr id)]) ;;
      audit_put audit ;;;
      ret (json_response (JObj [("ok", JBool true); ("id", JStr id)]) 200)
  end.

(** [{ proton_link: `https://proton.me/s/${encodeURIComponent(session_id)}` }]. *)
Definition delivery_for (session_id : string) : json :=
  JObj [("proton_link", JStr ("https://proton.me/s/" +:+ encodeURIComponent session_id))].

Definition or_else (o : option json) (d : json) : json :=
  match o with Some v => if truthy v then v else d | None => d end.

Definition handleCreateCheckout (req : request) : M response :=
  payload <- request_json req ;;
  match (if truthy payload then prop payload "sku" else None) with
  | None => ret (error_response "missing sku" 400)
  | Some sku =>
      if negb (truthy sku) then ret (error_response "missing sku" 400)
      else
        session_id <- makeSessionId ;;
        let presold := truthy_opt (prop payload "presold") in
        created_at <- toISOString_now R ;;
        let session :=
          JObj [("session_id", JStr session_id); ("sku", sku);
                ("user", or_else (prop payload "user") JNull);
                ("manifest", or_else (prop payload "manifest") (JObj []));
                ("presold", JBool presold); ("status", JStr "pending");
                ("created_at", JStr created_at)] in
        bound <- is_bound SESSIONS_KV ;;
        (if bound then kvPut SESSIONS_KV ("session:" +:+ session_id) session else ret tt) ;;;
        audit <- audit_record "create_checkout"
                   (JObj [("session_id", JStr session_id); ("sku", sku);
                          ("presold", JBool presold)]) ;;
        audit_put audit ;;;
        if presold then
          let deliver := delivery_for session_id in
          delivered_at <- toISOString_now R ;;
          let session' :=
            assign_prop "delivery" deliver
              (assign_prop "delivered_at" (JStr delivered_at)
                 (assign_prop "status" (JStr "delivered") session)) in
          bound' <- is_bound SESSIONS_KV ;;
          (if bound' then kvPut SESSIONS_KV ("session:" +:+ session_id) session'
           else ret tt) ;;;
          auditD <- audit_record "auto_deliver_presold"
                      (JObj [("session_id", JStr session_id)]) ;;
          audit_put auditD ;;;
          ret (json_response
                 (JObj [("ok", JBool true); ("session_id", JStr session_id);
                        ("deliver", deliver)]) 200)
        else
          ret (json_response
                 (JObj [("ok", JBool true); ("session_id", JStr session_id)]) 200)
  end.

(** [get("session_id") || get("session")]. *)
Definition session_param (q : params) : option string :=
  if nonempty (params_get "session_id" q) then params_get "session_id" q
  else params_get "session" q.

Definition handleDeliver (req : request) : M response :=
  let param := session_param (query req) in
  if negb (nonempty param) then ret (error_response "missing session_id" 400)
  else
    let session_id := or_null param in
    session <- kvGet SESSIONS_KV ("session:" +:+ session_id) ;;
    if negb (truthy session) then ret (error_response "session not found" 404)
    else
      match (match prop session "delivery" with
             | Some d => if truthy d then Some d else None
             | None => None
             end) with
      | None =>
          let deliver := delivery_for session_id in
          delivered_at <- toISOString_now R ;;
          let session' :=
            assign_prop "delivered_at" (JStr delivered_at)
              (assign_prop "status" (JStr "delivered")
                 (assign_prop "delivery" deliver session)) in
          bound <- is_bound SESSIONS_KV ;;
          (if bound then kvPut SESSIONS_KV ("session:" +:+ session_id) session'
           else ret tt) ;;;
          audit <- audit_record "deliver_resolved"
                     (JObj [("session_id", JStr session_id)]) ;;
          audit_put audit ;;;
          ret (json_response
                 (JObj [("ok", JBool true); ("session_id", JStr session_id);
                        ("deliver", deliver)]) 200)
      | Some delivery =>
          ret (json_response
                 (JObj [("ok", JBool true); ("session_id", JStr session_id);
                        ("deliver", delivery)]) 200)
      end.

(** [Object.assign({}, body, { admin, received_at })]. *)
Definition audit_entry (payload : json) (admin received_at : string) : json :=
  JObj (assign_fields (assign_fields [] payload)
          (JObj [("admin", JStr admin); ("received_at", JStr received_at)])).

(** The entry is built from [ADMIN_HANDLE] first and the clock second. *)
Definition handleAuditPost (req : request) : M response :=
  payload <- request_json req ;;
  admin <- ADMIN_HANDLE ;;
  received_at <- toISOString_now R ;;
  let entry := audit_entry payload admin received_at in
  audit_put entry ;;;
  ret (json_response (JObj [("ok", JBool true); ("entry", entry)]) 200).

(** The message of the TypeError of [handleListAudits], as V8 words it. *)
Definition not_iterable : string :=
  "AUDIT_KV.list(...) is not a function or its return value is not async iterable".

(** [for await (const item of AUDIT_KV.list({ prefix: "audit:", limit: 200 }))]:
    [list] gives a promise, and a promise is not something [for await]
    can iterate, so the loop is a TypeError before its body runs once. *)
Definition handleListAudits : M response :=
  bound <- is_bound AUDIT_KV ;;
  if negb bound
  then ret (json_response (JObj [("ok", JBool false); ("error", JStr "AUDIT_KV not bound")]) 500)
  else
    kv_list R AUDIT_KV "audit:" (Some 200%nat) ;;;
    throw not_iterable.

(** The router; the handlers are awaited inside [try], so what they
    throw becomes a 500. *)
Definition handleRequest (req : request) : M response :=
  let at_path (p : string) := String.eqb (path req) p in
  let with_method (m : string) := String.eqb (method req) m in
  if with_method "OPTIONS" then ret (respond NoBody 204)
  else
    try_catch
      (if at_path "/api/store-secrets" && with_method "POST" then handleStoreSecrets req
       else if at_path "/api/oauth/init" then handleOAuthInit req
       else if at_path "/api/oauth/callback" then handleOAuthCallback req
       else if at_path "/api/inbound-email" && with_method "POST" then handleInboundEmail req
       else if at_path "/api/create-checkout" && with_method "POST" then handleCreateCheckout req
       else if at_path "/api/deliver" && with_method "GET" then handleDeliver req
       else if at_path "/api/audit" && (with_method "POST" || with_method "PUT") then handleAuditPost req
       else if at_path "/api/audit/logs" && with_method "GET" then handleListAudits
       else ret (respond (TextBody "Not found") 404))
      (fun message => ret (error_response message 500)).
End Worker.

End Scaffold.

(** ** What the claims speak about *)

Module Props.
Import Js Runtime.

(** The one-time initialization flag of [workers/worker.js]. *)
Definition flag_key : string := "secrets_initialized".

Definition initialized (w : world) : bool :=
  match secrets_kv w with
  | Some ns => is_true_text (content <$> ns !! flag_key)
  | None => false
  end.

Definition flag_set (w : world) : Prop := initialized w = true.

Definition put_entry (v : kv_value) (ttl : option Z) : stored :=
  {| content := v; expirationTtl := ttl |}.

(** The namespace after one secret record per entry has been written. *)
Definition write_secrets (prefix : string) (entries : list (string * json))
    (ns : gmap string stored) : gmap string stored :=
  fold_left (fun m kv => <[prefix +:+ fst kv := put_entry (put_arg (snd kv)) None]> m) entries ns.

(** The request carries the setup credential [tok]. *)
Definition presents (tok : string) (req : request) : bool :=
  match x_setup_token req with
  | Some s => negb (String.eqb s "") && String.eqb s tok
  | None => false
  end.

(** No [kv.put] of the runtime rejects. *)
Definition reliable (R : runtime) : Prop := forall n, rt_put_fails R n = false.

(** No [kv.put] rejects from tick [t] on. *)
Definition reliable_from (R : runtime) (t : nat) : Prop :=
  forall n, (t <= n)%nat -> rt_put_fails R n = false.

(** An object or an array: what [typeof v === "object"] accepts of a
    truthy [v]. *)
Definition object_valued (v : json) : bool :=
  match v with JObj _ | JArr _ => true | _ => false end.

(** The body is an object with an object-valued [secrets] field. *)
Definition well_formed_payload (o : option json) : bool :=
  match o with
  | Some (JObj fields) =>
      match assoc "secrets" fields with Some v => object_valued v | None => false end
  | _ => false
  end.

(** A computation keeps a property of the world. *)
Definition preserves {A} (P : world -> Prop) (c : M A) : Prop :=
  forall w, P w -> P (snd (c w)).

Definition ignores_ticks (P : world -> Prop) : Prop :=
  forall w t o, P w ->
    P {| secrets_kv := secrets_kv w; sessions_kv := sessions_kv w; audit_kv := audit_kv w;
         tick := t; outbound := o |}.

Definition stable_under_put (P : world -> Prop) (b : binding) (key : string) (v : kv_value)
  : Prop :=
  forall w ns ttl, namespace_of b w = Some ns -> P w ->
    P (set_namespace b (<[key := put_entry v ttl]> ns) w).

(** What [getSecret(name)] of the scaffold reads in a world. *)
Definition secret_of (w : world) (name : string) : option string :=
  match secrets_kv w with
  | Some ns => text_of <$> (content <$> ns !! ("secret:" +:+ name))
  | None => None
  end.

(** What [kvGet(kv, key)] of the scaffold reads in a world; [None] when
    the stored text does not parse. *)
Definition kv_read (R : runtime) (kv : binding) (key : string) (w : world) : option json :=
  match namespace_of kv w with
  | None => Some JNull
  | Some ns =>
      match content <$> ns !! key with
      | Some v => if text_truthy (Some v) then parse_stored R v else Some JNull
      | None => Some JNull
      end
  end.

(** The namespace is bound. *)
Definition bound (kv : binding) (w : world) : bool :=
  match namespace_of kv w with Some _ => true | None => false end.

(** No record is stored under [key]. *)
Definition no_record (kv : binding) (key : string) (w : world) : Prop :=
  match namespace_of kv w with
  | Some ns => ns !! key = None
  | None => True
  end.

(** The token request of the scaffold for [provider] and [code], from the
    configuration a world holds. *)
Definition token_request (w : world) (provider code : string) : fetch_call :=
  {| fetch_url := or_null (secret_of w (Scaffold.provider_key provider "_TOKEN_URL"));
     fetch_method := "POST";
     fetch_content_type := "application/x-www-form-urlencoded";
     fetch_body :=
       params_toString
         (Scaffold.token_params code (secret_of w "OAUTH_REDIRECT_URI")
            (or_null (secret_of w (Scaffold.provider_key provider "_CLIENT_ID")))
            (secret_of w (Scaffold.provider_key provider "_CLIENT_SECRET"))) |}.

(** The audit record [logAudit] of [workers/worker.js] writes. *)
Definition sovereign_audit (action details timestamp : string) : json :=
  JObj [("admin", JStr "Keli"); ("action", JStr action);
        ("details", JStr details); ("timestamp", JStr timestamp)].

(** The state token the scaffold draws at tick [t], and the next tick. *)
Definition state_at (R : runtime) (t : nat) : string * nat :=
  if rt_has_randomUUID R then (rt_randomUUID R t, S t)
  else (Scaffold.slice_from 2 (rt_random36 R t) +:+ Scaffold.toString36 (rt_now R (S t)),
        S (S t)).

(** The session id [makeSessionId] of the scaffold makes at tick [t]. *)
Definition session_id_at (R : runtime) (t : nat) : string :=
  "sess_" +:+ Scaffold.toString36 (rt_now R (S t)) +:+ "_"
  +:+ String.concat "-" (List.map Z_to_string (rt_random_words R t)).

(** The time value of an entry's [field], and the order on entries that
    newest-first means: [a] is not older than [b]. *)
Definition entry_time (R : runtime) (field : string) (e : json) : option Z :=
  Date_time R (prop e field).

Definition dated (R : runtime) (field : string) (e : json) : Prop :=
  entry_time R field e <> None.

Definition not_older (R : runtime) (field : string) (a b : json) : Prop :=
  match entry_time R field a, entry_time R field b with
  | Some x, Some y => (y <= x)%Z
  | _, _ => False
  end.

(** What the loop of [workers/worker.js] collects from [names]; [None]
    when a stored text does not parse. *)
Fixpoint sovereign_collected (R : runtime) (ns : gmap string stored) (names : list string)
  : option (list json) :=
  match names with
  | [] => Some []
  | name :: rest =>
      match content <$> ns !! name with
      | Some v =>
          if text_truthy (Some v)
          then match parse_stored R v with
               | Some j => cons j <$> sovereign_collected R ns rest
               | None => None
               end
          else sovereign_collected R ns rest
      | None => sovereign_collected R ns rest
      end
  end.

(** The session record after [handleDeliver] of the scaffold resolved it
    at [delivered_at]. *)
Definition resolved (session_id delivered_at : string) (record : json) : json :=
  Scaffold.assign_prop "delivered_at" (JStr delivered_at)
    (Scaffold.assign_prop "status" (JStr "delivered")
       (Scaffold.assign_prop "delivery" (Scaffold.delivery_for session_id) record)).

(** The sessions namespace is [s]. *)
Definition sessions_are (s : option (gmap string stored)) (w : world) : Prop :=
  sessions_kv w = s.

(** A deployment to run the handlers on: every namespace bound and empty,
    and a runtime whose clock and random source count the ticks (one
    millisecond a tick, from midnight of 2 November 2026), whose
    [Date.parse] reads the timestamps that clock writes, and whose
    provider grants every exchange.  The URLs of the deployment are
    written the way the URL parser writes them out. *)
Definition pad (width : nat) (n : Z) : string :=
  let digits := Z_to_string n in
  String.concat "" (repeat "0" (width - String.length digits)) +:+ digits.

Definition demo_midnight : Z := 1793577600000.

Definition demo_clock (t : nat) : string :=
  let ms := Z.of_nat t in
  "2026-11-02T" +:+ pad 2 (ms / 3600000 mod 24) +:+ ":" +:+ pad 2 (ms / 60000 mod 60)
  +:+ ":" +:+ pad 2 (ms / 1000 mod 60) +:+ "." +:+ pad 3 (ms mod 1000) +:+ "Z".

Fixpoint digits_value (acc : Z) (s : string) : option Z :=
  match s with
  | EmptyString => Some acc
  | String c rest =>
      let n := nat_of_ascii c in
      if ((48 <=? n) && (n <=? 57))%nat
      then digits_value (10 * acc + Z.of_nat (n - 48)) rest
      else None
  end.

Definition demo_Date_parse (s : string) : option Z :=
  if String.prefix "2026-11-02T" s && (String.length s =? 24)%nat
  then
    match digits_value 0 (String.substring 11 2 s), digits_value 0 (String.substring 14 2 s),
          digits_value 0 (String.substring 17 2 s), digits_value 0 (String.substring 20 3 s)
    with
    | Some h, Some m, Some sec, Some ms =>
        Some (demo_midnight + ((h * 60 + m) * 60 + sec) * 1000 + ms)
    | _, _, _, _ => None
    end
  else None.

Definition demo_runtime : runtime :=
  {| rt_randomUUID := fun t => "123e4567-e89b-12d3-a456-" +:+ pad 12 (Z.of_nat t);
     rt_has_randomUUID := true;
     rt_toISOString := demo_clock;
     rt_now := fun t => demo_midnight + Z.of_nat t;
     rt_random36 := fun t => "0." +:+ pad 6 (Z.of_nat t) +:+ "mvyr";
     rt_random_words := fun t => [1; 2; 3; Z.of_nat t];
     rt_fetch := fun _ _ => FetchResponse true (Some (JObj [("access_token", JStr "tok")]));
     rt_put_fails := fun _ => false;
     rt_JSON_parse := fun _ => None;
     rt_Date_parse := demo_Date_parse;
     rt_URL := fun s => if String.prefix "https://" s then Href s else NotAUrl "Invalid URL";
     rt_list_page := 1000 |}.

(** The demo runtime, except that the write at tick 1 fails. *)
Definition flaky_runtime : runtime :=
  {| rt_randomUUID := rt_randomUUID demo_runtime;
     rt_has_randomUUID := true;
     rt_toISOString := rt_toISOString demo_runtime;
     rt_now := rt_now demo_runtime;
     rt_random36 := rt_random36 demo_runtime;
     rt_random_words := rt_random_words demo_runtime;
     rt_fetch := rt_fetch demo_runtime;
     rt_put_fails := fun t => Nat.eqb t 1;
     rt_JSON_parse := rt_JSON_parse demo_runtime;
     rt_Date_parse := rt_Date_parse demo_runtime;
     rt_URL := rt_URL demo_runtime;
     rt_list_page := 1000 |}.

Definition demo_globals : globals :=
  {| SETUP_TOKEN := Some "s3cret" |}.

Definition fresh_world : world :=
  {| secrets_kv := Some ∅; sessions_kv := Some ∅; audit_kv := Some ∅;
     tick := 0; outbound := [] |}.

Definition post (p : string) (token : option string) (payload : json) : request :=
  {| method := "POST"; path := p; query := []; x_setup_token := token;
     body := Some payload |}.

Definition get (p : string) (q : params) : request :=
  {| method := "GET"; path := p; query := q; x_setup_token := None; body := None |}.

Definition demo_secrets : json := JObj [("STRIPE_SECRET_KEY", JStr "sk_live"); ("B", JNum 5)].

(** The scaffold configured for one provider, and with a handshake
    started. *)
Definition oauth_config : json :=
  JObj [("OAUTH_STRIPE_CLIENT_ID", JStr "ca_123");
        ("OAUTH_STRIPE_AUTH_URL", JStr "https://connect.stripe.com/oauth/authorize");
        ("OAUTH_STRIPE_TOKEN_URL", JStr "https://connect.stripe.com/oauth/token");
        ("OAUTH_STRIPE_CLIENT_SECRET", JStr "sk_123");
        ("OAUTH_REDIRECT_URI", JStr "https://example.com/api/oauth/callback")].

Definition configured_world : world :=
  snd (Scaffold.handleStoreSecrets demo_runtime demo_globals
         (post "/api/store-secrets" (Some "s3cret") (JObj [("secrets", oauth_config)]))
         fresh_world).

Definition issued_state : string := fst (state_at demo_runtime (tick configured_world)).

Definition issued_world : world :=
  snd (Scaffold.handleOAuthInit demo_runtime
         (get "/api/oauth/init" [("provider", "stripe")]) configured_world).

Definition callback (code state : string) : request :=
  get "/api/oauth/callback" [("code", code); ("state", state)].

(** A checkout of a pre-sold item. *)
Definition demo_checkout : request :=
  post "/api/create-checkout" None (JObj [("sku", JStr "PWS-0001"); ("presold", JBool true)]).

(** An audit payload that claims another administrator. *)
Definition imposter : json := JObj [("action", JStr "x"); ("admin", JStr "someone-else")].








(** [workers/worker.js] with a handshake started. *)
Definition sovereign_issued_state : string := rt_randomUUID demo_runtime 0.

Definition sovereign_issued_world : world :=
  snd (Sovereign.handleOAuthInit demo_runtime
         (get "/api/oauth/init" [("provider", "stripe")]) fresh_world).

(** ** Records, credentials and further demo worlds *)

(** The request carries the setup credential the deployment is configured
    with. *)
Definition authorized (G : globals) (req : request) : bool :=
  match SETUP_TOKEN G with Some tok => presents tok req | None => false end.

(** The record under [key] of a namespace, if there is one. *)
Definition record_at (b : binding) (key : string) (w : world) : option stored :=
  namespace_of b w ≫= (fun ns => ns !! key).

Definition record_is (b : binding) (key : string) (r : option stored) (w : world) : Prop :=
  record_at b key w = r.

(** The keys [handleStoreSecrets] of [workers/worker.js] writes: the
    secret records and the flag. *)
Definition setup_key (key : string) : bool :=
  String.prefix "secret_" key || String.eqb key flag_key.

(** A property of the world that does not look at the clock. *)
Definition ignores_clock (P : world -> Prop) : Prop :=
  forall w t, P w ->
    P {| secrets_kv := secrets_kv w; sessions_kv := sessions_kv w; audit_kv := audit_kv w;
         tick := t; outbound := outbound w |}.

(** The audit namespace is [a]. *)
Definition audit_is (a : option (gmap string stored)) (w : world) : Prop := audit_kv w = a.

(** No outbound request has been added to [sent]. *)
Definition outbound_is (sent : list fetch_call) (w : world) : Prop := outbound w = sent.

(** Every record of the audit namespace is an entry whose [admin] is
    [who]. *)
Definition audit_admin_is (who : string) (w : world) : Prop :=
  forall key s, record_at AUDIT_KV key w = Some s ->
    exists j, content s = Json j /\ prop j "admin" = Some (JStr who).

(** A computation keeps [P], and what it returns satisfies [Q]. *)
Definition yields {A} (P : world -> Prop) (c : M A) (Q : A -> Prop) : Prop :=
  forall w, P w -> P (snd (c w)) /\ forall a, fst (c w) = Done a -> Q a.

(** The delivery token [handleCreateCheckout] of [workers/worker.js] makes
    of the identifier drawn at tick [t], and the record it stores. *)
Definition delivery_token_at (R : runtime) (t : nat) : string :=
  toUpperCase (String.substring 0 12 (rt_randomUUID R t)).

Definition delivery_record (product_id sku buyer_email : json) (delivered : string) : json :=
  JObj [("product_id", product_id); ("sku", sku); ("buyer_email", buyer_email);
        ("delivered", JStr delivered); ("admin", JStr "Keli")].

(** The characters [encodeURIComponent] leaves as they are, and the
    strings made of them. *)
Definition unreserved (c : ascii) : bool := is_alnum c || in_string c "-_.!~*'()".

Definition all_unreserved (s : string) : bool := forallb unreserved (list_ascii_of_string s).

(** [workers/worker.js] after the one-time setup. *)
Definition sealed_world : world :=
  snd (Sovereign.handleStoreSecrets demo_runtime demo_globals
         (post "/api/store-secrets" (Some "s3cret") demo_secrets) fresh_world).

(** An order and two inbound messages for [workers/worker.js]; the first
    message carries a [received] of its own. *)
Definition demo_order : json :=
  JObj [("product_id", JStr "field-kit"); ("sku", JStr "PWS-0001");
        ("buyer_email", JStr "buyer@example.com")].

Definition first_email : json :=
  JObj [("from", JStr "a@example.com"); ("received", JStr "1999-01-01T00:00:00.000Z")].

Definition second_email : json := JObj [("from", JStr "b@example.com")].

Definition two_emails : world :=
  snd (Sovereign.handleInboundEmail demo_runtime (post "/api/inbound-email" None second_email)
         (snd (Sovereign.handleInboundEmail demo_runtime
                 (post "/api/inbound-email" None first_email) fresh_world))).

(** A request whose body does not parse. *)
Definition unparsable (p : string) : request :=
  {| method := "POST"; path := p; query := []; x_setup_token := None; body := None |}.

(** The scaffold with a checkout session that is not pre-sold. *)
Definition pending_checkout : request :=
  post "/api/create-checkout" None (JObj [("sku", JStr "PWS-0002")]).

Definition pending_world : world :=
  snd (Scaffold.handleCreateCheckout demo_runtime demo_globals pending_checkout fresh_world).

(** The demo runtime with a provider that refuses every exchange. *)
Definition refusing_runtime : runtime :=
  {| rt_randomUUID := rt_randomUUID demo_runtime;
     rt_has_randomUUID := true;
     rt_toISOString := rt_toISOString demo_runtime;
     rt_now := rt_now demo_runtime;
     rt_random36 := rt_random36 demo_runtime;
     rt_random_words := rt_random_words demo_runtime;
     rt_fetch := fun _ _ => FetchResponse false (Some (JObj [("error", JStr "invalid_grant")]));
     rt_put_fails := rt_put_fails demo_runtime;
     rt_JSON_parse := rt_JSON_parse demo_runtime;
     rt_Date_parse := rt_Date_parse demo_runtime;
     rt_URL := rt_URL demo_runtime;
     rt_list_page := 1000 |}.

(** The demo runtime with a provider that grants the exchange of the code
    "code-1" for the demo deployment and refuses every other. *)
Definition choosy_runtime : runtime :=
  {| rt_randomUUID := rt_randomUUID demo_runtime;
     rt_has_randomUUID := true;
     rt_toISOString := rt_toISOString demo_runtime;
     rt_now := rt_now demo_runtime;
     rt_random36 := rt_random36 demo_runtime;
     rt_random_words := rt_random_words demo_runtime;
     rt_fetch := fun _ call =>
       if String.eqb (fetch_body call)
            (fetch_body (token_request configured_world "stripe" "code-1"))
       then rt_fetch demo_runtime 0%nat call
       else FetchResponse false (Some (JObj [("error", JStr "invalid_grant")]));
     rt_put_fails := rt_put_fails demo_runtime;
     rt_JSON_parse := rt_JSON_parse demo_runtime;
     rt_Date_parse := rt_Date_parse demo_runtime;
     rt_URL := rt_URL demo_runtime;
     rt_list_page := 1000 |}.

End Props.

(** ** Proof rules for the handlers *)

Import Js Runtime Props.

(** Runs the runtime's primitives on an explicit world. *)
Ltac exec :=
  unfold request_json, JSON_parse, randomUUID, toISOString_now, Date_now, Math_random36,
    random_words, kv_get, kv_put, kv_list, is_bound, fetch, next_tick, try_catch,
    bind, ret, throw;
  cbn [namespace_of set_namespace secrets_kv sessions_kv audit_kv tick outbound
       parse_stored fst snd negb andb orb].

Lemma preserves_ret {A} P (a : A) : preserves P (ret a).
Proof. intros w H. exact H. Qed.

Lemma preserves_throw {A} P message : preserves P (@throw A message).
Proof. intros w H. exact H. Qed.

Lemma preserves_bind {A B} P (c : M A) (k : A -> M B) :
  preserves P c -> (forall a, preserves P (k a)) -> preserves P (bind c k).
Proof.
  intros Hc Hk w H. unfold bind. specialize (Hc w H).
  destruct (c w) as [[a|message] w']; cbn [snd] in *; [apply Hk; exact Hc | exact Hc].
Qed.

Lemma preserves_try_catch {A} P (c : M A) h :
  preserves P c -> (forall message, preserves P (h message)) -> preserves P (try_catch c h).
Proof.
  intros Hc Hh w H. unfold try_catch. specialize (Hc w H).
  destruct (c w) as [[a|message] w']; cbn [snd] in *; [exact Hc | apply Hh; exact Hc].
Qed.

Section Rules.
Context {P : world -> Prop} (Hticks : ignores_ticks P).

Lemma preserves_next_tick : preserves P next_tick.
Proof. intros w H. apply (Hticks w _ _ H). Qed.

Lemma preserves_is_bound b : preserves P (is_bound b).
Proof. intros w H. exact H. Qed.

Lemma preserves_kv_get b key : preserves P (kv_get b key).
Proof. intros w H. unfold kv_get. destruct (namespace_of b w); exact H. Qed.

Lemma preserves_kv_list R b prefix limit : preserves P (kv_list R b prefix limit).
Proof. intros w H. unfold kv_list. destruct (namespace_of b w); exact H. Qed.

Lemma preserves_fetch R call : preserves P (fetch R call).
Proof. intros w H. apply (Hticks w _ _ H). Qed.

Lemma preserves_kv_put R b key v ttl :
  stable_under_put P b key v -> preserves P (kv_put R b key v ttl).
Proof.
  intros Hput [sec ses aud t o] H. unfold kv_put, bind, next_tick.
  cbn [tick secrets_kv sessions_kv audit_kv outbound].
  pose proof (Hticks _ (S t) o H) as H'. cbn in H'.
  destruct b; cbn [namespace_of secrets_kv sessions_kv audit_kv].
  - destruct sec as [ns|]; [|exact H'].
    destruct (rt_put_fails R t); [exact H'|]. refine (Hput _ ns ttl _ H'); reflexivity.
  - destruct ses as [ns|]; [|exact H'].
    destruct (rt_put_fails R t); [exact H'|]. refine (Hput _ ns ttl _ H'); reflexivity.
  - destruct aud as [ns|]; [|exact H'].
    destruct (rt_put_fails R t); [exact H'|]. refine (Hput _ ns ttl _ H'); reflexivity.
Qed.
End Rules.

Create HintDb frame discriminated.

Ltac frame_step :=
  first
    [ apply preserves_ret
    | apply preserves_throw
    | apply preserves_is_bound
    | apply preserves_kv_get
    | apply preserves_kv_list; solve [auto with frame]
    | apply preserves_next_tick; solve [auto with frame]
    | apply preserves_fetch; solve [auto with frame]
    | apply preserves_kv_put; solve [auto with frame]
    | solve [auto with frame]
    | apply preserves_try_catch; [| intros ?]
    | apply preserves_bind; [| intros ?]
    | match goal with
      | |- preserves _ (match ?x with _ => _ end) => destruct x
      | |- preserves _ (if ?x then _ else _) => destruct x
      end ].

Ltac frame := cbv beta zeta; repeat frame_step.

(** ** The flag of [workers/worker.js] is never reset *)

Lemma secret_key_not_flag k : "secret_" +:+ k <> flag_key.
Proof. intros H. discriminate H. Qed.
Lemma email_key_not_flag k : "email_" +:+ k <> flag_key.
Proof. intros H. discriminate H. Qed.
Lemma delivery_key_not_flag k : "delivery_" +:+ k <> flag_key.
Proof. intros H. discriminate H. Qed.
Lemma token_key_not_flag k : "oauth_token_" +:+ k <> flag_key.
Proof. intros H. discriminate H. Qed.
Lemma manual_token_not_flag : "manual_token" <> flag_key.
Proof. intros H. discriminate H. Qed.

Lemma flag_ignores_ticks : ignores_ticks flag_set.
Proof. intros w t o H. exact H. Qed.

Lemma flag_stable_other_namespace b key v :
  b <> SECRETS_KV -> stable_under_put flag_set b key v.
Proof.
  intros Hb [sec ses aud t o] ns ttl Hns H.
  destruct b; [contradiction| |]; exact H.
Qed.

Lemma flag_stable_other_key key v :
  key <> flag_key -> stable_under_put flag_set SECRETS_KV key v.
Proof.
  intros Hk [sec ses aud t o] ns ttl Hns H. cbn in Hns. subst sec.
  unfold flag_set, initialized in *. cbn [set_namespace secrets_kv] in *.
  rewrite lookup_insert_ne; [exact H | exact Hk].
Qed.

Lemma flag_stable_true key : stable_under_put flag_set SECRETS_KV key (Text "true").
Proof.
  intros [sec ses aud t o] ns ttl Hns H. cbn in Hns. subst sec.
  unfold flag_set, initialized in *. cbn [set_namespace secrets_kv] in *.
  destruct (decide (key = flag_key)) as [->|Hk].
  - rewrite lookup_insert_eq. reflexivity.
  - rewrite lookup_insert_ne; [exact H | exact Hk].
Qed.

#[local] Hint Resolve flag_ignores_ticks flag_stable_true : frame.
#[local] Hint Extern 1 (stable_under_put flag_set SESSIONS_KV _ _) =>
  apply flag_stable_other_namespace; discriminate : frame.
#[local] Hint Extern 1 (stable_under_put flag_set AUDIT_KV _ _) =>
  apply flag_stable_other_namespace; discriminate : frame.
#[local] Hint Extern 2 (stable_under_put flag_set SECRETS_KV _ _) =>
  apply flag_stable_other_key;
  first [ apply secret_key_not_flag | apply email_key_not_flag | apply delivery_key_not_flag
        | apply token_key_not_flag | apply manual_token_not_flag ] : frame.

Lemma logAudit_keeps_flag R action details :
  preserves flag_set (Sovereign.logAudit R action details).
Proof. unfold Sovereign.logAudit, randomUUID, toISOString_now. frame. Qed.

Lemma store_each_keeps_flag R entries : preserves flag_set (Sovereign.store_each R entries).
Proof. induction entries as [|[k v] rest IH]; cbn [Sovereign.store_each]; frame. Qed.

Lemma collect_keeps_flag R b names : preserves flag_set (Sovereign.collect R b names).
Proof.
  induction names as [|n rest IH]; cbn [Sovereign.collect]; unfold JSON_parse; frame.
Qed.

#[local] Hint Resolve logAudit_keeps_flag store_each_keeps_flag collect_keeps_flag : frame.

(** No route of [workers/worker.js] resets the flag. *)
Lemma handleRequest_keeps_flag R G req : preserves flag_set (Sovereign.handleRequest R G req).
Proof.
  unfold Sovereign.handleRequest.
  unfold Sovereign.handleStoreSecrets, Sovereign.handleOAuthInit, Sovereign.handleOAuthCallback,
    Sovereign.handleInboundEmail, Sovereign.handleCreateCheckout, Sovereign.handleDeliver,
    Sovereign.handleAudit, Sovereign.handleGetAuditLogs, Sovereign.handleGetMessages,
    Sovereign.handleStoreToken, Sovereign.stamp, Sovereign.sort_newest_first,
    Sovereign.isPresold,
    request_json, JSON_parse, randomUUID, toISOString_now.
  frame.
Qed.

(** ** One-time setup *)

Lemma reliable_from_any R t : reliable R -> reliable_from R t.
Proof. intros H n _. apply H. Qed.

Lemma reliable_from_le R t t' : (t <= t')%nat -> reliable_from R t -> reliable_from R t'.
Proof. intros Hle H n Hn. apply H. lia. Qed.

Lemma write_secrets_dom prefix entries ns :
  dom (write_secrets prefix entries ns)
  = dom ns ∪ list_to_set (List.map (fun kv => prefix +:+ fst kv) entries).
Proof.
  unfold write_secrets. revert ns.
  induction entries as [|[k v] rest IH]; intros ns; cbn [fold_left List.map list_to_set fst snd].
  - rewrite (right_id_L ∅ (∪)). reflexivity.
  - rewrite IH, dom_insert_L.
    rewrite (assoc_L (∪)). f_equal. apply (comm_L (∪)).
Qed.

Lemma write_secrets_flag entries ns :
  write_secrets "secret_" entries ns !! flag_key = ns !! flag_key.
Proof.
  unfold write_secrets. revert ns.
  induction entries as [|[k v] rest IH]; intros ns; cbn [fold_left fst snd]; [reflexivity|].
  rewrite IH. apply lookup_insert_ne. apply secret_key_not_flag.
Qed.

(** The loop of [workers/worker.js] when no write fails. *)
Lemma sovereign_store_each_run R entries :
  forall ns ses aud t o, reliable_from R t ->
  Sovereign.store_each R entries
    {| secrets_kv := Some ns; sessions_kv := ses; audit_kv := aud; tick := t; outbound := o |}
  = (Done tt,
     {| secrets_kv := Some (write_secrets "secret_" entries ns);
        sessions_kv := ses; audit_kv := aud;
        tick := (length entries + t)%nat; outbound := o |}).
Proof.
  induction entries as [|[k v] rest IH]; intros ns ses aud t o HR.
  - reflexivity.
  - cbn [Sovereign.store_each]. exec. rewrite (HR t (le_n t)).
    rewrite IH by (eapply reliable_from_le; [|exact HR]; lia).
    cbn [length write_secrets fold_left fst snd].
    rewrite Nat.add_succ_r. reflexivity.
Qed.

(** The loop when the write number [i] fails: it throws, and what was
    written is a prefix of the batch. *)
Lemma sovereign_store_each_fails R entries :
  forall ns ses aud t o i,
  (i < length entries)%nat -> rt_put_fails R (t + i) = true ->
  exists message k w',
    Sovereign.store_each R entries
      {| secrets_kv := Some ns; sessions_kv := ses; audit_kv := aud; tick := t; outbound := o |}
    = (Thrown message, w')
    /\ (k < length entries)%nat
    /\ secrets_kv w' = Some (write_secrets "secret_" (firstn k entries) ns)
    /\ sessions_kv w' = ses /\ audit_kv w' = aud.
Proof.
  induction entries as [|[k v] rest IH]; intros ns ses aud t o i Hi Hfail.
  - cbn in Hi. lia.
  - cbn [Sovereign.store_each]. exec.
    destruct (rt_put_fails R t) eqn:Hnow.
    + exists "KV put failed", 0%nat. eexists. cbn [length firstn].
      split; [reflexivity|]. split; [lia|]. repeat split.
    + destruct i as [|i]; [rewrite Nat.add_0_r in Hfail; congruence|].
      cbn [length] in Hi.
      destruct (IH (<["secret_" +:+ k := put_entry (put_arg v) None]> ns) ses aud (S t) o i)
        as (message & n & w' & E & Hn & Hsec & Hses & Haud).
      { lia. } { rewrite <- Hfail. f_equal. lia. }
      unfold put_entry in E. rewrite E.
      exists message, (S n), w'. cbn [length firstn].
      split; [reflexivity|]. split; [lia|]. repeat split; assumption.
Qed.

Lemma sovereign_first_setup R G req w tok secrets entries ns au :
  reliable_from R (tick w) ->
  SETUP_TOKEN G = Some tok -> presents tok req = true ->
  secrets_kv w = Some ns -> audit_kv w = Some au -> initialized w = false ->
  body req = Some secrets -> Object_entries secrets = Some entries ->
  exists w',
    Sovereign.handleStoreSecrets R G req w
    = (Done (Sovereign.json_response
               (JObj [("success", JBool true);
                      ("message", JStr "Secrets stored successfully")]) 200), w')
    /\ secrets_kv w'
       = Some (<[flag_key := put_entry (Text "true") None]>
                 (write_secrets "secret_" entries ns))
    /\ sessions_kv w' = sessions_kv w
    /\ initialized w' = true.
Proof.
  intros HR HG Hp Hns Hau Hinit Hbody Hent.
  destruct w as [sec ses aud t o]. cbn in Hns, Hau, HR. subst sec aud.
  unfold initialized, flag_key in Hinit. cbn [secrets_kv] in Hinit.
  unfold presents in Hp. unfold Sovereign.handleStoreSecrets.
  destruct (x_setup_token req) as [s|]; [|discriminate].
  apply andb_prop in Hp as [Hne Heq]. apply negb_true_iff in Hne.
  rewrite Hne, HG, Heq. exec. rewrite Hinit, Hbody, Hent.
  rewrite (sovereign_store_each_run R entries) by exact HR.
  unfold Sovereign.logAudit. exec. rewrite HR by lia. exec. rewrite HR by lia.
  eexists. split; [reflexivity|]. cbn [secrets_kv sessions_kv].
  split; [reflexivity|]. split; [reflexivity|].
  unfold initialized. cbn [secrets_kv]. rewrite lookup_insert_eq. reflexivity.
Qed.

Lemma sovereign_setup_locked R G req w tok :
  SETUP_TOKEN G = Some tok -> initialized w = true ->
  Sovereign.handleStoreSecrets R G req w
  = (Done (Sovereign.error_response
             (if presents tok req then "Secrets already initialized"
              else "Invalid setup token") 403), w).
Proof.
  intros HG Hinit. unfold Sovereign.handleStoreSecrets, presents.
  destruct (x_setup_token req) as [s|]; [|reflexivity].
  destruct (String.eqb s ""); [reflexivity|]. rewrite HG. cbn [negb andb].
  destruct (String.eqb s tok); [|reflexivity]. cbn [negb].
  unfold initialized, flag_key in Hinit. destruct w as [sec ses aud t o].
  cbn [secrets_kv] in Hinit.
  destruct sec as [ns|]; [|discriminate]. exec. rewrite Hinit. reflexivity.
Qed.

(** The loop of the scaffold when no write fails. *)
Lemma scaffold_store_each_run R entries :
  forall ns ses aud t o, reliable_from R t ->
  Scaffold.store_each R entries
    {| secrets_kv := Some ns; sessions_kv := ses; audit_kv := aud; tick := t; outbound := o |}
  = (Done (List.map fst entries),
     {| secrets_kv := Some (write_secrets "secret:" entries ns);
        sessions_kv := ses; audit_kv := aud;
        tick := (length entries + t)%nat; outbound := o |}).
Proof.
  induction entries as [|[k v] rest IH]; intros ns ses aud t o HR.
  - reflexivity.
  - cbn [Scaffold.store_each]. exec. rewrite (HR t (le_n t)).
    rewrite IH by (eapply reliable_from_le; [|exact HR]; lia).
    cbn [length write_secrets fold_left fst snd List.map].
    rewrite Nat.add_succ_r. reflexivity.
Qed.

Lemma scaffold_setup R G req w tok fields secrets ns :
  reliable_from R (tick w) -> method req = "POST" ->
  SETUP_TOKEN G = Some tok -> presents tok req = true ->
  secrets_kv w = Some ns ->
  body req = Some (JObj fields) -> assoc "secrets" fields = Some secrets ->
  object_valued secrets = true ->
  Scaffold.handleStoreSecrets R G req w
  = (Thrown Scaffold.reference_error,
     {| secrets_kv := Some (write_secrets "secret:" (own_entries secrets) ns);
        sessions_kv := sessions_kv w; audit_kv := audit_kv w;
        tick := S (length (own_entries secrets) + tick w); outbound := outbound w |}).
Proof.
  intros HR Hm HG Hp Hns Hbody Hsec Hobj.
  destruct w as [sec ses aud t o]. cbn in Hns, HR. subst sec.
  unfold presents in Hp. unfold Scaffold.handleStoreSecrets.
  destruct (x_setup_token req) as [s|]; [|discriminate].
  apply andb_prop in Hp as [Hne Heq]. apply negb_true_iff in Hne.
  assert (Htok : String.eqb tok "" = false).
  { apply String.eqb_eq in Heq. subst s. exact Hne. }
  rewrite Hm, Hne, HG, Htok, Heq, Hbody. cbn [String.eqb Ascii.eqb Bool.eqb negb truthy prop].
  rewrite Hsec.
  assert (Hacc : negb (truthy secrets) || negb (typeof_object secrets) = false)
    by (destruct secrets; try discriminate; reflexivity).
  rewrite Hacc. exec. rewrite (scaffold_store_each_run R) by exact HR.
  unfold Scaffold.audit_record, Scaffold.ADMIN_HANDLE. exec. reflexivity.
Qed.

(** C1, as the code has it.  In [workers/worker.js]: a first call with
    the valid credential and a JSON body writes one [secret_<k>] record
    per entry of the body, then the flag, and answers with a success
    message that lists no key; once the flag is "true" every call fails
    with 403 and writes nothing, as "already initialized" with the valid
    credential and as "invalid setup token" with any other; and no route
    resets the flag.  In the scaffold, which keeps no flag, a call with
    the valid credential and a body [{secrets: S}] leaves the secrets
    namespace with one [secret:<k>] record written per entry of [S]. *)
Theorem setup_once :
  (forall R G req w tok secrets entries ns au,
      reliable_from R (tick w) ->
      SETUP_TOKEN G = Some tok -> presents tok req = true ->
      secrets_kv w = Some ns -> audit_kv w = Some au -> initialized w = false ->
      body req = Some secrets -> Object_entries secrets = Some entries ->
      exists w' ns',
        Sovereign.handleStoreSecrets R G req w
        = (Done (Sovereign.json_response
                   (JObj [("success", JBool true);
                          ("message", JStr "Secrets stored successfully")]) 200), w')
        /\ secrets_kv w' = Some ns'
        /\ ns' = <[flag_key := put_entry (Text "true") None]>
                   (write_secrets "secret_" entries ns)
        /\ dom ns' = dom ns ∪ list_to_set (List.map (fun kv => "secret_" +:+ fst kv) entries)
                     ∪ {[flag_key]}
        /\ initialized w' = true)
  /\ (forall R G req w tok,
        SETUP_TOKEN G = Some tok -> initialized w = true ->
        Sovereign.handleStoreSecrets R G req w
        = (Done (Sovereign.error_response
                   (if presents tok req then "Secrets already initialized"
                    else "Invalid setup token") 403), w))
  /\ (forall R G req w,
        initialized w = true ->
        initialized (snd (Sovereign.handleRequest R G req w)) = true)
  /\ (forall R G req w tok fields secrets ns,
        reliable_from R (tick w) -> method req = "POST" ->
        SETUP_TOKEN G = Some tok -> presents tok req = true ->
        secrets_kv w = Some ns ->
        body req = Some (JObj fields) -> assoc "secrets" fields = Some secrets ->
        object_valued secrets = true ->
        secrets_kv (snd (Scaffold.handleStoreSecrets R G req w))
        = Some (write_secrets "secret:" (own_entries secrets) ns)
        /\ dom (write_secrets "secret:" (own_entries secrets) ns)
           = dom ns ∪ list_to_set (List.map (fun kv => "secret:" +:+ fst kv)
                                     (own_entries secrets))).
Proof.
  split; [|split; [|split]].
  - intros R G req w tok secrets entries ns au HR HG Hp Hns Hau Hinit Hbody Hent.
    destruct (sovereign_first_setup R G req w tok secrets entries ns au)
      as (w' & E & Hsec & _ & Hflag); try assumption.
    exists w'. eexists. split; [exact E|]. split; [exact Hsec|]. split; [reflexivity|].
    split; [|exact Hflag].
    rewrite dom_insert_L, write_secrets_dom. apply (comm_L (∪)).
  - intros R G req w tok. apply sovereign_setup_locked.
  - intros R G req w. apply handleRequest_keeps_flag.
  - intros R G req w tok fields secrets ns HR Hm HG Hp Hns Hbody Hsec Hobj.
    rewrite (scaffold_setup R G req w tok fields secrets ns) by assumption.
    split; [reflexivity | apply write_secrets_dom].
Qed.

(** The first part of [setup_once] on the demo deployment, then a second
    call with the same credential and body. *)
Lemma setup_once_witness :
  exists w',
    Sovereign.handleStoreSecrets demo_runtime demo_globals
      (post "/api/store-secrets" (Some "s3cret") demo_secrets) fresh_world
    = (Done (Sovereign.json_response
               (JObj [("success", JBool true);
                      ("message", JStr "Secrets stored successfully")]) 200), w')
    /\ initialized w' = true
    /\ Sovereign.handleStoreSecrets demo_runtime demo_globals
         (post "/api/store-secrets" (Some "s3cret") demo_secrets) w'
       = (Done (Sovereign.error_response "Secrets already initialized" 403), w').
Proof.
  destruct setup_once as (First & Locked & _ & _).
  destruct (First demo_runtime demo_globals
              (post "/api/store-secrets" (Some "s3cret") demo_secrets) fresh_world
              "s3cret" demo_secrets (own_entries demo_secrets) ∅ ∅)
    as (w' & ns' & E & _ & _ & _ & Hflag);
    try reflexivity.
  - intros n _. reflexivity.
  - exists w'. split; [exact E|]. split; [exact Hflag|].
    exact (Locked demo_runtime demo_globals _ w' "s3cret" eq_refl Hflag).
Defined.

(** C1 fails as stated on [workers/worker.js]: the first call answers
    with a message and no list of key names, and a later call with another
    credential fails as "invalid setup token", not as "already
    initialized". *)
Lemma setup_once_counterexample :
  let first :=
    Sovereign.handleStoreSecrets demo_runtime demo_globals
      (post "/api/store-secrets" (Some "s3cret") demo_secrets) fresh_world in
  fst first
  = Done (Sovereign.json_response
            (JObj [("success", JBool true);
                   ("message", JStr "Secrets stored successfully")]) 200)
  /\ initialized (snd first) = true
  /\ fst (Sovereign.handleStoreSecrets demo_runtime demo_globals
            (post "/api/store-secrets" (Some "guess") demo_secrets) (snd first))
     = Done (Sovereign.error_response "Invalid setup token" 403)
  /\ Sovereign.error_response "Invalid setup token" 403
     <> Sovereign.error_response "Secrets already initialized" 403.
Proof.
  cbv zeta. split; [vm_compute; reflexivity|]. split; [vm_compute; reflexivity|].
  split; [vm_compute; reflexivity|]. intros H. discriminate H.
Qed.

(** ** Writes before the flag *)

(** C7.  In [handleStoreSecrets] of [workers/worker.js] the secret records
    are written before the flag: when the write number [i] of the batch
    fails, the call throws, only a prefix of the batch has been written
    and the flag is still unset; and the same call, retried once writes
    no longer fail, succeeds and sets the flag. *)
Theorem writes_before_flag R G req w tok secrets entries ns au i :
  SETUP_TOKEN G = Some tok -> presents tok req = true ->
  secrets_kv w = Some ns -> audit_kv w = Some au -> initialized w = false ->
  body req = Some secrets -> Object_entries secrets = Some entries ->
  (i < length entries)%nat -> rt_put_fails R (tick w + i) = true ->
  exists message k w',
    Sovereign.handleStoreSecrets R G req w = (Thrown message, w')
    /\ (k < length entries)%nat
    /\ secrets_kv w' = Some (write_secrets "secret_" (firstn k entries) ns)
    /\ initialized w' = false
    /\ (reliable_from R (tick w') ->
        exists w'',
          Sovereign.handleStoreSecrets R G req w'
          = (Done (Sovereign.json_response
                     (JObj [("success", JBool true);
                            ("message", JStr "Secrets stored successfully")]) 200), w'')
          /\ secrets_kv w''
             = Some (<[flag_key := put_entry (Text "true") None]>
                       (write_secrets "secret_" entries
                          (write_secrets "secret_" (firstn k entries) ns)))
          /\ initialized w'' = true).
Proof.
  intros HG Hp Hns Hau Hinit Hbody Hent Hi Hfail.
  destruct w as [sec ses aud t o]. cbn in Hns, Hau, Hfail. subst sec aud.
  destruct (sovereign_store_each_fails R entries ns ses (Some au) t o i Hi Hfail)
    as (message & k & w' & E & Hk & Hsec & Hses & Haud).
  assert (Hunset : initialized w' = false).
  { unfold initialized in *. rewrite Hsec. cbn [secrets_kv] in Hinit.
    rewrite write_secrets_flag. exact Hinit. }
  exists message, k, w'. split.
  - pose proof Hp as Hp'. unfold presents in Hp'. unfold Sovereign.handleStoreSecrets.
    destruct (x_setup_token req) as [s|]; [|discriminate].
    apply andb_prop in Hp' as [Hne Heq]. apply negb_true_iff in Hne.
    unfold initialized, flag_key in Hinit. cbn [secrets_kv] in Hinit.
    rewrite Hne, HG, Heq. exec. rewrite Hinit, Hbody, Hent, E. reflexivity.
  - split; [exact Hk|]. split; [exact Hsec|]. split; [exact Hunset|].
    intros HR.
    destruct (sovereign_first_setup R G req w' tok secrets entries
                (write_secrets "secret_" (firstn k entries) ns) au)
      as (w'' & E' & Hsec' & _ & Hflag); try assumption.
    exists w''. repeat split; assumption.
Qed.

(** [writes_before_flag] on the demo deployment, with the runtime whose
    second write fails: the first call throws with one secret written and
    the flag unset, and the retried call succeeds and sets the flag. *)
Lemma writes_before_flag_witness :
  let setup := post "/api/store-secrets" (Some "s3cret") demo_secrets in
  let failed := Sovereign.handleStoreSecrets flaky_runtime demo_globals setup fresh_world in
  exists message w'',
    fst failed = Thrown message
    /\ secrets_kv (snd failed)
       = Some (write_secrets "secret_" (firstn 1 (own_entries demo_secrets)) ∅)
    /\ initialized (snd failed) = false
    /\ Sovereign.handleStoreSecrets flaky_runtime demo_globals setup (snd failed)
       = (Done (Sovereign.json_response
                  (JObj [("success", JBool true);
                         ("message", JStr "Secrets stored successfully")]) 200), w'')
    /\ initialized w'' = true.
Proof.
  cbv zeta.
  destruct (writes_before_flag flaky_runtime demo_globals
              (post "/api/store-secrets" (Some "s3cret") demo_secrets) fresh_world
              "s3cret" demo_secrets (own_entries demo_secrets) ∅ ∅ 1%nat)
    as (message & k & w' & E & _ & _ & Hunset & Hretry);
    [reflexivity | reflexivity | reflexivity | reflexivity | reflexivity | reflexivity
    | reflexivity | cbn; lia | reflexivity |].
  rewrite E. cbn [fst snd].
  assert (Hw' : tick w' = 2%nat /\
                secrets_kv w'
                = Some (write_secrets "secret_" (firstn 1 (own_entries demo_secrets)) ∅)).
  { pose proof (f_equal snd E) as H. cbn [snd] in H. rewrite <- H.
    split; vm_compute; reflexivity. }
  destruct Hw' as [Htick Hsec].
  destruct Hretry as (w'' & E' & _ & Hset).
  { rewrite Htick. intros n Hn. cbn. destruct n as [|[|n]]; [lia | lia | reflexivity]. }
  exists message, w''. repeat split; assumption.
Defined.

(** ** The payload check of the scaffold *)

Lemma payload_rejected payload :
  well_formed_payload (Some payload) = false ->
  match (if truthy payload then prop payload "secrets" else None) with
  | Some secrets => negb (truthy secrets) || negb (typeof_object secrets) = true
  | None => True
  end.
Proof.
  intros H. destruct payload as [| b | n | s | xs | fields]; cbn [truthy prop].
  1-5: repeat match goal with |- context [if ?c then _ else _] => destruct c end; exact I.
  cbn [well_formed_payload] in H. destruct (assoc "secrets" fields) as [v|]; [|exact I].
  destruct v; try discriminate; cbn [truthy typeof_object negb orb]; try reflexivity;
    apply orb_true_r.
Qed.

(** C10.  [handleStoreSecrets] of the scaffold leaves the world as it is
    on every body that is not an object with an object-valued [secrets]
    field (object-valued as [typeof] has it: an object or an array), and
    with the valid credential the answer is a 400.  A secrets map sent as
    the top-level body is such a body. *)
Theorem store_secrets_rejects_malformed R G req w :
  well_formed_payload (body req) = false ->
  snd (Scaffold.handleStoreSecrets R G req w) = w /\
  forall tok, method req = "POST" -> SETUP_TOKEN G = Some tok -> presents tok req = true ->
    exists message,
      fst (Scaffold.handleStoreSecrets R G req w) = Done (Scaffold.error_response message 400).
Proof.
  intros Hbad. unfold Scaffold.handleStoreSecrets. split.
  - destruct (negb (String.eqb (method req) "POST")); [reflexivity|].
    destruct (String.eqb _ ""); [reflexivity|].
    destruct (SETUP_TOKEN G) as [e|]; [|reflexivity].
    destruct (String.eqb e ""); [reflexivity|].
    destruct (negb (String.eqb _ e)); [reflexivity|].
    destruct (body req) as [payload|]; [|reflexivity].
    pose proof (payload_rejected payload Hbad) as Hrej.
    destruct (if truthy payload then prop payload "secrets" else None); [|reflexivity].
    rewrite Hrej. reflexivity.
  - intros tok Hm HG Hp. unfold presents in Hp.
    destruct (x_setup_token req) as [s|]; [|discriminate].
    apply andb_prop in Hp as [Hne Heq]. apply negb_true_iff in Hne.
    assert (Htok : String.eqb tok "" = false).
    { apply String.eqb_eq in Heq. subst s. exact Hne. }
    rewrite Hm, Hne, HG, Htok, Heq. cbn [String.eqb Ascii.eqb Bool.eqb negb].
    destruct (body req) as [payload|]; [|eexists; reflexivity].
    pose proof (payload_rejected payload Hbad) as Hrej.
    destruct (if truthy payload then prop payload "secrets" else None);
      [rewrite Hrej|]; eexists; reflexivity.
Qed.

(** [store_secrets_rejects_malformed] on the secrets map sent as the
    top-level body. *)
Lemma store_secrets_rejects_malformed_witness :
  snd (Scaffold.handleStoreSecrets demo_runtime demo_globals
         (post "/api/store-secrets" (Some "s3cret") demo_secrets) fresh_world)
  = fresh_world
  /\ exists message,
       fst (Scaffold.handleStoreSecrets demo_runtime demo_globals
              (post "/api/store-secrets" (Some "s3cret") demo_secrets) fresh_world)
       = Done (Scaffold.error_response message 400).
Proof.
  destruct (store_secrets_rejects_malformed demo_runtime demo_globals
              (post "/api/store-secrets" (Some "s3cret") demo_secrets) fresh_world eq_refl)
    as [Hworld Hstatus].
  split; [exact Hworld|].
  exact (Hstatus "s3cret" eq_refl eq_refl eq_refl).
Defined.

(** ** The OAuth handshake of the scaffold *)

Lemma getSecret_run name w :
  Scaffold.getSecret name w = (Done (secret_of w name), w).
Proof.
  unfold Scaffold.getSecret, secret_of. destruct w as [sec ses aud t o]. exec.
  destruct sec; reflexivity.
Qed.

Lemma kvGet_run R kv key w :
  Scaffold.kvGet R kv key w
  = (match kv_read R kv key w with
     | Some j => Done j
     | None => Thrown "Unexpected token in JSON"
     end, w).
Proof.
  unfold Scaffold.kvGet, kv_read, is_bound, kv_get, JSON_parse, bind, ret, throw.
  destruct (namespace_of kv w) as [ns|] eqn:Hns; [|reflexivity].
  cbv beta iota delta [negb]. rewrite Hns.
  destruct (content <$> ns !! key) as [v|]; [|reflexivity].
  destruct (text_truthy (Some v)); [|reflexivity].
  destruct (parse_stored R v); reflexivity.
Qed.

Lemma token_params_shape code redirect clientId clientSecret :
  Scaffold.token_params code redirect clientId clientSecret
  = [("grant_type", "authorization_code"); ("code", code);
     ("redirect_uri", or_null redirect); ("client_id", clientId)]
    ++ (if nonempty clientSecret then [("client_secret", or_null clientSecret)] else []).
Proof. unfold Scaffold.token_params. destruct (nonempty clientSecret); reflexivity. Qed.

Lemma nonempty_Some s : s <> "" -> nonempty (Some s) = true.
Proof.
  intros H. cbn. destruct (String.eqb_spec s ""); [contradiction|reflexivity].
Qed.

Lemma nonempty_inv o : nonempty o = true -> exists s, o = Some s /\ s <> "".
Proof.
  destruct o as [s|]; cbn; [|discriminate]. intros H. exists s. split; [reflexivity|].
  intros ->. discriminate H.
Qed.

(** Without a state record the scaffold answers 400 and touches nothing. *)
Lemma scaffold_callback_no_state R G req w code state :
  params_get "code" (query req) = Some code -> code <> "" ->
  params_get "state" (query req) = Some state -> state <> "" ->
  no_record SESSIONS_KV ("oauth_state:" +:+ state) w ->
  Scaffold.handleOAuthCallback R G req w
  = (Done (Scaffold.error_response "invalid or expired state" 400), w).
Proof.
  intros Hc Hcne Hs Hsne Hno. unfold Scaffold.handleOAuthCallback.
  rewrite Hc, Hs, !nonempty_Some by assumption. cbn [negb orb or_null].
  unfold bind. rewrite kvGet_run. unfold kv_read, no_record in *.
  destruct (namespace_of SESSIONS_KV w) as [ns|]; [rewrite Hno|]; reflexivity.
Qed.

(** With a state record and the token endpoint configured, the scaffold
    sends the token request, whatever comes of it. *)
Lemma scaffold_callback_exchanges R G req w code state stateObj provider tokenUrl clientId :
  params_get "code" (query req) = Some code -> code <> "" ->
  params_get "state" (query req) = Some state -> state <> "" ->
  kv_read R SESSIONS_KV ("oauth_state:" +:+ state) w = Some stateObj ->
  truthy stateObj = true -> prop stateObj "provider" = Some (JStr provider) ->
  secret_of w (Scaffold.provider_key provider "_TOKEN_URL") = Some tokenUrl -> tokenUrl <> "" ->
  secret_of w (Scaffold.provider_key provider "_CLIENT_ID") = Some clientId -> clientId <> "" ->
  outbound (snd (Scaffold.handleOAuthCallback R G req w))
  = outbound w ++ [token_request w provider code].
Proof.
  intros Hc Hcne Hs Hsne Hrec Htruthy Hprov Hurl Hurlne Hcid Hcidne.
  unfold Scaffold.handleOAuthCallback.
  rewrite Hc, Hs, !nonempty_Some by assumption. cbn [negb orb or_null].
  unfold bind. rewrite kvGet_run, Hrec, Htruthy. cbn [negb]. rewrite Hprov.
  rewrite !getSecret_run, Hurl, Hcid, !nonempty_Some by assumption. cbn [negb orb or_null].
  unfold token_request. rewrite Hurl, Hcid. cbn [or_null].
  set (call := {| fetch_url := tokenUrl |}).
  destruct w as [sec ses aud t o]. unfold fetch. exec.
  destruct (rt_fetch R t call) as [|ok [tokenResp|]]; [reflexivity| |reflexivity].
  destruct ok; [|reflexivity]. cbn [negb].
  unfold Scaffold.audit_record, Scaffold.ADMIN_HANDLE. exec.
  destruct sec as [ns|]; exec; [destruct (rt_put_fails R (S t))|]; reflexivity.
Qed.

(** ... and a granted exchange stores the token under the provider's key;
    the audit record that should follow fails on [ADMIN_HANDLE]. *)
Lemma scaffold_callback_run R G req w code state stateObj provider tokenUrl clientId tokenResp :
  params_get "code" (query req) = Some code -> code <> "" ->
  params_get "state" (query req) = Some state -> state <> "" ->
  kv_read R SESSIONS_KV ("oauth_state:" +:+ state) w = Some stateObj ->
  truthy stateObj = true -> prop stateObj "provider" = Some (JStr provider) ->
  secret_of w (Scaffold.provider_key provider "_TOKEN_URL") = Some tokenUrl -> tokenUrl <> "" ->
  secret_of w (Scaffold.provider_key provider "_CLIENT_ID") = Some clientId -> clientId <> "" ->
  rt_fetch R (tick w) (token_request w provider code) = FetchResponse true (Some tokenResp) ->
  reliable_from R (tick w) ->
  Scaffold.handleOAuthCallback R G req w
  = (Thrown Scaffold.reference_error,
     {| secrets_kv :=
          (fun ns => <[Scaffold.token_key provider
                       := put_entry (Text (JSON_stringify tokenResp)) None]> ns)
            <$> secrets_kv w;
        sessions_kv := sessions_kv w; audit_kv := audit_kv w;
        tick := S (S (S (tick w)));
        outbound := outbound w ++ [token_request w provider code] |}).
Proof.
  intros Hc Hcne Hs Hsne Hrec Htruthy Hprov Hurl Hurlne Hcid Hcidne Hfetch HR.
  unfold Scaffold.handleOAuthCallback.
  rewrite Hc, Hs, !nonempty_Some by assumption. cbn [negb orb or_null].
  unfold bind. rewrite kvGet_run, Hrec, Htruthy. cbn [negb]. rewrite Hprov.
  rewrite !getSecret_run, Hurl, Hcid, !nonempty_Some by assumption. cbn [negb orb or_null].
  unfold token_request in *. rewrite Hurl, Hcid in Hfetch. cbn [or_null] in Hfetch.
  rewrite Hurl, Hcid. cbn [or_null].
  destruct w as [sec ses aud t o]. cbn [tick] in *. unfold fetch. exec. rewrite Hfetch.
  cbn [negb].
  assert (Hbound : exists ns, sec = Some ns).
  { unfold secret_of in Hurl. cbn [secrets_kv] in Hurl. destruct sec; [eauto|discriminate]. }
  destruct Hbound as [ns ->]. exec. rewrite HR by lia.
  unfold Scaffold.audit_record, Scaffold.ADMIN_HANDLE. exec. reflexivity.
Qed.

(** A refused exchange is answered with 500 before anything is stored. *)
Lemma scaffold_callback_refused R G req w code state stateObj provider tokenUrl clientId detail :
  params_get "code" (query req) = Some code -> code <> "" ->
  params_get "state" (query req) = Some state -> state <> "" ->
  kv_read R SESSIONS_KV ("oauth_state:" +:+ state) w = Some stateObj ->
  truthy stateObj = true -> prop stateObj "provider" = Some (JStr provider) ->
  secret_of w (Scaffold.provider_key provider "_TOKEN_URL") = Some tokenUrl -> tokenUrl <> "" ->
  secret_of w (Scaffold.provider_key provider "_CLIENT_ID") = Some clientId -> clientId <> "" ->
  rt_fetch R (tick w) (token_request w provider code) = FetchResponse false (Some detail) ->
  Scaffold.handleOAuthCallback R G req w
  = (Done (Scaffold.json_response
             (JObj [("error", JStr "token exchange failed"); ("detail", detail)]) 500),
     {| secrets_kv := secrets_kv w; sessions_kv := sessions_kv w; audit_kv := audit_kv w;
        tick := S (tick w); outbound := outbound w ++ [token_request w provider code] |}).
Proof.
  intros Hc Hcne Hs Hsne Hrec Htruthy Hprov Hurl Hurlne Hcid Hcidne Hfetch.
  unfold Scaffold.handleOAuthCallback.
  rewrite Hc, Hs, !nonempty_Some by assumption. cbn [negb orb or_null].
  unfold bind. rewrite kvGet_run, Hrec, Htruthy. cbn [negb]. rewrite Hprov.
  rewrite !getSecret_run, Hurl, Hcid, !nonempty_Some by assumption. cbn [negb orb or_null].
  unfold token_request in *. rewrite Hurl, Hcid in Hfetch. cbn [or_null] in Hfetch.
  rewrite Hurl, Hcid. cbn [or_null].
  destruct w as [sec ses aud t o]. cbn [tick] in *. unfold fetch. exec. rewrite Hfetch.
  reflexivity.
Qed.

(** With a state record and the token endpoint not configured, the
    scaffold answers 500 and touches nothing. *)
Lemma scaffold_callback_unconfigured R G req w code state stateObj provider :
  params_get "code" (query req) = Some code -> code <> "" ->
  params_get "state" (query req) = Some state -> state <> "" ->
  kv_read R SESSIONS_KV ("oauth_state:" +:+ state) w = Some stateObj ->
  truthy stateObj = true -> prop stateObj "provider" = Some (JStr provider) ->
  nonempty (secret_of w (Scaffold.provider_key provider "_TOKEN_URL"))
  && nonempty (secret_of w (Scaffold.provider_key provider "_CLIENT_ID")) = false ->
  Scaffold.handleOAuthCallback R G req w
  = (Done (Scaffold.error_response "token configuration missing for provider" 500), w).
Proof.
  intros Hc Hcne Hs Hsne Hrec Htruthy Hprov Hcfg.
  unfold Scaffold.handleOAuthCallback.
  rewrite Hc, Hs, !nonempty_Some by assumption. cbn [negb orb or_null].
  unfold bind. rewrite kvGet_run, Hrec, Htruthy. cbn [negb]. rewrite Hprov.
  rewrite !getSecret_run. rewrite <- negb_andb, Hcfg. reflexivity.
Qed.

Lemma scaffold_init_incomplete R req w provider :
  params_get "provider" (query req) = Some provider -> provider <> "" ->
  nonempty (secret_of w (Scaffold.provider_key provider "_CLIENT_ID"))
  && nonempty (secret_of w (Scaffold.provider_key provider "_AUTH_URL"))
  && nonempty (secret_of w "OAUTH_REDIRECT_URI") = false ->
  Scaffold.handleOAuthInit R req w
  = (Done (Scaffold.error_response "OAuth info missing for provider." 400), w).
Proof.
  intros Hp Hne Hcfg. unfold Scaffold.handleOAuthInit. rewrite Hp.
  destruct (String.eqb_spec provider ""); [contradiction|].
  unfold bind. rewrite !getSecret_run.
  rewrite <- !negb_andb, Hcfg. reflexivity.
Qed.

Lemma fresh_state_run R sec ses aud t o :
  Scaffold.fresh_state R
    {| secrets_kv := sec; sessions_kv := ses; audit_kv := aud; tick := t; outbound := o |}
  = (Done (fst (state_at R t)),
     {| secrets_kv := sec; sessions_kv := ses; audit_kv := aud;
        tick := snd (state_at R t); outbound := o |}).
Proof. unfold Scaffold.fresh_state, state_at. destruct (rt_has_randomUUID R); reflexivity. Qed.

Lemma scaffold_init_run R req w provider clientId authUrl redirect :
  params_get "provider" (query req) = Some provider -> provider <> "" ->
  secret_of w (Scaffold.provider_key provider "_CLIENT_ID") = Some clientId -> clientId <> "" ->
  secret_of w (Scaffold.provider_key provider "_AUTH_URL") = Some authUrl -> authUrl <> "" ->
  secret_of w "OAUTH_REDIRECT_URI" = Some redirect -> redirect <> "" ->
  reliable_from R (tick w) ->
  let state := fst (state_at R (tick w)) in
  let scope := secret_of w (Scaffold.provider_key provider "_SCOPE") in
  let query :=
    [("response_type", "code"); ("client_id", clientId); ("redirect_uri", redirect)]
    ++ (if nonempty scope then [("scope", or_null scope)] else [])
    ++ [("state", state)] in
  exists w',
    Scaffold.handleOAuthInit R req w
    = (match rt_URL R (authUrl +:+ "?" +:+ params_toString query) with
       | Href href => Done {| status := 302; content_of := NoBody; location := Some href |}
       | NotAUrl message => Thrown message
       end, w')
    /\ sessions_kv w'
       = (fun ns => <["oauth_state:" +:+ state
                     := put_entry
                          (Json (JObj [("provider", JStr provider);
                                       ("created_at",
                                        JStr (rt_toISOString R (snd (state_at R (tick w)))))]))
                          None]> ns) <$> sessions_kv w
    /\ secrets_kv w' = secrets_kv w /\ audit_kv w' = audit_kv w.
Proof.
  intros Hp Hne Hcid Hcidne Hurl Hurlne Hred Hredne HR state scope query.
  unfold Scaffold.handleOAuthInit. rewrite Hp.
  destruct (String.eqb_spec provider ""); [contradiction|].
  unfold bind at 1 2 3. rewrite !getSecret_run, Hcid, Hurl, Hred.
  rewrite !nonempty_Some by assumption. cbn [negb orb or_null].
  pose proof (getSecret_run (Scaffold.provider_key provider "_SCOPE")) as Hscope.
  destruct w as [sec ses aud t o]. cbn [tick] in *.
  assert (Hsec : forall ses' t',
             secret_of {| secrets_kv := sec; sessions_kv := ses'; audit_kv := aud;
                          tick := t'; outbound := o |}
               (Scaffold.provider_key provider "_SCOPE") = scope) by reflexivity.
  unfold bind at 1. rewrite fresh_state_run. fold state.
  assert (Ht : (t <= snd (state_at R t))%nat)
    by (unfold state_at; destruct (rt_has_randomUUID R); cbn; lia).
  destruct ses as [ns|].
  - unfold Scaffold.kvPut. exec. rewrite HR by lia. rewrite Hscope, Hsec.
    unfold Scaffold.Response_redirect. subst query.
    eexists. split.
    { destruct (nonempty scope); cbn [params_set String.eqb Ascii.eqb Bool.eqb List.app];
        match goal with |- context [rt_URL R ?u] => destruct (rt_URL R u) end;
        reflexivity. }
    repeat split.
  - exec. rewrite Hscope, Hsec.
    unfold Scaffold.Response_redirect. subst query.
    eexists. split.
    { destruct (nonempty scope); cbn [params_set String.eqb Ascii.eqb Bool.eqb List.app];
        match goal with |- context [rt_URL R ?u] => destruct (rt_URL R u) end;
        reflexivity. }
    repeat split.
Qed.

(** ** The OAuth handshake of [workers/worker.js] *)

Lemma sovereign_logAudit_run R action details sec ses au t o :
  reliable_from R t ->
  Sovereign.logAudit R action details
    {| secrets_kv := sec; sessions_kv := ses; audit_kv := Some au; tick := t; outbound := o |}
  = (Done tt,
     {| secrets_kv := sec; sessions_kv := ses;
        audit_kv := Some (<["audit_" +:+ rt_randomUUID R t
                            := put_entry (Json (sovereign_audit action details
                                                  (rt_toISOString R (S t))))
                                 (Some (86400 * 365))]> au);
        tick := S (S (S t)); outbound := o |}).
Proof.
  intros HR. unfold Sovereign.logAudit. exec. rewrite HR by lia. reflexivity.
Qed.

Lemma sovereign_callback_no_state R req w code state :
  params_get "code" (query req) = Some code -> code <> "" ->
  params_get "state" (query req) = Some state -> state <> "" ->
  bound SESSIONS_KV w = true -> no_record SESSIONS_KV ("session_" +:+ state) w ->
  Sovereign.handleOAuthCallback R req w
  = (Done (Sovereign.error_response "Session expired" 403), w).
Proof.
  intros Hc Hcne Hs Hsne Hbound Hno. unfold Sovereign.handleOAuthCallback.
  rewrite Hc, Hs, !nonempty_Some by assumption. cbn [negb orb or_null].
  destruct w as [sec ses aud t o]. unfold bound, no_record in *. cbn in Hbound, Hno.
  destruct ses as [ns|]; [|discriminate]. exec. rewrite Hno. reflexivity.
Qed.

(** With a session record, [workers/worker.js] calls no endpoint: the
    token is made of the first ten characters of the code. *)
Lemma sovereign_callback_run R req w code state ses v session ns au :
  params_get "code" (query req) = Some code -> code <> "" ->
  params_get "state" (query req) = Some state -> state <> "" ->
  sessions_kv w = Some ses ->
  content <$> ses !! ("session_" +:+ state) = Some v ->
  text_truthy (Some v) = true -> parse_stored R v = Some session -> session <> JNull ->
  secrets_kv w = Some ns -> audit_kv w = Some au ->
  reliable_from R (tick w) ->
  let provider := template (prop session "provider") in
  exists w',
    Sovereign.handleOAuthCallback R req w
    = (Done (Sovereign.json_response
               (JObj [("success", JBool true);
                      ("message", JStr "OAuth completed successfully")]) 200), w')
    /\ outbound w' = outbound w
    /\ secrets_kv w'
       = Some (<["oauth_token_" +:+ provider
                 := put_entry (Text ("token_" +:+ String.substring 0 10 code)) None]> ns)
    /\ sessions_kv w' = sessions_kv w
    /\ audit_kv w'
       = Some (<["audit_" +:+ rt_randomUUID R (S (tick w))
                 := put_entry
                      (Json (sovereign_audit "oauth_complete"
                               ("OAuth completed for " +:+ provider)
                               (rt_toISOString R (S (S (tick w))))))
                      (Some (86400 * 365))]> au).
Proof.
  intros Hc Hcne Hs Hsne Hses Hrec Htruthy Hparse Hnull Hns Hau HR provider.
  unfold Sovereign.handleOAuthCallback.
  rewrite Hc, Hs, !nonempty_Some by assumption. cbn [negb orb or_null].
  destruct w as [sec ses' aud t o]. cbn in Hses, Hns, Hau, HR. subst sec ses' aud. exec.
  rewrite Hrec, Htruthy. cbn [negb]. rewrite Hparse.
  destruct session; [congruence| | | | |];
    exec; rewrite HR by lia;
    rewrite sovereign_logAudit_run by (eapply reliable_from_le; [|exact HR]; lia);
    eexists; repeat split.
Qed.

Lemma sovereign_init_run R req w provider ses au :
  params_get "provider" (query req) = Some provider -> provider <> "" ->
  sessions_kv w = Some ses -> audit_kv w = Some au ->
  reliable_from R (tick w) ->
  let sessionId := rt_randomUUID R (tick w) in
  exists w',
    Sovereign.handleOAuthInit R req w
    = (Done (Sovereign.json_response
               (JObj (match Sovereign.auth_url provider sessionId with
                      | Some u => [("auth_url", u)]
                      | None => []
                      end ++ [("session_id", JStr sessionId)])) 200), w')
    /\ sessions_kv w'
       = Some (<["session_" +:+ sessionId
                 := put_entry
                      (Json (JObj [("provider", JStr provider);
                                   ("created", JStr (rt_toISOString R (S (tick w))));
                                   ("admin", JStr "Keli")]))
                      (Some 600)]> ses)
    /\ secrets_kv w' = secrets_kv w.
Proof.
  intros Hp Hne Hses Hau HR sessionId. unfold Sovereign.handleOAuthInit. rewrite Hp.
  destruct (String.eqb_spec provider ""); [contradiction|].
  destruct w as [sec ses' aud t o]. cbn in Hses, Hau, HR. subst ses' aud. exec.
  rewrite HR by lia.
  rewrite sovereign_logAudit_run by (eapply reliable_from_le; [|exact HR]; lia).
  eexists. repeat split.
Qed.

(** ** A callback without a state record *)

(** C4, as the code has it.  For every non-empty code and state with no
    session record under the state, the callback fails and leaves the
    world as it is, whatever the code: [workers/worker.js] with 403
    "Session expired", the scaffold with 400 "invalid or expired state". *)
Theorem complete_without_state R G req w code state :
  params_get "code" (query req) = Some code -> code <> "" ->
  params_get "state" (query req) = Some state -> state <> "" ->
  (bound SESSIONS_KV w = true -> no_record SESSIONS_KV ("session_" +:+ state) w ->
   Sovereign.handleOAuthCallback R req w
   = (Done (Sovereign.error_response "Session expired" 403), w))
  /\ (no_record SESSIONS_KV ("oauth_state:" +:+ state) w ->
      Scaffold.handleOAuthCallback R G req w
      = (Done (Scaffold.error_response "invalid or expired state" 400), w)).
Proof.
  intros Hc Hcne Hs Hsne. split.
  - apply sovereign_callback_no_state with (code := code); assumption.
  - apply scaffold_callback_no_state with (code := code); assumption.
Qed.

(** [complete_without_state] on a forged state, on both workers. *)
Lemma complete_without_state_witness :
  Sovereign.handleOAuthCallback demo_runtime (callback "abc" "forged") sovereign_issued_world
  = (Done (Sovereign.error_response "Session expired" 403), sovereign_issued_world)
  /\ Scaffold.handleOAuthCallback demo_runtime demo_globals (callback "abc" "forged")
       issued_world
     = (Done (Scaffold.error_response "invalid or expired state" 400), issued_world).
Proof.
  destruct (complete_without_state demo_runtime demo_globals (callback "abc" "forged")
              sovereign_issued_world "abc" "forged") as [Hsov _];
    [reflexivity | discriminate | reflexivity | discriminate |].
  destruct (complete_without_state demo_runtime demo_globals (callback "abc" "forged")
              issued_world "abc" "forged") as [_ Hsca];
    [reflexivity | discriminate | reflexivity | discriminate |].
  split.
  - apply Hsov; vm_compute; reflexivity.
  - apply Hsca. vm_compute. reflexivity.
Defined.

(** C4 fails as stated on the scaffold: with no record under the state the
    status is 400, not 403. *)
Lemma complete_without_state_counterexample :
  fst (Scaffold.handleOAuthCallback demo_runtime demo_globals (callback "abc" "forged")
         issued_world)
  = Done (Scaffold.error_response "invalid or expired state" 400)
  /\ status (Scaffold.error_response "invalid or expired state" 400) <> 403.
Proof. split; [vm_compute; reflexivity | intros H; discriminate H]. Qed.

(** ** The state record is not consumed *)

Lemma sessions_ignore_ticks s : ignores_ticks (sessions_are s).
Proof. intros w t o H. exact H. Qed.

Lemma sessions_stable_other_namespace s b key v :
  b <> SESSIONS_KV -> stable_under_put (sessions_are s) b key v.
Proof.
  intros Hb [sec ses aud t o] ns ttl Hns H.
  destruct b; [|contradiction|]; exact H.
Qed.

#[local] Hint Resolve sessions_ignore_ticks : frame.
#[local] Hint Extern 1 (stable_under_put (sessions_are _) _ _ _) =>
  apply sessions_stable_other_namespace; discriminate : frame.

Lemma scaffold_callback_keeps_sessions R G req s :
  preserves (sessions_are s) (Scaffold.handleOAuthCallback R G req).
Proof.
  unfold Scaffold.handleOAuthCallback, Scaffold.kvGet, Scaffold.getSecret,
    Scaffold.audit_record, Scaffold.audit_put, Scaffold.kvPut,
    JSON_parse, Date_now, Math_random36, toISOString_now.
  frame.
Qed.

Lemma token_key_not_config provider name :
  Scaffold.token_key provider <> "secret:" +:+ "OAUTH_" +:+ name.
Proof. intros H. discriminate H. Qed.

Lemma secret_of_after_token w w' provider v name :
  secrets_kv w' = (fun ns => <[Scaffold.token_key provider := v]> ns) <$> secrets_kv w ->
  secret_of w' ("OAUTH_" +:+ name) = secret_of w ("OAUTH_" +:+ name).
Proof.
  intros H. unfold secret_of. rewrite H. destruct (secrets_kv w) as [ns|]; [|reflexivity].
  cbn [fmap option_fmap option_map]. rewrite lookup_insert_ne; [reflexivity|].
  apply token_key_not_config.
Qed.

Lemma kv_read_sessions R key w w' :
  sessions_kv w' = sessions_kv w ->
  kv_read R SESSIONS_KV key w' = kv_read R SESSIONS_KV key w.
Proof. intros H. unfold kv_read. cbn [namespace_of]. rewrite H. reflexivity. Qed.

Lemma token_request_after w w' provider code v :
  secrets_kv w' = (fun ns => <[Scaffold.token_key provider := v]> ns) <$> secrets_kv w ->
  token_request w' provider code = token_request w provider code.
Proof.
  intros H. unfold token_request, Scaffold.provider_key.
  change "OAUTH_REDIRECT_URI" with ("OAUTH_" +:+ "REDIRECT_URI").
  rewrite !(secret_of_after_token w w' provider v _ H). reflexivity.
Qed.

(** C9, as the code has it.  [handleOAuthCallback] of the scaffold never
    writes the sessions namespace, whatever the request and the outcome.
    So after a callback whose exchange was granted, and whose token was
    stored, the state record reads as before, and a second callback with
    the same state and any non-empty code sends the token request for the
    same provider with that code: granted, it overwrites the provider's
    token; refused, it is answered with 500 and the token stays. *)
Theorem state_not_consumed R G :
  (forall req w, sessions_kv (snd (Scaffold.handleOAuthCallback R G req w)) = sessions_kv w)
  /\ (forall req1 req2 w code1 code2 state stateObj provider tokenUrl clientId token1,
        params_get "code" (query req1) = Some code1 -> code1 <> "" ->
        params_get "state" (query req1) = Some state -> state <> "" ->
        params_get "code" (query req2) = Some code2 -> code2 <> "" ->
        params_get "state" (query req2) = Some state ->
        kv_read R SESSIONS_KV ("oauth_state:" +:+ state) w = Some stateObj ->
        truthy stateObj = true -> prop stateObj "provider" = Some (JStr provider) ->
        is_ascii provider = true ->
        secret_of w (Scaffold.provider_key provider "_TOKEN_URL") = Some tokenUrl ->
        tokenUrl <> "" ->
        secret_of w (Scaffold.provider_key provider "_CLIENT_ID") = Some clientId ->
        clientId <> "" ->
        rt_fetch R (tick w) (token_request w provider code1)
        = FetchResponse true (Some token1) ->
        reliable_from R (tick w) ->
        let w1 := snd (Scaffold.handleOAuthCallback R G req1 w) in
        let second := Scaffold.handleOAuthCallback R G req2 w1 in
        kv_read R SESSIONS_KV ("oauth_state:" +:+ state) w1 = Some stateObj
        /\ (secrets_kv w1 ≫= (fun ns => ns !! Scaffold.token_key provider))
           = Some (put_entry (Text (JSON_stringify token1)) None)
        /\ outbound (snd second) = outbound w1 ++ [token_request w provider code2]
        /\ (forall token2,
              rt_fetch R (tick w1) (token_request w provider code2)
              = FetchResponse true (Some token2) ->
              (secrets_kv (snd second) ≫= (fun ns => ns !! Scaffold.token_key provider))
              = Some (put_entry (Text (JSON_stringify token2)) None))
        /\ (forall detail,
              rt_fetch R (tick w1) (token_request w provider code2)
              = FetchResponse false (Some detail) ->
              fst second
              = Done (Scaffold.json_response
                        (JObj [("error", JStr "token exchange failed"); ("detail", detail)])
                        500)
              /\ secrets_kv (snd second) = secrets_kv w1)).
Proof.
  split.
  - intros req w. apply (scaffold_callback_keeps_sessions R G req (sessions_kv w) w).
    reflexivity.
  - intros req1 req2 w code1 code2 state stateObj provider tokenUrl clientId token1
      Hc1 Hc1ne Hs1 Hsne Hc2 Hc2ne Hs2 Hrec Htruthy Hprov _ Hurl Hurlne Hcid Hcidne Hfetch HR
      w1 second.
    pose proof (scaffold_callback_run R G req1 w code1 state stateObj provider tokenUrl
                  clientId token1 Hc1 Hc1ne Hs1 Hsne Hrec Htruthy Hprov Hurl Hurlne Hcid
                  Hcidne Hfetch HR) as E1.
    assert (Hsec1 : secrets_kv w1
                    = (fun ns => <[Scaffold.token_key provider
                                   := put_entry (Text (JSON_stringify token1)) None]> ns)
                        <$> secrets_kv w)
      by (subst w1; rewrite E1; reflexivity).
    assert (Hses1 : sessions_kv w1 = sessions_kv w) by (subst w1; rewrite E1; reflexivity).
    assert (Htick1 : tick w1 = S (S (S (tick w)))) by (subst w1; rewrite E1; reflexivity).
    clear E1. clearbody w1.
    assert (Hrec1 : kv_read R SESSIONS_KV ("oauth_state:" +:+ state) w1 = Some stateObj)
      by (rewrite (kv_read_sessions R _ w w1 Hses1); exact Hrec).
    assert (Hurl1 : secret_of w1 (Scaffold.provider_key provider "_TOKEN_URL") = Some tokenUrl).
    { unfold Scaffold.provider_key. rewrite (secret_of_after_token w w1 provider _ _ Hsec1).
      exact Hurl. }
    assert (Hcid1 : secret_of w1 (Scaffold.provider_key provider "_CLIENT_ID") = Some clientId).
    { unfold Scaffold.provider_key. rewrite (secret_of_after_token w w1 provider _ _ Hsec1).
      exact Hcid. }
    pose proof (token_request_after w w1 provider code2 _ Hsec1) as Hreq.
    assert (Hns : exists ns, secrets_kv w = Some ns).
    { unfold secret_of in Hurl. destruct (secrets_kv w); [eauto|discriminate]. }
    destruct Hns as [ns Hns].
    split; [exact Hrec1|]. split.
    { rewrite Hsec1, Hns. cbn. apply lookup_insert_eq. }
    split.
    { subst second. rewrite <- Hreq.
      apply scaffold_callback_exchanges
        with (state := state) (stateObj := stateObj) (tokenUrl := tokenUrl)
             (clientId := clientId); assumption. }
    split.
    + intros token2 Hfetch2. subst second. rewrite <- Hreq in Hfetch2.
      rewrite (scaffold_callback_run R G req2 w1 code2 state stateObj provider tokenUrl
                 clientId token2) by
        first [assumption | eapply reliable_from_le; [|exact HR]; lia].
      cbn [snd secrets_kv]. rewrite Hsec1, Hns. cbn. apply lookup_insert_eq.
    + intros detail Hfetch2. subst second. rewrite <- Hreq in Hfetch2.
      rewrite (scaffold_callback_refused R G req2 w1 code2 state stateObj provider tokenUrl
                 clientId detail) by assumption.
      split; reflexivity.
Qed.

(** Two callbacks with the state issued on the demo deployment, both
    granted. *)
Lemma state_not_consumed_witness :
  let w1 :=
    snd (Scaffold.handleOAuthCallback demo_runtime demo_globals
           (callback "code-1" issued_state) issued_world) in
  let w2 :=
    snd (Scaffold.handleOAuthCallback demo_runtime demo_globals
           (callback "code-2" issued_state) w1) in
  kv_read demo_runtime SESSIONS_KV ("oauth_state:" +:+ issued_state) w1
  = Some (JObj [("provider", JStr "stripe");
                ("created_at", JStr (rt_toISOString demo_runtime 7))])
  /\ outbound w2 = outbound w1 ++ [token_request issued_world "stripe" "code-2"]
  /\ (secrets_kv w2 ≫= (fun ns => ns !! Scaffold.token_key "stripe"))
     = Some (put_entry (Text (JSON_stringify (JObj [("access_token", JStr "tok")]))) None).
Proof.
  destruct (state_not_consumed demo_runtime demo_globals) as [_ Twice].
  destruct (Twice (callback "code-1" issued_state) (callback "code-2" issued_state)
              issued_world "code-1" "code-2" issued_state
              (JObj [("provider", JStr "stripe");
                     ("created_at", JStr (rt_toISOString demo_runtime 7))])
              "stripe" "https://connect.stripe.com/oauth/token" "ca_123"
              (JObj [("access_token", JStr "tok")]))
    as (Hrec & _ & Hout & Granted & _);
    [ reflexivity | discriminate | reflexivity | discriminate | reflexivity | discriminate
    | reflexivity | vm_compute; reflexivity | reflexivity | reflexivity | reflexivity
    | vm_compute; reflexivity | discriminate | vm_compute; reflexivity | discriminate
    | vm_compute; reflexivity | intros n _; reflexivity | ].
  cbv zeta. split; [exact Hrec|]. split; [exact Hout|].
  exact (Granted (JObj [("access_token", JStr "tok")]) eq_refl).
Defined.

(** C9 fails as stated where it lets the second callback carry any code:
    after a granted callback stored its token, a callback with the same
    state and a code the provider refuses is answered with 500, and the
    token is the first one still. *)
Lemma state_not_consumed_counterexample :
  let w1 :=
    snd (Scaffold.handleOAuthCallback choosy_runtime demo_globals
           (callback "code-1" issued_state) issued_world) in
  let second :=
    Scaffold.handleOAuthCallback choosy_runtime demo_globals
      (callback "code-2" issued_state) w1 in
  (secrets_kv w1 ≫= (fun ns => content <$> ns !! Scaffold.token_key "stripe"))
  = Some (Text (JSON_stringify (JObj [("access_token", JStr "tok")])))
  /\ sessions_kv w1 = sessions_kv issued_world
  /\ fst second
     = Done (Scaffold.json_response
               (JObj [("error", JStr "token exchange failed");
                      ("detail", JObj [("error", JStr "invalid_grant")])]) 500)
  /\ (secrets_kv (snd second) ≫= (fun ns => content <$> ns !! Scaffold.token_key "stripe"))
     = Some (Text (JSON_stringify (JObj [("access_token", JStr "tok")]))).
Proof.
  cbv zeta. split; [vm_compute; reflexivity|]. split; [vm_compute; reflexivity|].
  split; vm_compute; reflexivity.
Qed.

(** ** The token exchange *)

(** C5, as the code has it.  With a state record under the state, the
    scaffold answers 500 and does nothing when the provider's token URL or
    client id is not configured.  Otherwise it posts to the token URL a
    form with grant type "authorization_code", the code, the redirect
    target, the client id and the client secret if there is one; a
    refused exchange is answered with 500 and stores nothing; a granted
    one stores the returned token under the provider's key, over what was
    there, and leaves the state records as they are.
    [workers/worker.js] calls no endpoint: it stores a token made of the
    first ten characters of the code under the provider's key and appends
    an audit record naming the provider. *)
Theorem complete_exchanges_code R G req w code state :
  params_get "code" (query req) = Some code -> code <> "" ->
  params_get "state" (query req) = Some state -> state <> "" ->
  (forall stateObj provider,
      kv_read R SESSIONS_KV ("oauth_state:" +:+ state) w = Some stateObj ->
      truthy stateObj = true -> prop stateObj "provider" = Some (JStr provider) ->
      is_ascii provider = true ->
      let tokenUrl := secret_of w (Scaffold.provider_key provider "_TOKEN_URL") in
      let clientId := secret_of w (Scaffold.provider_key provider "_CLIENT_ID") in
      let redirect := secret_of w "OAUTH_REDIRECT_URI" in
      let clientSecret := secret_of w (Scaffold.provider_key provider "_CLIENT_SECRET") in
      let call :=
        {| fetch_url := or_null tokenUrl; fetch_method := "POST";
           fetch_content_type := "application/x-www-form-urlencoded";
           fetch_body :=
             params_toString
               ([("grant_type", "authorization_code"); ("code", code);
                 ("redirect_uri", or_null redirect); ("client_id", or_null clientId)]
                ++ (if nonempty clientSecret
                    then [("client_secret", or_null clientSecret)] else [])) |} in
      let after := Scaffold.handleOAuthCallback R G req w in
      (nonempty tokenUrl && nonempty clientId = false ->
       after
       = (Done (Scaffold.error_response "token configuration missing for provider" 500), w))
      /\ (nonempty tokenUrl && nonempty clientId = true ->
          outbound (snd after) = outbound w ++ [call]
          /\ (forall detail,
                rt_fetch R (tick w) call = FetchResponse false (Some detail) ->
                fst after
                = Done (Scaffold.json_response
                          (JObj [("error", JStr "token exchange failed");
                                 ("detail", detail)]) 500)
                /\ secrets_kv (snd after) = secrets_kv w)
          /\ (forall tokenResp,
                rt_fetch R (tick w) call = FetchResponse true (Some tokenResp) ->
                reliable_from R (tick w) ->
                secrets_kv (snd after)
                = (fun ns => <[Scaffold.token_key provider
                               := put_entry (Text (JSON_stringify tokenResp)) None]> ns)
                    <$> secrets_kv w
                /\ sessions_kv (snd after) = sessions_kv w)))
  /\ (forall ses v session ns au,
        is_ascii code = true ->
        sessions_kv w = Some ses ->
        content <$> ses !! ("session_" +:+ state) = Some v ->
        text_truthy (Some v) = true -> parse_stored R v = Some session -> session <> JNull ->
        secrets_kv w = Some ns -> audit_kv w = Some au ->
        reliable_from R (tick w) ->
        let provider := template (prop session "provider") in
        exists w',
          Sovereign.handleOAuthCallback R req w
          = (Done (Sovereign.json_response
                     (JObj [("success", JBool true);
                            ("message", JStr "OAuth completed successfully")]) 200), w')
          /\ outbound w' = outbound w
          /\ secrets_kv w'
             = Some (<["oauth_token_" +:+ provider
                       := put_entry (Text ("token_" +:+ String.substring 0 10 code)) None]> ns)
          /\ audit_kv w'
             = Some (<["audit_" +:+ rt_randomUUID R (S (tick w))
                       := put_entry
                            (Json (sovereign_audit "oauth_complete"
                                     ("OAuth completed for " +:+ provider)
                                     (rt_toISOString R (S (S (tick w))))))
                            (Some (86400 * 365))]> au)).
Proof.
  intros Hc Hcne Hs Hsne. split.
  - intros stateObj provider Hrec Htruthy Hprov _ tokenUrl clientId redirect clientSecret
      call after.
    split.
    + intros Hcfg. subst after.
      apply scaffold_callback_unconfigured
        with (code := code) (state := state) (stateObj := stateObj) (provider := provider);
        assumption.
    + intros Hcfg. apply andb_prop in Hcfg as [Hurl Hcid].
      apply nonempty_inv in Hurl as (u & Eu & Hu).
      apply nonempty_inv in Hcid as (c & Ec & Hcl).
      assert (Hcall : token_request w provider code = call).
      { unfold token_request, call. rewrite token_params_shape. reflexivity. }
      fold tokenUrl in Eu. fold clientId in Ec. subst after.
      split; [|split].
      * rewrite <- Hcall.
        apply scaffold_callback_exchanges
          with (state := state) (stateObj := stateObj) (tokenUrl := u) (clientId := c);
          assumption.
      * intros detail Hfetch. rewrite <- Hcall in Hfetch.
        rewrite (scaffold_callback_refused R G req w code state stateObj provider u c detail)
          by assumption.
        split; reflexivity.
      * intros tokenResp Hfetch HR. rewrite <- Hcall in Hfetch.
        rewrite (scaffold_callback_run R G req w code state stateObj provider u c tokenResp)
          by assumption.
        split; reflexivity.
  - intros ses v session ns au _ Hses Hrec Htruthy Hparse Hnull Hns Hau HR provider.
    destruct (sovereign_callback_run R req w code state ses v session ns au)
      as (w' & E & Hout & Hsec & _ & Haud); try assumption.
    exists w'. repeat split; assumption.
Qed.

(** [complete_exchanges_code] with the state issued on the demo
    deployment of the scaffold: the request that goes out, and the token
    that is stored. *)
Lemma complete_exchanges_code_witness :
  let after :=
    Scaffold.handleOAuthCallback demo_runtime demo_globals
      (callback "code-1" issued_state) issued_world in
  outbound (snd after)
  = [ {| fetch_url := "https://connect.stripe.com/oauth/token"; fetch_method := "POST";
         fetch_content_type := "application/x-www-form-urlencoded";
         fetch_body :=
           params_toString
             [("grant_type", "authorization_code"); ("code", "code-1");
              ("redirect_uri", "https://example.com/api/oauth/callback");
              ("client_id", "ca_123"); ("client_secret", "sk_123")] |} ]
  /\ (secrets_kv (snd after) ≫= (fun ns => content <$> ns !! "secret:oauth:stripe:token"))
     = Some (Text (JSON_stringify (JObj [("access_token", JStr "tok")]))).
Proof.
  destruct (complete_exchanges_code demo_runtime demo_globals
              (callback "code-1" issued_state) issued_world "code-1" issued_state)
    as [Scaffold_part _];
    [reflexivity | discriminate | reflexivity | discriminate |].
  destruct (Scaffold_part
              (JObj [("provider", JStr "stripe");
                     ("created_at", JStr (rt_toISOString demo_runtime 7))])
              "stripe")
    as [_ Configured];
    [ vm_compute; reflexivity | reflexivity | reflexivity | reflexivity | ].
  destruct Configured as (Hout & _ & Granted); [vm_compute; reflexivity|].
  destruct (Granted (JObj [("access_token", JStr "tok")]) eq_refl) as [Hsec _];
    [intros n _; reflexivity|].
  cbv zeta. split.
  - rewrite Hout. vm_compute. reflexivity.
  - rewrite Hsec. vm_compute. reflexivity.
Defined.

(** C5 fails as stated on [workers/worker.js]: with the session record of
    a started handshake the callback succeeds, sends nothing to any token
    endpoint, and stores a token made from the code. *)
Lemma complete_exchanges_code_counterexample :
  let after :=
    Sovereign.handleOAuthCallback demo_runtime (callback "code-1" sovereign_issued_state)
      sovereign_issued_world in
  fst after
  = Done (Sovereign.json_response
            (JObj [("success", JBool true);
                   ("message", JStr "OAuth completed successfully")]) 200)
  /\ outbound (snd after) = []
  /\ (secrets_kv (snd after) ≫= (fun ns => content <$> ns !! "oauth_token_stripe"))
     = Some (Text "token_code-1").
Proof. cbv zeta. repeat split; vm_compute; reflexivity. Qed.

(** ** Starting a handshake *)

(** A token made of letters, digits and dashes stands in the query as it
    is. *)
Lemma form_encode_token s :
  forallb (fun c => is_alnum c || in_string c "*-._") (list_ascii_of_string s) = true ->
  form_encode s = s.
Proof.
  unfold form_encode.
  induction s as [|c rest IH]; cbn [list_ascii_of_string forallb escape]; [reflexivity|].
  intros H. apply andb_prop in H as [Hc Hrest]. rewrite Hc, (IH Hrest). reflexivity.
Qed.

(** C6, as the code has it.  For a non-empty provider: the scaffold fails
    with 400 and leaves the world as it is when the client id, the
    authorization URL or the redirect target is missing; otherwise it
    draws a state token, stores [{provider, created_at}] under it, and
    hands [Response.redirect] the authorization URL with the query
    [response_type=code], the client id, the redirect target, the scope
    if there is one, and that state token: when this parses as a URL the
    answer is a 302 to the parsed URL, and when it does not the handler
    throws the parser's TypeError, with the state record stored.  [workers/worker.js] reads no
    provider configuration: it stores [{provider, created, admin}] under a
    fresh session id for ten minutes and answers 200 with the session id
    and the URL it has for the provider. *)
Theorem initiate_redirects R req w provider :
  params_get "provider" (query req) = Some provider -> provider <> "" ->
  is_ascii provider = true ->
  let clientId := secret_of w (Scaffold.provider_key provider "_CLIENT_ID") in
  let authUrl := secret_of w (Scaffold.provider_key provider "_AUTH_URL") in
  let redirect := secret_of w "OAUTH_REDIRECT_URI" in
  let scope := secret_of w (Scaffold.provider_key provider "_SCOPE") in
  (nonempty clientId && nonempty authUrl && nonempty redirect = false ->
   Scaffold.handleOAuthInit R req w
   = (Done (Scaffold.error_response "OAuth info missing for provider." 400), w))
  /\ (nonempty clientId && nonempty authUrl && nonempty redirect = true ->
      reliable_from R (tick w) ->
      let state := fst (state_at R (tick w)) in
      let query :=
        [("response_type", "code"); ("client_id", or_null clientId);
         ("redirect_uri", or_null redirect)]
        ++ (if nonempty scope then [("scope", or_null scope)] else [])
        ++ [("state", state)] in
      exists w',
        Scaffold.handleOAuthInit R req w
        = (match rt_URL R (or_null authUrl +:+ "?" +:+ params_toString query) with
           | Href href =>
               Done {| status := 302; content_of := NoBody; location := Some href |}
           | NotAUrl message => Thrown message
           end, w')
        /\ sessions_kv w'
           = (fun ns =>
                <["oauth_state:" +:+ state
                  := put_entry
                       (Json (JObj [("provider", JStr provider);
                                    ("created_at",
                                     JStr (rt_toISOString R (snd (state_at R (tick w)))))]))
                       None]> ns) <$> sessions_kv w
        /\ secrets_kv w' = secrets_kv w)
  /\ (forall ses au,
        sessions_kv w = Some ses -> audit_kv w = Some au -> reliable_from R (tick w) ->
        let sessionId := rt_randomUUID R (tick w) in
        exists w',
          Sovereign.handleOAuthInit R req w
          = (Done (Sovereign.json_response
                     (JObj (match Sovereign.auth_url provider sessionId with
                            | Some u => [("auth_url", u)]
                            | None => []
                            end ++ [("session_id", JStr sessionId)])) 200), w')
          /\ sessions_kv w'
             = Some (<["session_" +:+ sessionId
                       := put_entry
                            (Json (JObj [("provider", JStr provider);
                                         ("created", JStr (rt_toISOString R (S (tick w))));
                                         ("admin", JStr "Keli")]))
                            (Some 600)]> ses)).
Proof.
  intros Hp Hne _ clientId authUrl redirect scope. split; [|split].
  - intros Hcfg. apply scaffold_init_incomplete with (provider := provider); assumption.
  - intros Hcfg HR state query.
    apply andb_prop in Hcfg as [Hcfg Hred]. apply andb_prop in Hcfg as [Hcid Hurl].
    apply nonempty_inv in Hcid as (c & Ec & Hc).
    apply nonempty_inv in Hurl as (u & Eu & Hu).
    apply nonempty_inv in Hred as (r & Er & Hr).
    destruct (scaffold_init_run R req w provider c u r) as (w' & E & Hses & Hsec & _);
      try assumption.
    exists w'. subst query state. fold scope in E. rewrite Ec, Eu, Er. cbn [or_null].
    repeat split; assumption.
  - intros ses au Hses Hau HR sessionId.
    destruct (sovereign_init_run R req w provider ses au) as (w' & E & Hs & _);
      try assumption.
    exists w'. split; assumption.
Qed.

(** [initiate_redirects] on the configured demo deployment: the redirect. *)
Lemma initiate_redirects_witness :
  exists w',
    Scaffold.handleOAuthInit demo_runtime (get "/api/oauth/init" [("provider", "stripe")])
      configured_world
    = (Done {| status := 302; content_of := NoBody;
               location :=
                 Some ("https://connect.stripe.com/oauth/authorize?" +:+
                       params_toString
                         [("response_type", "code"); ("client_id", "ca_123");
                          ("redirect_uri", "https://example.com/api/oauth/callback");
                          ("state", issued_state)]) |}, w')
    /\ (sessions_kv w' ≫= (fun ns => content <$> ns !! ("oauth_state:" +:+ issued_state)))
       = Some (Json (JObj [("provider", JStr "stripe");
                           ("created_at", JStr (rt_toISOString demo_runtime 7))])).
Proof.
  destruct (initiate_redirects demo_runtime (get "/api/oauth/init" [("provider", "stripe")])
              configured_world "stripe" eq_refl) as (_ & Complete & _);
    [discriminate | reflexivity |].
  destruct Complete as (w' & E & Hses & _);
    [vm_compute; reflexivity | intros n _; reflexivity |].
  exists w'. split.
  - rewrite E. vm_compute. reflexivity.
  - rewrite Hses. vm_compute. reflexivity.
Defined.

(** C6 fails as stated on [workers/worker.js]: a provider nothing is
    configured for gets a 200 whose URL is "#" and holds no state token. *)
Lemma initiate_redirects_counterexample :
  fst (Sovereign.handleOAuthInit demo_runtime (get "/api/oauth/init" [("provider", "github")])
         fresh_world)
  = Done (Sovereign.json_response
            (JObj [("auth_url", JStr "#");
                   ("session_id", JStr (rt_randomUUID demo_runtime 0))]) 200)
  /\ status (Sovereign.json_response
               (JObj [("auth_url", JStr "#");
                      ("session_id", JStr (rt_randomUUID demo_runtime 0))]) 200) <> 400.
Proof. split; [vm_compute; reflexivity | intros H; discriminate H]. Qed.

(** ** Checkout and delivery in the scaffold *)

Lemma makeSessionId_run R sec ses aud t o :
  Scaffold.makeSessionId R
    {| secrets_kv := sec; sessions_kv := ses; audit_kv := aud; tick := t; outbound := o |}
  = (Done (session_id_at R t),
     {| secrets_kv := sec; sessions_kv := ses; audit_kv := aud;
        tick := S (S t); outbound := o |}).
Proof. reflexivity. Qed.

Lemma session_id_nonempty R t : nonempty (Some (session_id_at R t)) = true.
Proof. reflexivity. Qed.

(** What a stored session with a delivery makes of a lookup. *)
Lemma scaffold_deliver_stored R G req w session_id record delivery :
  Scaffold.session_param (query req) = Some session_id -> session_id <> "" ->
  (sessions_kv w ≫= (fun ns => content <$> ns !! ("session:" +:+ session_id)))
  = Some (Json record) ->
  truthy record = true ->
  prop record "delivery" = Some delivery -> truthy delivery = true ->
  Scaffold.handleDeliver R G req w
  = (Done (Scaffold.json_response
             (JObj [("ok", JBool true); ("session_id", JStr session_id);
                    ("deliver", delivery)]) 200), w).
Proof.
  intros Hparam Hne Hrec Htruthy Hdel Hdt. unfold Scaffold.handleDeliver.
  rewrite Hparam, nonempty_Some by assumption. cbn [negb or_null].
  unfold bind. rewrite kvGet_run. unfold kv_read. cbn [namespace_of].
  destruct (sessions_kv w) as [ns|]; [|discriminate]. cbn in Hrec. rewrite Hrec.
  cbn [text_truthy parse_stored]. rewrite Htruthy. cbn [negb]. rewrite Hdel, Hdt.
  reflexivity.
Qed.

(** A lookup that finds a session without a delivery makes the delivery,
    stores it in the record, and fails on [ADMIN_HANDLE]. *)
Lemma scaffold_deliver_resolves R G req w session_id record ses :
  Scaffold.session_param (query req) = Some session_id -> session_id <> "" ->
  sessions_kv w = Some ses ->
  content <$> ses !! ("session:" +:+ session_id) = Some (Json record) ->
  truthy record = true -> truthy_opt (prop record "delivery") = false ->
  reliable_from R (tick w) ->
  Scaffold.handleDeliver R G req w
  = (Thrown Scaffold.reference_error,
     {| secrets_kv := secrets_kv w;
        sessions_kv :=
          Some (<["session:" +:+ session_id
                  := put_entry (Json (resolved session_id (rt_toISOString R (tick w)) record))
                       None]> ses);
        audit_kv := audit_kv w; tick := S (S (S (tick w))); outbound := outbound w |}).
Proof.
  intros Hparam Hne Hses Hrec Htruthy Hdel HR. unfold Scaffold.handleDeliver.
  rewrite Hparam, nonempty_Some by assumption. cbn [negb or_null].
  unfold bind at 1. rewrite kvGet_run. unfold kv_read. cbn [namespace_of].
  rewrite Hses, Hrec. cbn [text_truthy parse_stored]. rewrite Htruthy. cbn [negb].
  assert (Hnone : match prop record "delivery" with
                  | Some d => if truthy d then Some d else None
                  | None => None
                  end = None).
  { destruct (prop record "delivery") as [d|]; [|reflexivity]. cbn in Hdel. rewrite Hdel.
    reflexivity. }
  rewrite Hnone. destruct w as [sec ses' aud t o]. cbn in Hses. subst ses'. cbn [tick] in *.
  unfold Scaffold.kvPut, Scaffold.audit_record, Scaffold.ADMIN_HANDLE. exec.
  rewrite HR by lia. reflexivity.
Qed.

(** C2 on the scaffold.  A checkout with [presold] set stores the session
    as pending, with no delivery, and then fails on [ADMIN_HANDLE], before
    the branch that delivers: no delivery is returned, and through the
    router the answer is a 500.  The first [handleDeliver] for the session
    id then finds a record without a delivery and makes the delivery
    itself. *)
Theorem presold_checkout_fails R G req w payload sku ses :
  body req = Some payload -> prop payload "sku" = Some sku -> truthy sku = true ->
  truthy_opt (prop payload "presold") = true ->
  sessions_kv w = Some ses -> reliable_from R (tick w) ->
  let session_id := session_id_at R (tick w) in
  let record :=
    JObj [("session_id", JStr session_id); ("sku", sku);
          ("user", Scaffold.or_else (prop payload "user") JNull);
          ("manifest", Scaffold.or_else (prop payload "manifest") (JObj []));
          ("presold", JBool true); ("status", JStr "pending");
          ("created_at", JStr (rt_toISOString R (S (S (tick w)))))] in
  exists w1,
    Scaffold.handleCreateCheckout R G req w = (Thrown Scaffold.reference_error, w1)
    /\ sessions_kv w1
       = Some (<["session:" +:+ session_id := put_entry (Json record) None]> ses)
    /\ prop record "delivery" = None
    /\ audit_kv w1 = audit_kv w
    /\ (path req = "/api/create-checkout" -> method req = "POST" ->
        fst (Scaffold.handleRequest R G req w)
        = Done (Scaffold.error_response Scaffold.reference_error 500))
    /\ forall req2,
         Scaffold.session_param (query req2) = Some session_id ->
         exists w2,
           Scaffold.handleDeliver R G req2 w1 = (Thrown Scaffold.reference_error, w2)
           /\ sessions_kv w2
              = Some (<["session:" +:+ session_id
                        := put_entry
                             (Json (resolved session_id (rt_toISOString R (tick w1)) record))
                             None]> ses).
Proof.
  intros Hbody Hsku Htruthy Hpresold Hses HR session_id record.
  assert (Hobj : truthy payload = true) by (destruct payload; try discriminate; reflexivity).
  assert (E : Scaffold.handleCreateCheckout R G req w
              = (Thrown Scaffold.reference_error,
                 {| secrets_kv := secrets_kv w;
                    sessions_kv :=
                      Some (<["session:" +:+ session_id := put_entry (Json record) None]> ses);
                    audit_kv := audit_kv w; tick := S (S (S (S (S (tick w)))));
                    outbound := outbound w |})).
  { unfold Scaffold.handleCreateCheckout, request_json. rewrite Hbody.
    unfold bind at 1. unfold ret at 1. rewrite Hobj, Hsku, Htruthy, Hpresold. cbn [negb].
    destruct w as [sec ses' aud t o]. cbn in Hses. subst ses'. cbn [tick] in *.
    unfold bind at 1. rewrite makeSessionId_run. fold session_id.
    unfold Scaffold.kvPut, Scaffold.audit_record, Scaffold.ADMIN_HANDLE. exec.
    rewrite HR by lia. reflexivity. }
  eexists. split; [exact E|]. cbn [sessions_kv audit_kv tick].
  split; [reflexivity|]. split; [reflexivity|]. split; [reflexivity|]. split.
  - intros Hpath Hmethod. unfold Scaffold.handleRequest. rewrite Hpath, Hmethod.
    cbn [String.eqb Ascii.eqb Bool.eqb andb orb]. unfold try_catch. rewrite E. reflexivity.
  - intros req2 Hparam. eexists. split.
    + apply (scaffold_deliver_resolves R G req2 _ session_id record
               (<["session:" +:+ session_id := put_entry (Json record) None]> ses));
        [ exact Hparam | intros H; discriminate H | reflexivity
        | rewrite lookup_insert_eq; reflexivity | reflexivity | reflexivity
        | cbn [tick]; eapply reliable_from_le; [|exact HR]; lia ].
    + cbn [sessions_kv tick]. rewrite insert_insert_eq. reflexivity.
Qed.

(** [presold_checkout_fails] on the demo deployment: a checkout with
    [presold] set, alone and through the router. *)
Lemma presold_checkout_fails_witness :
  let create :=
    Scaffold.handleCreateCheckout demo_runtime demo_globals demo_checkout fresh_world in
  fst create = Thrown Scaffold.reference_error
  /\ (sessions_kv (snd create)
      ≫= (fun ns => content <$> ns !! ("session:" +:+ session_id_at demo_runtime 0)))
     = Some (Json (JObj [("session_id", JStr (session_id_at demo_runtime 0));
                         ("sku", JStr "PWS-0001"); ("user", JNull); ("manifest", JObj []);
                         ("presold", JBool true); ("status", JStr "pending");
                         ("created_at", JStr (rt_toISOString demo_runtime 2))]))
  /\ fst (Scaffold.handleRequest demo_runtime demo_globals demo_checkout fresh_world)
     = Done (Scaffold.error_response Scaffold.reference_error 500).
Proof.
  destruct (presold_checkout_fails demo_runtime demo_globals demo_checkout fresh_world
              (JObj [("sku", JStr "PWS-0001"); ("presold", JBool true)]) (JStr "PWS-0001") ∅)
    as (w1 & E & Hses & _ & _ & Hrouter & _);
    [ reflexivity | reflexivity | reflexivity | reflexivity | reflexivity
    | intros n _; reflexivity | ].
  cbv zeta. rewrite E. cbn [fst snd]. split; [reflexivity|]. split.
  - rewrite Hses. cbn [mbind option_bind]. rewrite lookup_insert_eq. reflexivity.
  - apply Hrouter; reflexivity.
Defined.

(** ** The administrative identity of audit entries *)

Lemma assoc_set_field_same name x fields : assoc name (set_field name x fields) = Some x.
Proof.
  induction fields as [|[k v] rest IH]; cbn [set_field assoc].
  - rewrite String.eqb_refl. reflexivity.
  - destruct (String.eqb k name) eqn:E; cbn [assoc]; rewrite E; [reflexivity | exact IH].
Qed.

Lemma assoc_set_field_other name other x fields :
  name <> other -> assoc name (set_field other x fields) = assoc name fields.
Proof.
  intros Hne. induction fields as [|[k v] rest IH]; cbn [set_field assoc].
  - destruct (String.eqb_spec other name); [congruence | reflexivity].
  - destruct (String.eqb_spec k other) as [->|Hk]; cbn [assoc].
    + destruct (String.eqb_spec other name); [congruence | reflexivity].
    + destruct (String.eqb k name); [reflexivity | exact IH].
Qed.

(** The audit append of the scaffold stores nothing.  [handleAuditPost]
    fails on every request, on the body when it does not parse and on
    [ADMIN_HANDLE] when it does, before the clock is read and before
    anything is written; through the router the answer is a 500 and the
    world is as it was. *)
Theorem scaffold_audit_post_fails R G req w :
  exists message,
    Scaffold.handleAuditPost R G req w = (Thrown message, w)
    /\ (body req <> None -> message = Scaffold.reference_error)
    /\ (path req = "/api/audit" -> method req = "POST" \/ method req = "PUT" ->
        Scaffold.handleRequest R G req w = (Done (Scaffold.error_response message 500), w)).
Proof.
  assert (E : exists message,
             Scaffold.handleAuditPost R G req w = (Thrown message, w)
             /\ (body req <> None -> message = Scaffold.reference_error)).
  { unfold Scaffold.handleAuditPost, Scaffold.ADMIN_HANDLE, request_json.
    destruct (body req); eexists; (split; [reflexivity|]); [reflexivity|].
    intros H. contradiction. }
  destruct E as (message & E & Hmessage). exists message.
  split; [exact E|]. split; [exact Hmessage|]. intros Hpath Hmethod.
  unfold Scaffold.handleRequest. rewrite Hpath.
  destruct Hmethod as [-> | ->]; cbn [String.eqb Ascii.eqb Bool.eqb andb orb];
    unfold try_catch; rewrite E; reflexivity.
Qed.

Lemma sovereign_stamp_object R fields w :
  exists stamped w',
    Sovereign.stamp R (JObj fields) w = (Done (JObj stamped), w')
    /\ assoc "admin" stamped = Some (JStr "Keli")
    /\ audit_kv w' = audit_kv w /\ (tick w <= tick w')%nat.
Proof.
  unfold Sovereign.stamp. destruct w as [sec ses aud t o].
  destruct (assoc "timestamp" (set_field "admin" (JStr "Keli") fields)) as [ts|];
    [destruct (truthy ts)|]; exec; eexists; eexists;
    (split; [reflexivity|]; split;
     [rewrite assoc_set_field_other by discriminate; apply assoc_set_field_same
     | split; [reflexivity | cbn; lia]]).
Qed.

(** The audit append of [workers/worker.js], for every body that is an
    object: the stored entry has the fixed identity as its [admin]. *)
Theorem audit_stamps_object R req w fields au :
  body req = Some (JObj fields) -> audit_kv w = Some au -> reliable_from R (tick w) ->
  exists auditId stamped w',
    Sovereign.handleAudit R req w
    = (Done (Sovereign.json_response
               (JObj [("success", JBool true); ("audit_id", JStr auditId)]) 200), w')
    /\ audit_kv w'
       = Some (<["audit_" +:+ auditId
                 := put_entry (Json (JObj stamped)) (Some (86400 * 365))]> au)
    /\ assoc "admin" stamped = Some (JStr "Keli").
Proof.
  intros Hbody Hau HR. unfold Sovereign.handleAudit. unfold request_json. rewrite Hbody.
  unfold bind at 1. unfold ret at 1. unfold bind at 1.
  destruct (sovereign_stamp_object R fields w) as (stamped & w1 & E & Hadmin & Haud & Htick).
  rewrite E. destruct w1 as [sec ses aud t o]. cbn in Haud, Htick. rewrite Hau in Haud.
  subst aud. exec. rewrite HR by lia.
  eexists. exists stamped. eexists. split; [reflexivity|]. split; [reflexivity | exact Hadmin].
Qed.

(** [scaffold_audit_post_fails] on a body that names another identity. *)
Lemma scaffold_audit_post_fails_witness :
  Scaffold.handleRequest demo_runtime demo_globals (post "/api/audit" None imposter)
    fresh_world
  = (Done (Scaffold.error_response Scaffold.reference_error 500), fresh_world).
Proof.
  destruct (scaffold_audit_post_fails demo_runtime demo_globals
              (post "/api/audit" None imposter) fresh_world)
    as (message & _ & Hmessage & Router).
  rewrite <- Hmessage; [|discriminate].
  exact (Router eq_refl (or_introl eq_refl)).
Defined.

(** [audit_stamps_object] on a body that names another identity. *)
Lemma audit_stamps_object_witness :
  exists auditId stamped w',
    Sovereign.handleAudit demo_runtime (post "/api/audit" None imposter) fresh_world
    = (Done (Sovereign.json_response
               (JObj [("success", JBool true); ("audit_id", JStr auditId)]) 200), w')
    /\ audit_kv w'
       = Some (<["audit_" +:+ auditId
                 := put_entry (Json (JObj stamped)) (Some (86400 * 365))]> ∅)
    /\ assoc "admin" stamped = Some (JStr "Keli").
Proof.
  exact (audit_stamps_object demo_runtime (post "/api/audit" None imposter) fresh_world
           [("action", JStr "x"); ("admin", JStr "someone-else")] ∅ eq_refl eq_refl
           (fun n _ => eq_refl)).
Defined.

(** C3 fails on [workers/worker.js] for a body that is an array: the
    entry is stored as the array it was, with no [admin] field.  (The
    assignment lands on the array object, which [JSON.stringify] prints
    without it.) *)
Theorem audit_admin_missing_on_array :
  let after :=
    Sovereign.handleAudit demo_runtime (post "/api/audit" None (JArr [JStr "x"]))
      fresh_world in
  fst after
  = Done (Sovereign.json_response
            (JObj [("success", JBool true);
                   ("audit_id", JStr (rt_randomUUID demo_runtime 1))]) 200)
  /\ (audit_kv (snd after)
      ≫= (fun ns => content <$> ns !! ("audit_" +:+ rt_randomUUID demo_runtime 1)))
     = Some (Json (JArr [JStr "x"]))
  /\ prop (JArr [JStr "x"]) "admin" = None.
Proof. cbv zeta. repeat split; vm_compute; reflexivity. Qed.

(** ** Listing the audit trail *)

Section SortFacts.
Context {A : Type} (cmp : A -> A -> Z) (P : A -> Prop) (rel : A -> A -> Prop).
Hypothesis before : forall a b, P a -> P b -> (cmp a b <= 0)%Z -> rel a b.
Hypothesis after : forall a b, P a -> P b -> ~ (cmp a b <= 0)%Z -> rel b a.
Hypothesis rel_trans : forall a b c, P a -> P b -> P c -> rel a b -> rel b c -> rel a c.

Lemma insert_sorted_perm x l : Permutation (x :: l) (Js.insert_sorted cmp x l).
Proof.
  induction l as [|y rest IH]; cbn [Js.insert_sorted]; [reflexivity|].
  destruct (cmp x y <=? 0)%Z; [reflexivity|].
  rewrite perm_swap. apply perm_skip. exact IH.
Qed.

Lemma sort_perm l : Permutation l (Js.sort cmp l).
Proof.
  induction l as [|x rest IH]; cbn [Js.sort fold_right]; [reflexivity|].
  rewrite <- insert_sorted_perm. apply perm_skip. exact IH.
Qed.

Lemma insert_sorted_keeps x l :
  P x -> Forall P l -> StronglySorted rel l -> StronglySorted rel (Js.insert_sorted cmp x l).
Proof.
  intros Hx Hl Hs. induction Hs as [|y rest Hrest IH Hy]; cbn [Js.insert_sorted].
  - repeat constructor.
  - apply Forall_cons_iff in Hl as [HPy HPrest].
    destruct (Z.leb_spec (cmp x y) 0) as [Hle|Hgt].
    + constructor; [constructor; assumption|].
      constructor; [apply before; assumption|].
      apply Forall_forall. intros z Hz.
      pose proof (proj1 (Forall_forall _ _) Hy z Hz) as Hyz.
      pose proof (proj1 (Forall_forall _ _) HPrest z Hz) as HPz.
      apply (rel_trans x y z); try assumption. apply before; assumption.
    + constructor; [apply IH; assumption|].
      rewrite <- insert_sorted_perm. constructor; [|exact Hy].
      apply after; try assumption. lia.
Qed.

Lemma sort_sorted l : Forall P l -> StronglySorted rel (Js.sort cmp l).
Proof.
  induction l as [|x rest IH]; cbn [Js.sort fold_right]; intros Hl; [constructor|].
  apply Forall_cons_iff in Hl as [Hx Hrest].
  apply insert_sorted_keeps; [exact Hx | | apply IH; exact Hrest].
  apply (Permutation_Forall (sort_perm rest)). exact Hrest.
Qed.
End SortFacts.

Lemma dated_not_null R field e : dated R field e -> Sovereign.is_null e = false.
Proof. destruct e; try reflexivity. intros H. exfalso. apply H. reflexivity. Qed.

Lemma newest_first_sorted R field logs :
  Forall (dated R field) logs ->
  StronglySorted (not_older R field)
    (Js.sort (fun a b => Date_minus R (prop b field) (prop a field)) logs).
Proof.
  apply sort_sorted.
  - intros a b Ha Hb. unfold dated, not_older, entry_time, Date_minus in *.
    destruct (Date_time R (prop a field)), (Date_time R (prop b field)); try congruence. lia.
  - intros a b Ha Hb. unfold dated, not_older, entry_time, Date_minus in *.
    destruct (Date_time R (prop a field)), (Date_time R (prop b field)); try congruence. lia.
  - intros a b c _ _ _. unfold not_older.
    destruct (entry_time R field a), (entry_time R field b), (entry_time R field c);
      try contradiction; lia.
Qed.

(** The keys a listing reports are the stored keys with the prefix. *)
Lemma keys_in_order_spec (ns : gmap string stored) k :
  In k (keys_in_order ns) <-> is_Some (ns !! k).
Proof.
  unfold keys_in_order.
  assert (Hmem : In k (List.map fst (map_to_list ns)) <-> is_Some (ns !! k)).
  { rewrite in_map_iff. split.
    - intros ([k' v] & <- & Hin). apply list_elem_of_In, elem_of_map_to_list in Hin. eauto.
    - intros [v Hv]. exists (k, v). split; [reflexivity|].
      apply list_elem_of_In, elem_of_map_to_list. exact Hv. }
  rewrite <- Hmem. split; apply Permutation_in; [|symmetry]; apply merge_sort_Permutation.
Qed.

Lemma in_firstn {A} (x : A) n l : In x (firstn n l) -> In x l.
Proof. intros H. rewrite <- (firstn_skipn n l). apply in_or_app. left. exact H. Qed.

Lemma list_keys_sound prefix limit (ns : gmap string stored) k :
  In k (list_keys prefix limit ns) -> String.prefix prefix k = true /\ is_Some (ns !! k).
Proof.
  unfold list_keys. intros H. apply in_firstn in H.
  apply filter_In in H as [Hin Hp]. split; [exact Hp|]. apply keys_in_order_spec. exact Hin.
Qed.







(** ** Invariants of the routers *)

(** As [frame], choosing the rule by the shape of the computation. *)
Ltac walk_step :=
  lazymatch goal with
  | |- preserves _ (ret _) => apply preserves_ret
  | |- preserves _ (throw _) => apply preserves_throw
  | |- preserves _ (bind _ _) => apply preserves_bind; [| intros ?]
  | |- preserves _ (try_catch _ _) => apply preserves_try_catch; [| intros ?]
  | |- preserves _ (is_bound _) => apply preserves_is_bound
  | |- preserves _ (kv_get _ _) => apply preserves_kv_get
  | |- preserves _ (kv_list _ _ _ _) => apply preserves_kv_list; solve [auto with frame]
  | |- preserves _ next_tick => apply preserves_next_tick; solve [auto with frame]
  | |- preserves _ (fetch _ _) => apply preserves_fetch; solve [auto with frame]
  | |- preserves _ (kv_put _ _ _ _ _) => apply preserves_kv_put; solve [auto with frame]
  | |- preserves _ (match ?x with _ => _ end) => destruct x
  | |- preserves _ (let _ := _ in _) => cbv zeta
  | |- preserves _ _ => solve [auto with frame]
  end.

Ltac walk := cbv beta zeta; repeat walk_step.

Ltac unfold_sovereign :=
  unfold Sovereign.handleRequest;
  unfold Sovereign.handleStoreSecrets, Sovereign.handleOAuthInit, Sovereign.handleOAuthCallback,
    Sovereign.handleInboundEmail, Sovereign.handleCreateCheckout, Sovereign.handleDeliver,
    Sovereign.handleAudit, Sovereign.handleGetAuditLogs, Sovereign.handleGetMessages,
    Sovereign.handleStoreToken, Sovereign.stamp, Sovereign.sort_newest_first,
    Sovereign.isPresold,
    request_json, JSON_parse, randomUUID, toISOString_now.

Ltac unfold_scaffold :=
  unfold Scaffold.handleRequest;
  unfold Scaffold.handleStoreSecrets, Scaffold.handleOAuthInit, Scaffold.handleOAuthCallback,
    Scaffold.handleInboundEmail, Scaffold.handleCreateCheckout, Scaffold.handleDeliver,
    Scaffold.handleAuditPost, Scaffold.handleListAudits, Scaffold.Response_redirect,
    Scaffold.audit_put, Scaffold.audit_record, Scaffold.ADMIN_HANDLE, Scaffold.fresh_state,
    Scaffold.makeSessionId, Scaffold.getSecret, Scaffold.kvPut, Scaffold.kvGet,
    request_json, JSON_parse, randomUUID, toISOString_now, Date_now, Math_random36,
    random_words.

Lemma demo_reliable : reliable demo_runtime.
Proof. intros n. reflexivity. Defined.

Lemma demo_reliable_from t : reliable_from demo_runtime t.
Proof. intros n _. reflexivity. Defined.

(** ** What a request without the setup credential cannot do *)

Lemma record_ignores_ticks b key r : ignores_ticks (record_is b key r).
Proof. intros w t o H. destruct b; exact H. Qed.

Lemma record_stable_other_namespace b b' key key' r v :
  b' <> b -> stable_under_put (record_is b key r) b' key' v.
Proof.
  intros Hb w ns ttl Hns H. unfold record_is, record_at in *.
  destruct b, b'; try contradiction; exact H.
Qed.

Lemma record_stable_other_key b key key' r v :
  key' <> key -> stable_under_put (record_is b key r) b key' v.
Proof.
  intros Hk w ns ttl Hns H. unfold record_is, record_at in *.
  rewrite Hns in H. cbn in H.
  destruct b; cbn [set_namespace namespace_of secrets_kv sessions_kv audit_kv mbind option_bind];
    (rewrite lookup_insert_ne; [exact H | exact Hk]).
Qed.

Lemma not_setup_key key key' : setup_key key = true -> setup_key key' = false -> key' <> key.
Proof. intros H H' ->. congruence. Qed.

#[local] Hint Resolve record_ignores_ticks : frame.
#[local] Hint Extern 1 (stable_under_put (record_is SECRETS_KV _ _) SESSIONS_KV _ _) =>
  apply record_stable_other_namespace; discriminate : frame.
#[local] Hint Extern 1 (stable_under_put (record_is SECRETS_KV _ _) AUDIT_KV _ _) =>
  apply record_stable_other_namespace; discriminate : frame.
#[local] Hint Extern 2 (stable_under_put (record_is SECRETS_KV _ _) SECRETS_KV _ _) =>
  apply record_stable_other_key;
  match goal with H : setup_key _ = true |- _ => apply (not_setup_key _ _ H); reflexivity end
  : frame.

Lemma logAudit_keeps_record R key r action details :
  preserves (record_is SECRETS_KV key r) (Sovereign.logAudit R action details).
Proof. unfold Sovereign.logAudit, randomUUID, toISOString_now. frame. Qed.

Lemma collect_keeps_record R key r b names :
  preserves (record_is SECRETS_KV key r) (Sovereign.collect R b names).
Proof.
  induction names as [|n rest IH]; cbn [Sovereign.collect]; unfold JSON_parse; frame.
Qed.

#[local] Hint Resolve logAudit_keeps_record collect_keeps_record : frame.

(** Without the credential, or once the flag is set, the setup handler
    leaves the world as it is. *)
Lemma sovereign_setup_denied R G req w :
  authorized G req = false \/ initialized w = true ->
  snd (Sovereign.handleStoreSecrets R G req w) = w.
Proof.
  unfold authorized. intros H.
  destruct (SETUP_TOKEN G) as [tok|] eqn:HG.
  - destruct H as [H|H].
    + unfold Sovereign.handleStoreSecrets, presents in *. rewrite HG.
      destruct (x_setup_token req) as [s|]; [|reflexivity].
      destruct (String.eqb s ""); [reflexivity|]. cbn [negb andb] in H. rewrite H. reflexivity.
    + rewrite (sovereign_setup_locked R G req w tok HG H). reflexivity.
  - unfold Sovereign.handleStoreSecrets. rewrite HG.
    destruct (x_setup_token req) as [s|]; [|reflexivity].
    destruct (String.eqb s ""); reflexivity.
Qed.

(** In [workers/worker.js], whatever the route: a request that does not
    carry the configured setup credential, or any request once the flag
    is set, leaves every [secret_<k>] record and the flag as they are. *)
Theorem sovereign_secrets_guarded R G req w key :
  setup_key key = true ->
  authorized G req = false \/ initialized w = true ->
  record_at SECRETS_KV key (snd (Sovereign.handleRequest R G req w))
  = record_at SECRETS_KV key w.
Proof.
  intros Hkey Hguard. unfold Sovereign.handleRequest. cbv zeta.
  destruct (String.eqb (method req) "OPTIONS"); [reflexivity|].
  destruct (String.eqb (path req) "/api/store-secrets" && String.eqb (method req) "POST").
  { rewrite sovereign_setup_denied by exact Hguard. reflexivity. }
  match goal with
  | |- record_at _ _ (snd (?c w)) = _ =>
      enough (Hp : preserves (record_is SECRETS_KV key (record_at SECRETS_KV key w)) c)
        by (apply Hp; reflexivity)
  end.
  unfold Sovereign.handleOAuthInit, Sovereign.handleOAuthCallback,
    Sovereign.handleInboundEmail, Sovereign.handleCreateCheckout, Sovereign.handleDeliver,
    Sovereign.handleAudit, Sovereign.handleGetAuditLogs, Sovereign.handleGetMessages,
    Sovereign.handleStoreToken, Sovereign.stamp, Sovereign.sort_newest_first,
    Sovereign.isPresold,
    request_json, JSON_parse, randomUUID, toISOString_now.
  walk.
Qed.

(** [sovereign_secrets_guarded] after the setup of the demo deployment: a
    second setup with the valid credential and another value does not
    change the stored secret. *)
Lemma sovereign_secrets_guarded_witness :
  record_at SECRETS_KV "secret_STRIPE_SECRET_KEY"
    (snd (Sovereign.handleRequest demo_runtime demo_globals
            (post "/api/store-secrets" (Some "s3cret")
               (JObj [("STRIPE_SECRET_KEY", JStr "sk_other")])) sealed_world))
  = Some (put_entry (Text "sk_live") None).
Proof.
  etransitivity.
  - apply sovereign_secrets_guarded; [reflexivity | right; vm_compute; reflexivity].
  - vm_compute. reflexivity.
Defined.

Lemma scaffold_setup_denied R G req w :
  authorized G req = false -> snd (Scaffold.handleStoreSecrets R G req w) = w.
Proof.
  unfold authorized, presents, Scaffold.handleStoreSecrets. intros H.
  destruct (negb (String.eqb (method req) "POST")); [reflexivity|].
  destruct (x_setup_token req) as [s|]; [|reflexivity].
  destruct (String.eqb s "") eqn:Hs; [reflexivity|].
  destruct (SETUP_TOKEN G) as [tok|]; [|reflexivity].
  destruct (String.eqb tok ""); [reflexivity|].
  cbn [negb andb] in H. rewrite H. reflexivity.
Qed.

Lemma token_key_not_named provider name :
  (forall p, name <> "oauth:" +:+ toLowerCase p +:+ ":token") ->
  Scaffold.token_key provider <> "secret:" +:+ name.
Proof.
  intros H E. apply (H provider). unfold Scaffold.token_key in E.
  cbn in E. inversion E as [E']. symmetry. exact E'.
Qed.

Lemma secret_of_record w name :
  secret_of w name = text_of <$> (content <$> record_at SECRETS_KV ("secret:" +:+ name) w).
Proof. unfold secret_of, record_at. cbn [namespace_of]. destruct (secrets_kv w); reflexivity. Qed.

(** In the scaffold, whatever the route: a request that does not carry
    the configured setup credential leaves what [getSecret(name)] reads
    as it is, for every name that is not a provider's token
    [oauth:<provider>:token] (those the callback writes). *)
Theorem scaffold_secrets_guarded R G req w name :
  authorized G req = false ->
  (forall provider, name <> "oauth:" +:+ toLowerCase provider +:+ ":token") ->
  secret_of (snd (Scaffold.handleRequest R G req w)) name = secret_of w name.
Proof.
  intros Hauth Hname.
  enough (Hp : preserves (record_is SECRETS_KV ("secret:" +:+ name)
                            (record_at SECRETS_KV ("secret:" +:+ name) w))
                 (Scaffold.handleRequest R G req)).
  { rewrite !secret_of_record. rewrite (Hp w eq_refl). reflexivity. }
  set (P := record_is SECRETS_KV ("secret:" +:+ name)
              (record_at SECRETS_KV ("secret:" +:+ name) w)).
  assert (Hsetup : preserves P (Scaffold.handleStoreSecrets R G req)).
  { intros w0 H0. rewrite scaffold_setup_denied by exact Hauth. exact H0. }
  assert (Htok : forall provider v,
             stable_under_put P SECRETS_KV (Scaffold.token_key provider) v).
  { intros provider v. apply record_stable_other_key. apply token_key_not_named. exact Hname. }
  assert (Hticks : ignores_ticks P) by apply record_ignores_ticks.
  assert (Hses : forall key v, stable_under_put P SESSIONS_KV key v)
    by (intros; apply record_stable_other_namespace; discriminate).
  assert (Haud : forall key v, stable_under_put P AUDIT_KV key v)
    by (intros; apply record_stable_other_namespace; discriminate).
  clearbody P.
  unfold Scaffold.handleRequest. cbv zeta.
  unfold Scaffold.handleOAuthInit, Scaffold.handleOAuthCallback,
    Scaffold.handleInboundEmail, Scaffold.handleCreateCheckout, Scaffold.handleDeliver,
    Scaffold.handleAuditPost, Scaffold.handleListAudits, Scaffold.Response_redirect,
    Scaffold.audit_put, Scaffold.audit_record, Scaffold.ADMIN_HANDLE, Scaffold.fresh_state,
    Scaffold.makeSessionId, Scaffold.getSecret, Scaffold.kvPut, Scaffold.kvGet,
    request_json, JSON_parse, randomUUID, toISOString_now, Date_now, Math_random36,
    random_words.
  walk.
Qed.

(** [scaffold_secrets_guarded] on the configured demo deployment: a setup
    call with a wrong credential does not replace the redirect target. *)
Lemma scaffold_secrets_guarded_witness :
  secret_of
    (snd (Scaffold.handleRequest demo_runtime demo_globals
            (post "/api/store-secrets" (Some "guess")
               (JObj [("secrets", JObj [("OAUTH_REDIRECT_URI", JStr "https://example.org/")])]))
            configured_world))
    "OAUTH_REDIRECT_URI"
  = Some "https://example.com/api/oauth/callback".
Proof.
  etransitivity.
  - apply scaffold_secrets_guarded; [reflexivity | intros provider H; discriminate H].
  - vm_compute. reflexivity.
Defined.

(** ** Outbound requests *)

Section ClockRules.
Context {P : world -> Prop} (Hclock : ignores_clock P).

Lemma clock_next_tick : preserves P next_tick.
Proof. intros w H. apply (Hclock w _ H). Qed.

Lemma clock_kv_put R b key v ttl :
  stable_under_put P b key v -> preserves P (kv_put R b key v ttl).
Proof.
  intros Hput [sec ses aud t o] H. unfold kv_put, bind, next_tick.
  cbn [tick secrets_kv sessions_kv audit_kv outbound].
  pose proof (Hclock _ (S t) H) as H'. cbn in H'.
  destruct b; cbn [namespace_of secrets_kv sessions_kv audit_kv].
  - destruct sec as [ns|]; [|exact H'].
    destruct (rt_put_fails R t); [exact H'|]. refine (Hput _ ns ttl _ H'); reflexivity.
  - destruct ses as [ns|]; [|exact H'].
    destruct (rt_put_fails R t); [exact H'|]. refine (Hput _ ns ttl _ H'); reflexivity.
  - destruct aud as [ns|]; [|exact H'].
    destruct (rt_put_fails R t); [exact H'|]. refine (Hput _ ns ttl _ H'); reflexivity.
Qed.
End ClockRules.

Lemma outbound_ignores_clock sent : ignores_clock (outbound_is sent).
Proof. intros w t H. exact H. Qed.

Lemma outbound_stable sent b key v : stable_under_put (outbound_is sent) b key v.
Proof. intros w ns ttl Hns H. destruct b; exact H. Qed.

(** As [frame], for a property that looks at the outbound requests: the
    rule for [fetch] is left out. *)
Ltac quiet_step :=
  lazymatch goal with
  | |- preserves _ (ret _) => apply preserves_ret
  | |- preserves _ (throw _) => apply preserves_throw
  | |- preserves _ (bind _ _) => apply preserves_bind; [| intros ?]
  | |- preserves _ (try_catch _ _) => apply preserves_try_catch; [| intros ?]
  | |- preserves _ (is_bound _) => apply preserves_is_bound
  | |- preserves _ (kv_get _ _) => apply preserves_kv_get
  | |- preserves _ (kv_list _ _ _ _) => apply preserves_kv_list
  | |- preserves _ next_tick => apply clock_next_tick; apply outbound_ignores_clock
  | |- preserves _ (kv_put _ _ _ _ _) =>
      apply clock_kv_put; [apply outbound_ignores_clock | apply outbound_stable]
  | |- preserves _ (match ?x with _ => _ end) => destruct x
  | |- preserves _ (let _ := _ in _) => cbv zeta
  | |- preserves _ _ => solve [auto]
  end.

Ltac quiet := cbv beta zeta; repeat quiet_step.

(** [workers/worker.js] makes no outbound request, whatever the request
    it serves. *)
Theorem sovereign_sends_nothing R G req w :
  outbound (snd (Sovereign.handleRequest R G req w)) = outbound w.
Proof.
  enough (Hp : preserves (outbound_is (outbound w)) (Sovereign.handleRequest R G req))
    by (apply Hp; reflexivity).
  set (sent := outbound w). clearbody sent.
  assert (Hlog : forall action details,
             preserves (outbound_is sent) (Sovereign.logAudit R action details)).
  { intros. unfold Sovereign.logAudit, randomUUID, toISOString_now. quiet. }
  assert (Hstore : forall entries, preserves (outbound_is sent) (Sovereign.store_each R entries)).
  { induction entries as [|[k v] rest IH]; cbn [Sovereign.store_each]; quiet. }
  assert (Hcollect : forall b names,
             preserves (outbound_is sent) (Sovereign.collect R b names)).
  { intros b. induction names as [|n rest IH]; cbn [Sovereign.collect]; unfold JSON_parse; quiet. }
  unfold_sovereign. quiet.
Qed.

Lemma scaffold_init_quiet R req sent :
  preserves (outbound_is sent) (Scaffold.handleOAuthInit R req).
Proof.
  unfold Scaffold.handleOAuthInit, Scaffold.Response_redirect, Scaffold.getSecret,
    Scaffold.kvPut, Scaffold.fresh_state, randomUUID, toISOString_now, Date_now, Math_random36.
  quiet.
Qed.

(** The scaffold makes no outbound request on any path but
    [/api/oauth/callback]. *)
Theorem scaffold_sends_only_on_callback R G req w :
  path req <> "/api/oauth/callback" ->
  outbound (snd (Scaffold.handleRequest R G req w)) = outbound w.
Proof.
  intros Hpath.
  enough (Hp : preserves (outbound_is (outbound w)) (Scaffold.handleRequest R G req))
    by (apply Hp; reflexivity).
  set (sent := outbound w). clearbody sent.
  assert (Hstore : forall entries, preserves (outbound_is sent) (Scaffold.store_each R entries)).
  { induction entries as [|[k v] rest IH]; cbn [Scaffold.store_each]; quiet. }
  unfold Scaffold.handleRequest. cbv zeta.
  destruct (String.eqb_spec (path req) "/api/oauth/callback") as [E|_]; [contradiction|].
  unfold Scaffold.handleStoreSecrets, Scaffold.handleOAuthInit,
    Scaffold.handleInboundEmail, Scaffold.handleCreateCheckout, Scaffold.handleDeliver,
    Scaffold.handleAuditPost, Scaffold.handleListAudits, Scaffold.Response_redirect,
    Scaffold.audit_put, Scaffold.audit_record, Scaffold.ADMIN_HANDLE, Scaffold.fresh_state,
    Scaffold.makeSessionId, Scaffold.getSecret, Scaffold.kvPut, Scaffold.kvGet,
    request_json, JSON_parse, randomUUID, toISOString_now, Date_now, Math_random36,
    random_words.
  quiet.
Qed.

(** [scaffold_sends_only_on_callback] on a checkout. *)
Lemma scaffold_sends_only_on_callback_witness :
  outbound (snd (Scaffold.handleRequest demo_runtime demo_globals demo_checkout fresh_world))
  = [].
Proof.
  apply (scaffold_sends_only_on_callback demo_runtime demo_globals demo_checkout fresh_world).
  intros H. discriminate H.
Defined.

(** ** The identity on the audit trail *)

Lemma preserves_bind_yields {A B} P (c : M A) (Q : A -> Prop) (k : A -> M B) :
  yields P c Q -> (forall a, Q a -> preserves P (k a)) -> preserves P (bind c k).
Proof.
  intros Hc Hk w H. unfold bind. destruct (Hc w H) as [HP HQ].
  destruct (c w) as [[a|message] w']; cbn [fst snd] in *; [|exact HP].
  apply Hk; [apply HQ; reflexivity | exact HP].
Qed.

Lemma admin_ignores_ticks who : ignores_ticks (audit_admin_is who).
Proof. intros w t o H. exact H. Qed.

Lemma admin_stable_other_namespace who b key v :
  b <> AUDIT_KV -> stable_under_put (audit_admin_is who) b key v.
Proof. intros Hb w ns ttl Hns H. destruct b; [exact H | exact H | contradiction]. Qed.

Lemma admin_stable_entry who key j :
  prop j "admin" = Some (JStr who) -> stable_under_put (audit_admin_is who) AUDIT_KV key (Json j).
Proof.
  intros Hj w ns ttl Hns H key' s. unfold audit_admin_is, record_at in *.
  cbn [set_namespace namespace_of audit_kv mbind option_bind] in *.
  destruct (decide (key = key')) as [->|Hk].
  - rewrite lookup_insert_eq. intros E. inversion E. exists j. split; [reflexivity | exact Hj].
  - rewrite lookup_insert_ne by exact Hk. intros E. apply (H key' s).
    rewrite Hns. exact E.
Qed.

#[local] Hint Resolve admin_ignores_ticks : frame.
#[local] Hint Extern 1 (stable_under_put (audit_admin_is _) SECRETS_KV _ _) =>
  apply admin_stable_other_namespace; discriminate : frame.
#[local] Hint Extern 1 (stable_under_put (audit_admin_is _) SESSIONS_KV _ _) =>
  apply admin_stable_other_namespace; discriminate : frame.
#[local] Hint Extern 1 (stable_under_put (audit_admin_is _) AUDIT_KV _ (Json _)) =>
  apply admin_stable_entry; first [ assumption | reflexivity ] : frame.

Ltac walk_entries :=
  cbv beta zeta;
  repeat first
    [ lazymatch goal with
      | |- preserves _ (bind (Scaffold.audit_record _ _ _ _) _) =>
          eapply preserves_bind_yields; [solve [eauto with frame] | intros ? []]
      | |- preserves _ (bind (Scaffold.ADMIN_HANDLE _) _) =>
          eapply preserves_bind_yields; [solve [eauto with frame] | intros ? []]
      end
    | walk_step ].

(** The scaffold. *)
Lemma ADMIN_HANDLE_yields G P : yields P (Scaffold.ADMIN_HANDLE G) (fun _ => False).
Proof. intros w H. split; [exact H|]. intros a E. discriminate E. Qed.

Lemma audit_record_yields R G P event details :
  ignores_ticks P -> yields P (Scaffold.audit_record R G event details) (fun _ => False).
Proof.
  intros Hticks w H. unfold Scaffold.audit_record, Scaffold.ADMIN_HANDLE. exec. split.
  - apply (Hticks w _ _ H).
  - intros a E. discriminate E.
Qed.

#[local] Hint Resolve ADMIN_HANDLE_yields audit_record_yields : frame.

Lemma audit_ignores_ticks a : ignores_ticks (audit_is a).
Proof. intros w t o H. exact H. Qed.

Lemma audit_stable_other_namespace a b key v :
  b <> AUDIT_KV -> stable_under_put (audit_is a) b key v.
Proof. intros Hb w ns ttl Hns H. destruct b; [exact H | exact H | contradiction]. Qed.

#[local] Hint Resolve audit_ignores_ticks : frame.
#[local] Hint Extern 1 (stable_under_put (audit_is _) SECRETS_KV _ _) =>
  apply audit_stable_other_namespace; discriminate : frame.
#[local] Hint Extern 1 (stable_under_put (audit_is _) SESSIONS_KV _ _) =>
  apply audit_stable_other_namespace; discriminate : frame.

Lemma scaffold_store_each_keeps_audit R a entries :
  preserves (audit_is a) (Scaffold.store_each R entries).
Proof. induction entries as [|[k v] rest IH]; cbn [Scaffold.store_each]; frame. Qed.

#[local] Hint Resolve scaffold_store_each_keeps_audit : frame.

Lemma no_audit_yet who : audit_admin_is who fresh_world.
Proof. intros key s H. discriminate H. Qed.

(** The scaffold appends nothing to the audit trail.  Whatever the
    request, the audit namespace after it is the one before it: every
    handler that would append a record builds the record first, and that
    fails on [ADMIN_HANDLE]. *)
Theorem scaffold_never_audits R G req w :
  audit_kv (snd (Scaffold.handleRequest R G req w)) = audit_kv w.
Proof.
  enough (Hp : preserves (audit_is (audit_kv w)) (Scaffold.handleRequest R G req))
    by (apply Hp; reflexivity).
  set (a := audit_kv w). clearbody a.
  unfold Scaffold.handleRequest;
  unfold Scaffold.handleStoreSecrets, Scaffold.handleOAuthInit, Scaffold.handleOAuthCallback,
    Scaffold.handleInboundEmail, Scaffold.handleCreateCheckout, Scaffold.handleDeliver,
    Scaffold.handleAuditPost, Scaffold.handleListAudits, Scaffold.Response_redirect,
    Scaffold.fresh_state, Scaffold.makeSessionId, Scaffold.getSecret, Scaffold.kvPut,
    Scaffold.kvGet,
    request_json, JSON_parse, randomUUID, toISOString_now, Date_now, Math_random36,
    random_words.
  walk_entries.
Qed.

(** [workers/worker.js]. *)
Lemma logAudit_keeps_admin R action details :
  preserves (audit_admin_is "Keli") (Sovereign.logAudit R action details).
Proof. unfold Sovereign.logAudit, randomUUID, toISOString_now. frame. Qed.

Lemma sovereign_store_each_keeps_admin R who entries :
  preserves (audit_admin_is who) (Sovereign.store_each R entries).
Proof. induction entries as [|[k v] rest IH]; cbn [Sovereign.store_each]; frame. Qed.

Lemma sovereign_collect_keeps_admin R who b names :
  preserves (audit_admin_is who) (Sovereign.collect R b names).
Proof.
  induction names as [|n rest IH]; cbn [Sovereign.collect]; unfold JSON_parse; frame.
Qed.

#[local] Hint Resolve logAudit_keeps_admin sovereign_store_each_keeps_admin
  sovereign_collect_keeps_admin : frame.

Lemma stamp_yields R fields :
  yields (audit_admin_is "Keli") (Sovereign.stamp R (JObj fields))
    (fun a => prop a "admin" = Some (JStr "Keli")).
Proof.
  intros w H.
  destruct (sovereign_stamp_object R fields w) as (stamped & w' & E & Hadmin & Haud & _).
  rewrite E. cbn [fst snd]. split.
  - intros key s. unfold record_at. cbn [namespace_of]. rewrite Haud. apply H.
  - intros a Ea. inversion Ea. exact Hadmin.
Qed.

Lemma ret_yields {A} P (a : A) : yields P (ret a) (eq a).
Proof. intros w H. split; [exact H|]. intros a' E. inversion E. reflexivity. Qed.

Lemma handleAudit_keeps_admin R req :
  (forall j, body req = Some j -> exists fields, j = JObj fields) ->
  preserves (audit_admin_is "Keli") (Sovereign.handleAudit R req).
Proof.
  intros Hbody. unfold Sovereign.handleAudit, request_json.
  destruct (body req) as [j|]; [|frame].
  destruct (Hbody j eq_refl) as [fields ->].
  eapply preserves_bind_yields; [apply ret_yields | intros entry <-].
  eapply preserves_bind_yields; [apply stamp_yields | intros stamped Hstamped].
  unfold randomUUID. frame.
Qed.

(** In [workers/worker.js], for every request but an audit post whose
    body is not a JSON object: if every record of the audit namespace is
    an entry whose [admin] is 'Keli', so is every record after the
    request. *)
Theorem sovereign_audit_trail_identity R G req w :
  (path req = "/api/audit" -> method req = "POST" ->
   forall j, body req = Some j -> exists fields, j = JObj fields) ->
  audit_admin_is "Keli" w ->
  audit_admin_is "Keli" (snd (Sovereign.handleRequest R G req w)).
Proof.
  intros Hbody. revert w.
  change (preserves (audit_admin_is "Keli") (Sovereign.handleRequest R G req)).
  unfold Sovereign.handleRequest. cbv zeta.
  destruct (String.eqb (method req) "OPTIONS"); [walk|].
  repeat match goal with
         | |- preserves _ (if ?c then Sovereign.handleAudit _ _ else _) => fail 1
         | |- preserves _ (if ?c then ?h else _) =>
             destruct c;
             [ unfold Sovereign.handleStoreSecrets, Sovereign.handleOAuthInit,
                 Sovereign.handleOAuthCallback, Sovereign.handleInboundEmail,
                 Sovereign.handleCreateCheckout, Sovereign.handleDeliver,
                 Sovereign.isPresold, request_json, JSON_parse, randomUUID, toISOString_now;
               solve [walk]
             | ]
         end.
  destruct (String.eqb_spec (path req) "/api/audit") as [Hp|_];
    [destruct (String.eqb_spec (method req) "POST") as [Hm|_]|]; cbn [andb].
  - apply handleAudit_keeps_admin. exact (Hbody Hp Hm).
  - unfold Sovereign.handleGetAuditLogs, Sovereign.handleGetMessages,
      Sovereign.handleStoreToken, Sovereign.sort_newest_first, request_json, JSON_parse.
    walk.
  - unfold Sovereign.handleGetAuditLogs, Sovereign.handleGetMessages,
      Sovereign.handleStoreToken, Sovereign.sort_newest_first, request_json, JSON_parse.
    walk.
Qed.

(** [sovereign_audit_trail_identity] on an audit post that names another
    identity, from the empty trail. *)
Lemma sovereign_audit_trail_identity_witness :
  let w := snd (Sovereign.handleRequest demo_runtime demo_globals
                  (post "/api/audit" None imposter) fresh_world) in
  audit_admin_is "Keli" w
  /\ (content <$> record_at AUDIT_KV ("audit_" +:+ rt_randomUUID demo_runtime 1) w)
     = Some (Json (JObj [("action", JStr "x"); ("admin", JStr "Keli");
                         ("timestamp", JStr (demo_clock 0))])).
Proof.
  split.
  - apply (sovereign_audit_trail_identity demo_runtime demo_globals
             (post "/api/audit" None imposter) fresh_world).
    + intros _ _ j E. inversion E. eexists. reflexivity.
    + apply no_audit_yet.
  - vm_compute. reflexivity.
Defined.

(** ** Checkout and delivery in [workers/worker.js] *)

Lemma delivery_token_nonempty R t : rt_randomUUID R t <> "" -> delivery_token_at R t <> "".
Proof.
  unfold delivery_token_at. destruct (rt_randomUUID R t) as [|c rest]; [contradiction|].
  intros _. discriminate.
Qed.

Lemma sovereign_checkout_run R req w order product_id sku buyer_email ns au :
  body req = Some order ->
  prop order "product_id" = Some product_id -> truthy product_id = true ->
  prop order "sku" = Some sku -> truthy sku = true ->
  prop order "buyer_email" = Some buyer_email -> truthy buyer_email = true ->
  secrets_kv w = Some ns -> audit_kv w = Some au -> reliable_from R (tick w) ->
  let token := delivery_token_at R (tick w) in
  let record := delivery_record product_id sku buyer_email (rt_toISOString R (S (tick w))) in
  Sovereign.handleCreateCheckout R req w
  = (Done (Sovereign.json_response
             (JObj [("presold_delivery", JBool true);
                    ("delivery_url", JStr ("https://proton.me/s/" +:+ token));
                    ("message",
                     JStr "Package auto-delivered. Check your email for access details.")])
             200),
     {| secrets_kv := Some (<["delivery_" +:+ token
                              := put_entry (Json record) (Some (86400 * 90))]> ns);
        sessions_kv := sessions_kv w;
        audit_kv :=
          Some (<["audit_" +:+ rt_randomUUID R (S (S (S (tick w))))
                  := put_entry
                       (Json (sovereign_audit "auto_delivery"
                                ("Auto-delivered " +:+ to_String sku +:+ " to "
                                 +:+ to_String buyer_email)
                                (rt_toISOString R (S (S (S (S (tick w))))))))
                       (Some (86400 * 365))]> au);
        tick := S (S (S (S (S (S (tick w)))))); outbound := outbound w |}).
Proof.
  intros Hbody Hp Hpt Hs Hst Hb Hbt Hns Hau HR token record.
  unfold Sovereign.handleCreateCheckout, request_json. rewrite Hbody.
  unfold bind at 1. unfold ret at 1.
  assert (Hnull : order <> JNull) by (intros ->; discriminate Hp).
  destruct w as [sec ses aud t o]. cbn in Hns, Hau, HR. subst sec aud.
  destruct order; [contradiction| | | | |];
    rewrite Hp, Hs, Hb, Hpt, Hst, Hbt; cbn [negb orb Sovereign.isPresold];
    exec; rewrite HR by lia;
    rewrite sovereign_logAudit_run by (eapply reliable_from_le; [|exact HR]; lia);
    reflexivity.
Qed.

Lemma sovereign_deliver_run R req w token ns au d :
  params_get "token" (query req) = Some token -> token <> "" ->
  secrets_kv w = Some ns -> content <$> ns !! ("delivery_" +:+ token) = Some d ->
  text_truthy (Some d) = true ->
  audit_kv w = Some au -> reliable_from R (tick w) ->
  Sovereign.handleDeliver R req w
  = (Done (respond (StoredBody d) 200),
     {| secrets_kv := Some ns; sessions_kv := sessions_kv w;
        audit_kv :=
          Some (<["audit_" +:+ rt_randomUUID R (tick w)
                  := put_entry
                       (Json (sovereign_audit "delivery_accessed"
                                ("Delivery " +:+ token +:+ " accessed")
                                (rt_toISOString R (S (tick w)))))
                       (Some (86400 * 365))]> au);
        tick := S (S (S (tick w))); outbound := outbound w |}).
Proof.
  intros Hq Hne Hns Hd Ht Hau HR. unfold Sovereign.handleDeliver. rewrite Hq.
  destruct (String.eqb_spec token ""); [contradiction|].
  destruct w as [sec ses aud t o]. cbn in Hns, Hau, HR. subst sec aud. exec.
  rewrite Hd, Ht. cbn [negb].
  rewrite sovereign_logAudit_run by exact HR. reflexivity.
Qed.

(** In [workers/worker.js], an order with a truthy [product_id], [sku]
    and [buyer_email] is delivered at once: the answer carries the link
    [https://proton.me/s/<token>], the token being the first twelve
    characters of the identifier drawn, in upper case; the delivery record
    is stored under [delivery_<token>] for ninety days; and
    [handleDeliver] with that token then answers 200 with that very
    record and leaves the secrets namespace as it is. *)
Theorem sovereign_checkout_then_deliver R req w order product_id sku buyer_email ns au :
  body req = Some order ->
  prop order "product_id" = Some product_id -> truthy product_id = true ->
  prop order "sku" = Some sku -> truthy sku = true ->
  prop order "buyer_email" = Some buyer_email -> truthy buyer_email = true ->
  secrets_kv w = Some ns -> audit_kv w = Some au -> reliable_from R (tick w) ->
  rt_randomUUID R (tick w) <> "" ->
  let token := delivery_token_at R (tick w) in
  let record := delivery_record product_id sku buyer_email (rt_toISOString R (S (tick w))) in
  exists w1,
    Sovereign.handleCreateCheckout R req w
    = (Done (Sovereign.json_response
               (JObj [("presold_delivery", JBool true);
                      ("delivery_url", JStr ("https://proton.me/s/" +:+ token));
                      ("message",
                       JStr "Package auto-delivered. Check your email for access details.")])
               200), w1)
    /\ record_at SECRETS_KV ("delivery_" +:+ token) w1
       = Some (put_entry (Json record) (Some (86400 * 90)))
    /\ forall req2,
         params_get "token" (query req2) = Some token ->
         exists w2,
           Sovereign.handleDeliver R req2 w1 = (Done (respond (StoredBody (Json record)) 200), w2)
           /\ secrets_kv w2 = secrets_kv w1.
Proof.
  intros Hbody Hp Hpt Hs Hst Hb Hbt Hns Hau HR Huuid token record.
  eexists. split; [apply (sovereign_checkout_run R req w order product_id sku buyer_email ns au);
                   assumption|].
  split.
  - unfold record_at. cbn [namespace_of secrets_kv mbind option_bind].
    apply lookup_insert_eq.
  - intros req2 Hq. eexists. split.
    + eapply sovereign_deliver_run; cbn [secrets_kv audit_kv tick sessions_kv].
      * exact Hq.
      * apply delivery_token_nonempty. exact Huuid.
      * reflexivity.
      * fold token. rewrite lookup_insert_eq. reflexivity.
      * reflexivity.
      * reflexivity.
      * eapply reliable_from_le; [|exact HR]. lia.
    + reflexivity.
Qed.

(** [sovereign_checkout_then_deliver] on the demo order. *)
Lemma sovereign_checkout_then_deliver_witness :
  let token := delivery_token_at demo_runtime 0 in
  let record :=
    delivery_record (JStr "field-kit") (JStr "PWS-0001") (JStr "buyer@example.com")
      (demo_clock 1) in
  token = "123E4567-E89"
  /\ exists w1,
       Sovereign.handleCreateCheckout demo_runtime (post "/api/create-checkout" None demo_order)
         fresh_world
       = (Done (Sovereign.json_response
                  (JObj [("presold_delivery", JBool true);
                         ("delivery_url", JStr ("https://proton.me/s/" +:+ token));
                         ("message",
                          JStr "Package auto-delivered. Check your email for access details.")])
                  200), w1)
       /\ record_at SECRETS_KV ("delivery_" +:+ token) w1
          = Some (put_entry (Json record) (Some (86400 * 90)))
       /\ forall req2,
            params_get "token" (query req2) = Some token ->
            exists w2,
              Sovereign.handleDeliver demo_runtime req2 w1
              = (Done (respond (StoredBody (Json record)) 200), w2)
              /\ secrets_kv w2 = secrets_kv w1.
Proof.
  split; [vm_compute; reflexivity|].
  apply (sovereign_checkout_then_deliver demo_runtime
           (post "/api/create-checkout" None demo_order) fresh_world demo_order
           (JStr "field-kit") (JStr "PWS-0001") (JStr "buyer@example.com") ∅ ∅);
    try reflexivity.
  - apply demo_reliable_from.
  - intros H. vm_compute in H. discriminate H.
Defined.

(** [handleDeliver] of [workers/worker.js] without a token answers 400,
    and with a token under which no delivery is stored 404; in both cases
    the world stays as it is (no audit entry is written). *)
Theorem sovereign_deliver_rejects R req w ns :
  secrets_kv w = Some ns ->
  (forall token, params_get "token" (query req) = Some token -> token <> "" ->
                 ns !! ("delivery_" +:+ token) = None) ->
  Sovereign.handleDeliver R req w
  = (Done (Sovereign.error_response
             (if nonempty (params_get "token" (query req))
              then "Delivery not found" else "Token required")
             (if nonempty (params_get "token" (query req)) then 404 else 400)), w).
Proof.
  intros Hns Hnone. unfold Sovereign.handleDeliver.
  destruct (params_get "token" (query req)) as [token|]; [|reflexivity].
  cbn [nonempty]. destruct (String.eqb_spec token "") as [->|Hne]; [reflexivity|].
  cbn [negb]. destruct w as [sec ses aud t o]. cbn in Hns. subst sec. exec.
  rewrite (Hnone token eq_refl Hne). reflexivity.
Qed.

(** [sovereign_deliver_rejects] on a token nobody was given, and on a
    request without a token. *)
Lemma sovereign_deliver_rejects_witness :
  Sovereign.handleDeliver demo_runtime (get "/api/deliver" [("token", "NO-SUCH-TOKEN")])
    fresh_world
  = (Done (Sovereign.error_response "Delivery not found" 404), fresh_world)
  /\ Sovereign.handleDeliver demo_runtime (get "/api/deliver" []) fresh_world
     = (Done (Sovereign.error_response "Token required" 400), fresh_world).
Proof.
  split.
  - apply (sovereign_deliver_rejects demo_runtime
             (get "/api/deliver" [("token", "NO-SUCH-TOKEN")]) fresh_world ∅ eq_refl).
    intros token _ _. apply lookup_empty.
  - apply (sovereign_deliver_rejects demo_runtime (get "/api/deliver" []) fresh_world ∅ eq_refl).
    intros token _ _. apply lookup_empty.
Defined.

(** ** Inbound messages in [workers/worker.js] *)

Lemma set_field_fresh name x fields :
  assoc name fields = None -> set_field name x fields = fields ++ [(name, x)].
Proof.
  induction fields as [|[k v] rest IH]; cbn [set_field assoc app]; [reflexivity|].
  destruct (String.eqb k name); [discriminate|]. intros H. rewrite IH by exact H. reflexivity.
Qed.

Lemma assoc_app_none name (l1 l2 : list (string * json)) :
  assoc name (l1 ++ l2) = match assoc name l1 with Some v => Some v | None => assoc name l2 end.
Proof.
  induction l1 as [|[k v] rest IH]; cbn [assoc app]; [reflexivity|].
  destruct (String.eqb k name); [reflexivity | exact IH].
Qed.

Lemma assoc_not_in name (l : list (string * json)) :
  ~ In name (List.map fst l) -> assoc name l = None.
Proof.
  induction l as [|[k v] rest IH]; cbn [assoc List.map fst In]; [reflexivity|].
  intros H. destruct (String.eqb_spec k name) as [->|_]; [exfalso; apply H; left; reflexivity|].
  apply IH. intros Hin. apply H. right. exact Hin.
Qed.

(** Copying an object whose names are distinct gives the object. *)
Lemma assign_fields_distinct target fields :
  List.NoDup (List.map fst fields) ->
  (forall name, In name (List.map fst fields) -> assoc name target = None) ->
  assign_fields target (JObj fields) = target ++ fields.
Proof.
  unfold assign_fields. cbn [own_entries]. revert target.
  induction fields as [|[k v] rest IH]; intros target Hnd Hfresh; cbn [fold_left fst snd].
  - rewrite app_nil_r. reflexivity.
  - inversion Hnd as [|? ? Hk Hrest]; subst.
    rewrite set_field_fresh by (apply Hfresh; left; reflexivity).
    rewrite IH; [rewrite <- app_assoc; reflexivity | exact Hrest |].
    intros name Hin. rewrite assoc_app_none, Hfresh by (right; exact Hin).
    cbn [assoc]. destruct (String.eqb_spec k name) as [->|_]; [contradiction | reflexivity].
Qed.

Lemma sovereign_collect_run_in R b names w ns :
  namespace_of b w = Some ns ->
  Sovereign.collect R b names w
  = (match sovereign_collected R ns names with
     | Some logs => Done logs
     | None => Thrown "Unexpected token in JSON"
     end, w).
Proof.
  intros Hns.
  induction names as [|name rest IH]; cbn [Sovereign.collect sovereign_collected];
    [reflexivity|].
  unfold bind at 1. unfold kv_get. rewrite Hns.
  destruct (content <$> ns !! name) as [v|]; [|exact IH].
  destruct (text_truthy (Some v)); [|exact IH].
  unfold JSON_parse. destruct (parse_stored R v) as [j|]; [|reflexivity].
  unfold bind at 1. unfold ret at 1. unfold bind at 1. rewrite IH.
  destruct (sovereign_collected R ns rest); reflexivity.
Qed.

(** [handleInboundEmail] of [workers/worker.js] on a JSON object (with
    distinct names): the message is stored for thirty days under
    [email_<id>], the id being the one returned; its [received] is the
    clock's, whatever [received] the sender wrote, and every other field
    is the sender's. *)
Theorem sovereign_inbound_email_stored R req w fields ns au :
  body req = Some (JObj fields) -> List.NoDup (List.map fst fields) ->
  secrets_kv w = Some ns -> audit_kv w = Some au -> reliable_from R (tick w) ->
  let emailId := rt_randomUUID R (tick w) in
  let received := JStr (rt_toISOString R (S (tick w))) in
  let record := JObj (set_field "received" received fields) in
  exists w',
    Sovereign.handleInboundEmail R req w
    = (Done (Sovereign.json_response
               (JObj [("success", JBool true); ("email_id", JStr emailId)]) 200), w')
    /\ secrets_kv w'
       = Some (<["email_" +:+ emailId := put_entry (Json record) (Some (86400 * 30))]> ns)
    /\ prop record "received" = Some received
    /\ (forall name, name <> "received" -> prop record name = assoc name fields)
    /\ sessions_kv w' = sessions_kv w.
Proof.
  intros Hbody Hnd Hns Hau HR emailId received record.
  unfold Sovereign.handleInboundEmail, request_json. rewrite Hbody.
  destruct w as [sec ses aud t o]. cbn in Hns, Hau, HR. subst sec aud. exec.
  rewrite HR by lia.
  rewrite sovereign_logAudit_run by (eapply reliable_from_le; [|exact HR]; lia).
  rewrite (assign_fields_distinct [] fields Hnd) by reflexivity. cbn [app].
  eexists. split; [reflexivity|]. cbn [secrets_kv sessions_kv].
  split; [reflexivity|]. split; [apply assoc_set_field_same|].
  split; [|reflexivity].
  intros name Hname. cbn [prop]. apply assoc_set_field_other. exact Hname.
Qed.

(** [sovereign_inbound_email_stored] on a message that claims to have
    been received in 1999. *)
Lemma sovereign_inbound_email_stored_witness :
  let emailId := rt_randomUUID demo_runtime 0 in
  let record := JObj [("from", JStr "a@example.com"); ("received", JStr (demo_clock 1))] in
  exists w',
    Sovereign.handleInboundEmail demo_runtime (post "/api/inbound-email" None first_email)
      fresh_world
    = (Done (Sovereign.json_response
               (JObj [("success", JBool true); ("email_id", JStr emailId)]) 200), w')
    /\ secrets_kv w'
       = Some (<["email_" +:+ emailId := put_entry (Json record) (Some (86400 * 30))]> ∅).
Proof.
  cbv zeta.
  destruct (sovereign_inbound_email_stored demo_runtime
              (post "/api/inbound-email" None first_email) fresh_world
              [("from", JStr "a@example.com"); ("received", JStr "1999-01-01T00:00:00.000Z")]
              ∅ ∅ eq_refl) as (w' & E & Hsec & _).
  - repeat constructor; cbn; intuition discriminate.
  - reflexivity.
  - reflexivity.
  - apply demo_reliable_from.
  - exists w'. split; [exact E | exact Hsec].
Defined.

(** [handleGetMessages] of [workers/worker.js] returns the messages it
    collects from one page of the keys under [email_], sorted newest first
    by [received], when every message has a valid [received]; it changes
    nothing, and only keys under the prefix are read. *)
Theorem sovereign_messages_listing R req w ns messages :
  secrets_kv w = Some ns ->
  sovereign_collected R ns (list_keys "email_" (rt_list_page R) ns) = Some messages ->
  Forall (dated R "received") messages ->
  exists sorted,
    Sovereign.handleGetMessages R req w = (Done (Sovereign.json_response (JArr sorted) 200), w)
    /\ Permutation messages sorted
    /\ StronglySorted (not_older R "received") sorted
    /\ (forall k, In k (list_keys "email_" (rt_list_page R) ns) ->
                  String.prefix "email_" k = true /\ is_Some (ns !! k)).
Proof.
  intros Hns Hlogs Hdated.
  exists (Js.sort (fun a b => Date_minus R (prop b "received") (prop a "received")) messages).
  split; [|split; [apply sort_perm | split; [apply newest_first_sorted; exact Hdated|]]].
  - unfold Sovereign.handleGetMessages. unfold bind at 1. unfold kv_list.
    cbn [namespace_of]. rewrite Hns. unfold bind at 1.
    rewrite (sovereign_collect_run_in R SECRETS_KV _ w ns Hns), Hlogs.
    unfold Sovereign.sort_newest_first.
    assert (Hnull : existsb Sovereign.is_null messages = false).
    { clear Hlogs. induction Hdated as [|e rest He _ IH]; [reflexivity|].
      cbn [existsb]. rewrite (dated_not_null R _ e He), IH. reflexivity. }
    rewrite Hnull. reflexivity.
  - intros k. apply list_keys_sound.
Qed.

(** [sovereign_messages_listing] after two messages came in: the later
    one is listed first. *)
Lemma sovereign_messages_listing_witness :
  let first := JObj [("from", JStr "a@example.com"); ("received", JStr (demo_clock 1))] in
  let second := JObj [("from", JStr "b@example.com"); ("received", JStr (demo_clock 7))] in
  exists sorted,
    Sovereign.handleGetMessages demo_runtime (get "/api/inbound-messages" []) two_emails
    = (Done (Sovereign.json_response (JArr sorted) 200), two_emails)
    /\ Permutation [first; second] sorted
    /\ StronglySorted (not_older demo_runtime "received") sorted
    /\ fst (Sovereign.handleGetMessages demo_runtime (get "/api/inbound-messages" [])
              two_emails)
       = Done (Sovereign.json_response (JArr [second; first]) 200).
Proof.
  cbv zeta.
  assert (Hns : secrets_kv two_emails = Some (default ∅ (secrets_kv two_emails)))
    by (vm_compute; reflexivity).
  destruct (sovereign_messages_listing demo_runtime (get "/api/inbound-messages" [])
              two_emails _
              [JObj [("from", JStr "a@example.com"); ("received", JStr (demo_clock 1))];
               JObj [("from", JStr "b@example.com"); ("received", JStr (demo_clock 7))]]
              Hns)
    as (sorted & E & Hperm & Hsorted & _).
  - vm_compute. reflexivity.
  - repeat constructor; intros H; vm_compute in H; discriminate H.
  - exists sorted. split; [exact E|]. split; [exact Hperm|]. split; [exact Hsorted|].
    vm_compute. reflexivity.
Defined.

(** ** Orders that are not complete *)

(** An order that is not complete is answered with 400 and changes
    nothing: [workers/worker.js] wants a truthy [product_id], [sku] and
    [buyer_email]; the scaffold wants a truthy [sku] only. *)
Theorem checkout_rejects_incomplete_orders R G req w order :
  body req = Some order -> order <> JNull ->
  (truthy_opt (prop order "product_id") && truthy_opt (prop order "sku")
   && truthy_opt (prop order "buyer_email") = false ->
   Sovereign.handleCreateCheckout R req w
   = (Done (Sovereign.error_response "Missing required fields" 400), w))
  /\ (truthy_opt (prop order "sku") = false ->
      Scaffold.handleCreateCheckout R G req w
      = (Done (Scaffold.error_response "missing sku" 400), w)).
Proof.
  intros Hbody Hnull. split; intros H.
  - unfold Sovereign.handleCreateCheckout, request_json. rewrite Hbody.
    unfold bind at 1. unfold ret at 1.
    assert (E : match prop order "product_id", prop order "sku", prop order "buyer_email" with
                | Some product_id, Some sku, Some buyer_email =>
                    negb (truthy product_id) || negb (truthy sku) || negb (truthy buyer_email)
                | _, _, _ => true
                end = true).
    { destruct (prop order "product_id") as [p|]; [|reflexivity].
      destruct (prop order "sku") as [s|]; [|reflexivity].
      destruct (prop order "buyer_email") as [b|]; [|reflexivity].
      cbn [truthy_opt] in H. rewrite <- !negb_andb, H. reflexivity. }
    destruct order; [contradiction| | | | |];
      (destruct (prop _ "product_id") as [f1|]; [|reflexivity]);
      (destruct (prop _ "sku") as [f2|]; [|reflexivity]);
      (destruct (prop _ "buyer_email") as [f3|]; [|reflexivity]);
      rewrite E; reflexivity.
  - unfold Scaffold.handleCreateCheckout, request_json. rewrite Hbody.
    unfold bind at 1. unfold ret at 1.
    destruct (truthy order); [|reflexivity].
    destruct (prop order "sku") as [s|]; [|reflexivity].
    cbn [truthy_opt] in H. rewrite H. reflexivity.
Qed.

(** [checkout_rejects_incomplete_orders] on an order without a [sku]. *)
Lemma checkout_rejects_incomplete_orders_witness :
  let order := JObj [("product_id", JStr "field-kit"); ("buyer_email", JStr "buyer@example.com")] in
  Sovereign.handleCreateCheckout demo_runtime (post "/api/create-checkout" None order) fresh_world
  = (Done (Sovereign.error_response "Missing required fields" 400), fresh_world)
  /\ Scaffold.handleCreateCheckout demo_runtime demo_globals
       (post "/api/create-checkout" None order) fresh_world
     = (Done (Scaffold.error_response "missing sku" 400), fresh_world).
Proof.
  cbv zeta.
  destruct (checkout_rejects_incomplete_orders demo_runtime demo_globals
              (post "/api/create-checkout" None
                 (JObj [("product_id", JStr "field-kit");
                        ("buyer_email", JStr "buyer@example.com")]))
              fresh_world _ eq_refl) as [Sovereign_part Scaffold_part].
  - discriminate.
  - split; [apply Sovereign_part | apply Scaffold_part]; reflexivity.
Defined.

(** ** The listings read and do not write *)

Lemma sovereign_collect_reads R b names w : snd (Sovereign.collect R b names w) = w.
Proof.
  destruct (namespace_of b w) as [ns|] eqn:Hns.
  - rewrite (sovereign_collect_run_in R b names w ns Hns). reflexivity.
  - destruct names as [|name rest]; [reflexivity|].
    cbn [Sovereign.collect]. unfold bind, kv_get. rewrite Hns. reflexivity.
Qed.

(** The listing handlers read and do not write: [handleGetAuditLogs] and
    [handleGetMessages] of [workers/worker.js] and [handleListAudits] of
    the scaffold leave the world as it is, also when they throw. *)
Theorem listing_is_read_only R req w :
  snd (Sovereign.handleGetAuditLogs R req w) = w
  /\ snd (Sovereign.handleGetMessages R req w) = w
  /\ snd (Scaffold.handleListAudits R w) = w.
Proof.
  assert (Hsov : forall b prefix field,
             snd ((names <- kv_list R b prefix None ;;
                   logs <- Sovereign.collect R b names ;;
                   sorted <- Sovereign.sort_newest_first R field logs ;;
                   ret (Sovereign.json_response (JArr sorted) 200)) w) = w).
  { intros b prefix field. unfold bind at 1. unfold kv_list.
    destruct (namespace_of b w) as [ns|]; [|reflexivity].
    unfold bind at 1.
    pose proof (sovereign_collect_reads R b
                  (list_keys prefix (rt_list_page R) ns) w) as Hc.
    destruct (Sovereign.collect R b _ w) as [[logs|message] w']; cbn [snd] in Hc; subst w';
      [|reflexivity].
    unfold Sovereign.sort_newest_first, bind, ret, throw.
    destruct (existsb Sovereign.is_null logs && (2 <=? length logs)%nat); reflexivity. }
  split; [apply (Hsov AUDIT_KV "audit_" "timestamp")|].
  split; [apply (Hsov SECRETS_KV "email_" "received")|].
  unfold Scaffold.handleListAudits. unfold bind at 1. unfold is_bound.
  destruct (namespace_of AUDIT_KV w) as [ns|] eqn:Hns; cbn [negb]; [|reflexivity].
  unfold bind at 1. unfold kv_list. rewrite Hns. reflexivity.
Qed.

(** ** The manual token of [workers/worker.js] *)

(** [handleStoreToken] of [workers/worker.js]: a body without a truthy
    [token] is answered with 400 and changes nothing; a non-empty string
    token is stored as it is under [manual_token], over whatever was
    there, and an audit entry is appended. *)
Theorem sovereign_store_token R req w obj ns au :
  body req = Some obj -> obj <> JNull ->
  secrets_kv w = Some ns -> audit_kv w = Some au -> reliable_from R (tick w) ->
  (truthy_opt (prop obj "token") = false ->
   Sovereign.handleStoreToken R req w
   = (Done (Sovereign.error_response "Token required" 400), w))
  /\ (forall token,
        prop obj "token" = Some (JStr token) -> token <> "" ->
        exists w',
          Sovereign.handleStoreToken R req w
          = (Done (Sovereign.json_response (JObj [("success", JBool true)]) 200), w')
          /\ secrets_kv w' = Some (<["manual_token" := put_entry (Text token) None]> ns)
          /\ audit_kv w'
             = Some (<["audit_" +:+ rt_randomUUID R (S (tick w))
                       := put_entry
                            (Json (sovereign_audit "token_stored" "Manual token stored"
                                     (rt_toISOString R (S (S (tick w))))))
                            (Some (86400 * 365))]> au)).
Proof.
  intros Hbody Hnull Hns Hau HR.
  destruct w as [sec ses aud t o]. cbn in Hns, Hau, HR. subst sec aud. split.
  - intros Hfalsy. unfold Sovereign.handleStoreToken, request_json. rewrite Hbody.
    unfold bind at 1. unfold ret at 1.
    destruct obj; [contradiction| | | | |];
      (destruct (prop _ "token") as [tok|]; [|reflexivity]);
      cbn [truthy_opt] in Hfalsy; rewrite Hfalsy; reflexivity.
  - intros token Htok Hne. unfold Sovereign.handleStoreToken, request_json. rewrite Hbody.
    unfold bind at 1. unfold ret at 1.
    assert (Htruthy : truthy (JStr token) = true).
    { cbn. destruct (String.eqb_spec token ""); [contradiction | reflexivity]. }
    destruct obj; [contradiction| | | | |];
      rewrite Htok, Htruthy; cbn [negb put_arg to_String]; exec; rewrite HR by lia;
      rewrite sovereign_logAudit_run by (eapply reliable_from_le; [|exact HR]; lia);
      eexists; repeat split.
Qed.

(** [sovereign_store_token] on an empty and on a proper token. *)
Lemma sovereign_store_token_witness :
  Sovereign.handleStoreToken demo_runtime (post "/api/store-token" None (JObj [("token", JStr "")]))
    fresh_world
  = (Done (Sovereign.error_response "Token required" 400), fresh_world)
  /\ exists w',
       Sovereign.handleStoreToken demo_runtime
         (post "/api/store-token" None (JObj [("token", JStr "tok_1")])) fresh_world
       = (Done (Sovereign.json_response (JObj [("success", JBool true)]) 200), w')
       /\ secrets_kv w' = Some (<["manual_token" := put_entry (Text "tok_1") None]> ∅).
Proof.
  split.
  - destruct (sovereign_store_token demo_runtime
                (post "/api/store-token" None (JObj [("token", JStr "")])) fresh_world
                (JObj [("token", JStr "")]) ∅ ∅ eq_refl) as [Rejected _];
      [discriminate | reflexivity | reflexivity | apply demo_reliable_from |].
    apply Rejected. reflexivity.
  - destruct (sovereign_store_token demo_runtime
                (post "/api/store-token" None (JObj [("token", JStr "tok_1")])) fresh_world
                (JObj [("token", JStr "tok_1")]) ∅ ∅ eq_refl) as [_ Stored];
      [discriminate | reflexivity | reflexivity | apply demo_reliable_from |].
    destruct (Stored "tok_1" eq_refl) as (w' & E & Hsec & _); [discriminate|].
    exists w'. split; [exact E | exact Hsec].
Defined.

(** ** The handshake of [workers/worker.js], end to end *)

Lemma sovereign_callback_replays R req w code state provider created ns ses au :
  params_get "code" (query req) = Some code -> code <> "" ->
  params_get "state" (query req) = Some state -> state <> "" ->
  secrets_kv w = Some ns -> sessions_kv w = Some ses -> audit_kv w = Some au ->
  content <$> ses !! ("session_" +:+ state)
  = Some (Json (JObj [("provider", JStr provider); ("created", JStr created);
                      ("admin", JStr "Keli")])) ->
  reliable R ->
  exists w' au',
    Sovereign.handleOAuthCallback R req w
    = (Done (Sovereign.json_response
               (JObj [("success", JBool true);
                      ("message", JStr "OAuth completed successfully")]) 200), w')
    /\ secrets_kv w'
       = Some (<["oauth_token_" +:+ provider
                 := put_entry (Text ("token_" +:+ String.substring 0 10 code)) None]> ns)
    /\ sessions_kv w' = Some ses /\ audit_kv w' = Some au'.
Proof.
  intros Hc Hcne Hs Hsne Hns Hses Hau Hrec HR.
  destruct (sovereign_callback_run R req w code state ses _
              (JObj [("provider", JStr provider); ("created", JStr created);
                     ("admin", JStr "Keli")]) ns au Hc Hcne Hs Hsne Hses Hrec)
    as (w' & E & _ & Hsec' & Hses' & Hau');
    [reflexivity | reflexivity | discriminate | exact Hns | exact Hau
    | apply reliable_from_any; exact HR |].
  exists w'. eexists. split; [exact E|]. split; [exact Hsec'|].
  split; [rewrite Hses'; exact Hses | exact Hau'].
Qed.

(** The handshake of [workers/worker.js] end to end, when no write
    fails: the session id [handleOAuthInit] returns is accepted as the
    [state] of a callback, which stores the token made of the first ten
    characters of its code under [oauth_token_<provider>]; and the session
    is not used up: a second callback with the same state and another
    code succeeds as well and replaces the token. *)
Theorem sovereign_handshake_composes R req w provider ns ses au :
  params_get "provider" (query req) = Some provider -> provider <> "" ->
  secrets_kv w = Some ns -> sessions_kv w = Some ses -> audit_kv w = Some au ->
  reliable R ->
  let sessionId := rt_randomUUID R (tick w) in
  sessionId <> "" ->
  exists w1,
    Sovereign.handleOAuthInit R req w
    = (Done (Sovereign.json_response
                      (JObj (match Sovereign.auth_url provider sessionId with
                             | Some u => [("auth_url", u)]
                             | None => []
                             end ++ [("session_id", JStr sessionId)])) 200), w1)
    /\ forall req2 code,
         params_get "code" (query req2) = Some code -> code <> "" ->
         params_get "state" (query req2) = Some sessionId ->
         exists w2,
           Sovereign.handleOAuthCallback R req2 w1
           = (Done (Sovereign.json_response
                      (JObj [("success", JBool true);
                             ("message", JStr "OAuth completed successfully")]) 200), w2)
           /\ record_at SECRETS_KV ("oauth_token_" +:+ provider) w2
              = Some (put_entry (Text ("token_" +:+ String.substring 0 10 code)) None)
           /\ forall req3 code',
                params_get "code" (query req3) = Some code' -> code' <> "" ->
                params_get "state" (query req3) = Some sessionId ->
                exists w3,
                  Sovereign.handleOAuthCallback R req3 w2
                  = (Done (Sovereign.json_response
                             (JObj [("success", JBool true);
                                    ("message", JStr "OAuth completed successfully")]) 200),
                     w3)
                  /\ record_at SECRETS_KV ("oauth_token_" +:+ provider) w3
                     = Some (put_entry (Text ("token_" +:+ String.substring 0 10 code')) None).
Proof.
  intros Hp Hne Hns Hses Hau HR sessionId Hid.
  assert (E1 : exists w1 au1,
             Sovereign.handleOAuthInit R req w
             = (Done (Sovereign.json_response
                      (JObj (match Sovereign.auth_url provider sessionId with
                             | Some u => [("auth_url", u)]
                             | None => []
                             end ++ [("session_id", JStr sessionId)])) 200), w1)
             /\ secrets_kv w1 = Some ns /\ audit_kv w1 = Some au1
             /\ sessions_kv w1
                = Some (<["session_" +:+ sessionId
                          := put_entry
                               (Json (JObj [("provider", JStr provider);
                                            ("created", JStr (rt_toISOString R (S (tick w))));
                                            ("admin", JStr "Keli")]))
                               (Some 600)]> ses)).
  { unfold Sovereign.handleOAuthInit. rewrite Hp.
    destruct (String.eqb_spec provider ""); [contradiction|].
    destruct w as [sec ses' aud t o]. cbn in Hns, Hses, Hau. subst sec ses' aud. exec.
    rewrite HR.
    rewrite sovereign_logAudit_run by (apply reliable_from_any; exact HR).
    eexists. eexists. split; [reflexivity|]. repeat split. }
  destruct E1 as (w1 & au1 & E1 & Hsec1 & Hau1 & Hses1).
  exists w1. split; [exact E1|].
  intros req2 code Hc Hcne Hs.
  edestruct (sovereign_callback_replays R req2 w1 code sessionId provider)
    as (w2 & au2 & E2 & Hsec2 & Hses2 & Hau2);
    [exact Hc | exact Hcne | exact Hs | exact Hid | exact Hsec1 | exact Hses1 | exact Hau1
    | rewrite lookup_insert_eq; reflexivity | exact HR |].
  exists w2. split; [exact E2|]. split.
  { unfold record_at. cbn [namespace_of]. rewrite Hsec2. apply lookup_insert_eq. }
  intros req3 code' Hc' Hcne' Hs'.
  edestruct (sovereign_callback_replays R req3 w2 code' sessionId provider)
    as (w3 & au3 & E3 & Hsec3 & _ & _);
    [exact Hc' | exact Hcne' | exact Hs' | exact Hid | exact Hsec2 | exact Hses2 | exact Hau2
    | rewrite lookup_insert_eq; reflexivity | exact HR |].
  exists w3. split; [exact E3|].
  unfold record_at. cbn [namespace_of]. rewrite Hsec3. apply lookup_insert_eq.
Qed.

(** [sovereign_handshake_composes] on the demo deployment, with two
    callbacks for one handshake. *)
Lemma sovereign_handshake_composes_witness :
  exists w1 w2 w3,
    snd (Sovereign.handleOAuthInit demo_runtime (get "/api/oauth/init" [("provider", "stripe")])
           fresh_world) = w1
    /\ Sovereign.handleOAuthCallback demo_runtime
         (callback "code-1-of-the-provider" sovereign_issued_state) w1
       = (Done (Sovereign.json_response
                  (JObj [("success", JBool true);
                         ("message", JStr "OAuth completed successfully")]) 200), w2)
    /\ record_at SECRETS_KV "oauth_token_stripe" w2
       = Some (put_entry (Text "token_code-1-of-") None)
    /\ Sovereign.handleOAuthCallback demo_runtime
         (callback "code-2-of-the-provider" sovereign_issued_state) w2
       = (Done (Sovereign.json_response
                  (JObj [("success", JBool true);
                         ("message", JStr "OAuth completed successfully")]) 200), w3)
    /\ record_at SECRETS_KV "oauth_token_stripe" w3
       = Some (put_entry (Text "token_code-2-of-") None).
Proof.
  destruct (sovereign_handshake_composes demo_runtime
              (get "/api/oauth/init" [("provider", "stripe")]) fresh_world "stripe" ∅ ∅ ∅)
    as (w1 & E1 & Callback);
    [reflexivity | discriminate | reflexivity | reflexivity | reflexivity
    | apply demo_reliable | intros H; vm_compute in H; discriminate H |].
  destruct (Callback (callback "code-1-of-the-provider" sovereign_issued_state)
              "code-1-of-the-provider")
    as (w2 & E2 & Htoken2 & Replay); [reflexivity | discriminate | reflexivity |].
  destruct (Replay (callback "code-2-of-the-provider" sovereign_issued_state)
              "code-2-of-the-provider")
    as (w3 & E3 & Htoken3); [reflexivity | discriminate | reflexivity |].
  exists w1, w2, w3. rewrite E1. split; [reflexivity|].
  split; [exact E2|]. split; [exact Htoken2|]. split; [exact E3 | exact Htoken3].
Defined.

(** ** What becomes of a handler's error *)

(** The router of [workers/worker.js] returns its handlers without
    awaiting them, so its [catch] does not see what they throw: a POST
    whose body does not parse, to a handler that reads the body first,
    fails without a response (and changes nothing). *)
Theorem sovereign_handler_errors_escape R G req w :
  method req = "POST" -> body req = None ->
  In (path req) ["/api/inbound-email"; "/api/create-checkout"; "/api/audit";
                 "/api/store-token"] ->
  exists message, Sovereign.handleRequest R G req w = (Thrown message, w).
Proof.
  intros Hm Hbody Hpath. unfold Sovereign.handleRequest. cbv zeta. rewrite Hm.
  cbn [In] in Hpath.
  destruct Hpath as [<-|[<-|[<-|[<-|[]]]]]; cbn [String.eqb Ascii.eqb Bool.eqb andb];
    unfold Sovereign.handleInboundEmail, Sovereign.handleCreateCheckout, Sovereign.handleAudit,
      Sovereign.handleStoreToken, request_json; rewrite Hbody;
    eexists; reflexivity.
Qed.

(** [sovereign_handler_errors_escape] on a checkout. *)
Lemma sovereign_handler_errors_escape_witness :
  exists message,
    Sovereign.handleRequest demo_runtime demo_globals (unparsable "/api/create-checkout")
      fresh_world
    = (Thrown message, fresh_world).
Proof.
  apply sovereign_handler_errors_escape; [reflexivity | reflexivity |].
  right. left. reflexivity.
Defined.

(** The router of the scaffold answers every request: what a handler
    throws becomes a response.  A POST whose body does not parse is
    answered with 400 by [handleInboundEmail], which catches it, and with
    500 by the router for [handleCreateCheckout] and [handleAuditPost];
    nothing is changed. *)
Theorem scaffold_always_answers R G req w :
  (exists resp, fst (Scaffold.handleRequest R G req w) = Done resp)
  /\ (method req = "POST" -> body req = None ->
      (path req = "/api/inbound-email" ->
       Scaffold.handleRequest R G req w
       = (Done (Scaffold.error_response "invalid json" 400), w))
      /\ (path req = "/api/create-checkout" \/ path req = "/api/audit" ->
          exists message,
            Scaffold.handleRequest R G req w
            = (Done (Scaffold.error_response message 500), w))).
Proof.
  split.
  - unfold Scaffold.handleRequest. cbv zeta.
    destruct (String.eqb (method req) "OPTIONS"); [eexists; reflexivity|].
    match goal with
    | |- context [try_catch ?c ?h w] =>
        unfold try_catch; destruct (c w) as [[r|m] w']; eexists; reflexivity
    end.
  - intros Hm Hbody. unfold Scaffold.handleRequest. cbv zeta. rewrite Hm. split.
    + intros ->. cbn [String.eqb Ascii.eqb Bool.eqb andb orb].
      unfold Scaffold.handleInboundEmail. rewrite Hbody. reflexivity.
    + intros [-> | ->]; cbn [String.eqb Ascii.eqb Bool.eqb andb orb];
        unfold Scaffold.handleCreateCheckout, Scaffold.handleAuditPost, request_json;
        rewrite Hbody; eexists; reflexivity.
Qed.

(** [scaffold_always_answers] on an inbound email and on a checkout. *)
Lemma scaffold_always_answers_witness :
  Scaffold.handleRequest demo_runtime demo_globals (unparsable "/api/inbound-email") fresh_world
  = (Done (Scaffold.error_response "invalid json" 400), fresh_world)
  /\ exists message,
       Scaffold.handleRequest demo_runtime demo_globals (unparsable "/api/create-checkout")
         fresh_world
       = (Done (Scaffold.error_response message 500), fresh_world).
Proof.
  split.
  - destruct (scaffold_always_answers demo_runtime demo_globals
                (unparsable "/api/inbound-email") fresh_world) as [_ Unparsable].
    destruct (Unparsable eq_refl eq_refl) as [Email _]. apply Email. reflexivity.
  - destruct (scaffold_always_answers demo_runtime demo_globals
                (unparsable "/api/create-checkout") fresh_world) as [_ Unparsable].
    destruct (Unparsable eq_refl eq_refl) as [_ Other]. apply Other. left. reflexivity.
Defined.

(** ** Secrets of the scaffold: what is stored is what is read *)

Lemma append_inj_r (p a b : string) : p +:+ a = p +:+ b -> a = b.
Proof. induction p as [|c p IH]; cbn; intros H; [exact H | inversion H; auto]. Qed.

Lemma write_secrets_other prefix entries ns key :
  ~ In key (List.map (fun kv => prefix +:+ fst kv) entries) ->
  write_secrets prefix entries ns !! key = ns !! key.
Proof.
  unfold write_secrets. revert ns.
  induction entries as [|[k v] rest IH]; intros ns Hnot; cbn [fold_left fst snd];
    [reflexivity|].
  cbn [List.map In fst] in Hnot.
  rewrite IH by (intros H; apply Hnot; right; exact H).
  apply lookup_insert_ne. intros E. apply Hnot. left. exact E.
Qed.

Lemma write_secrets_lookup prefix entries ns name v :
  List.NoDup (List.map fst entries) -> In (name, v) entries ->
  write_secrets prefix entries ns !! (prefix +:+ name) = Some (put_entry (put_arg v) None).
Proof.
  unfold write_secrets. revert ns.
  induction entries as [|[k x] rest IH]; intros ns Hnd Hin; [destruct Hin|].
  cbn [List.map fst] in Hnd. inversion Hnd as [|? ? Hk Hrest]; subst.
  cbn [fold_left fst snd]. destruct Hin as [E|Hin].
  - inversion E; subst.
    change (write_secrets prefix rest (<[prefix +:+ name := put_entry (put_arg v) None]> ns)
            !! (prefix +:+ name) = Some (put_entry (put_arg v) None)).
    rewrite write_secrets_other; [apply lookup_insert_eq|].
    intros H. apply in_map_iff in H as ([k' v'] & E' & Hin'). cbn [fst] in E'.
    apply append_inj_r in E'. subst k'. apply Hk.
    apply in_map_iff. exists (name, v'). split; [reflexivity | exact Hin'].
  - apply IH; assumption.
Qed.

(** In the scaffold, what [handleStoreSecrets] stores is what [getSecret]
    reads: after a call with the valid credential and a body
    [{secrets: S}] ([S] an object with distinct names), [getSecret(k)]
    gives [String(v)] for every entry [k: v] of [S], and for every other
    name what it gave before. *)
Theorem scaffold_stored_secret_is_read R G req w tok fields entries ns :
  reliable_from R (tick w) -> method req = "POST" ->
  SETUP_TOKEN G = Some tok -> presents tok req = true -> secrets_kv w = Some ns ->
  body req = Some (JObj fields) -> assoc "secrets" fields = Some (JObj entries) ->
  List.NoDup (List.map fst entries) ->
  let w' := snd (Scaffold.handleStoreSecrets R G req w) in
  (forall name v, In (name, v) entries ->
                  Scaffold.getSecret name w' = (Done (Some (to_String v)), w'))
  /\ (forall name, ~ In name (List.map fst entries) ->
                   Scaffold.getSecret name w' = (Done (secret_of w name), w')).
Proof.
  intros HR Hm HG Hp Hns Hbody Hsec Hnd w'.
  pose proof (scaffold_setup R G req w tok fields (JObj entries) ns HR Hm HG Hp Hns Hbody Hsec
                eq_refl) as E.
  assert (Hsec1 : secrets_kv w' = Some (write_secrets "secret:" entries ns))
    by (subst w'; rewrite E; reflexivity).
  clearbody w'. clear E. split.
  - intros name v Hin. rewrite getSecret_run. unfold secret_of. rewrite Hsec1.
    rewrite (write_secrets_lookup "secret:" entries ns name v Hnd Hin). reflexivity.
  - intros name Hnot. rewrite getSecret_run. unfold secret_of. rewrite Hsec1, Hns.
    rewrite write_secrets_other; [reflexivity|].
    intros H. apply in_map_iff in H as ([k' v'] & E' & Hin'). cbn [fst] in E'.
    apply append_inj_r in E'. subst k'. apply Hnot.
    apply in_map_iff. exists (name, v'). split; [reflexivity | exact Hin'].
Qed.

(** [scaffold_stored_secret_is_read] on the configuration of the demo
    deployment: a name that was stored, and one that was not. *)
Lemma scaffold_stored_secret_is_read_witness :
  let w' := configured_world in
  Scaffold.getSecret "OAUTH_STRIPE_CLIENT_ID" w' = (Done (Some "ca_123"), w')
  /\ Scaffold.getSecret "OAUTH_STRIPE_SCOPE" w' = (Done None, w').
Proof.
  destruct (scaffold_stored_secret_is_read demo_runtime demo_globals
              (post "/api/store-secrets" (Some "s3cret") (JObj [("secrets", oauth_config)]))
              fresh_world "s3cret" [("secrets", oauth_config)]
              [("OAUTH_STRIPE_CLIENT_ID", JStr "ca_123");
               ("OAUTH_STRIPE_AUTH_URL", JStr "https://connect.stripe.com/oauth/authorize");
               ("OAUTH_STRIPE_TOKEN_URL", JStr "https://connect.stripe.com/oauth/token");
               ("OAUTH_STRIPE_CLIENT_SECRET", JStr "sk_123");
               ("OAUTH_REDIRECT_URI", JStr "https://example.com/api/oauth/callback")] ∅)
    as [Stored Others];
    [apply demo_reliable_from | reflexivity | reflexivity | reflexivity | reflexivity
    | reflexivity | reflexivity | repeat constructor; cbn; intuition discriminate |].
  split.
  - apply (Stored "OAUTH_STRIPE_CLIENT_ID" (JStr "ca_123")). left. reflexivity.
  - apply (Others "OAUTH_STRIPE_SCOPE"). cbn. intuition discriminate.
Defined.

(** ** The setup of the scaffold reports failure *)

(** The setup of the scaffold writes the secrets and then reports a
    failure.  With the valid credential, a body [{secrets: S}] and no
    write failing, one record is written per entry of [S]; the handler
    then fails on [ADMIN_HANDLE], so through the router the answer is a
    500, with no list of the stored names and no audit entry. *)
Theorem scaffold_setup_reports_failure R G req w tok fields secrets ns :
  path req = "/api/store-secrets" -> method req = "POST" ->
  SETUP_TOKEN G = Some tok -> presents tok req = true ->
  secrets_kv w = Some ns ->
  body req = Some (JObj fields) -> assoc "secrets" fields = Some secrets ->
  object_valued secrets = true ->
  reliable_from R (tick w) ->
  exists w',
    Scaffold.handleRequest R G req w
    = (Done (Scaffold.error_response Scaffold.reference_error 500), w')
    /\ secrets_kv w' = Some (write_secrets "secret:" (own_entries secrets) ns)
    /\ sessions_kv w' = sessions_kv w
    /\ audit_kv w' = audit_kv w.
Proof.
  intros Hpath Hm HG Hp Hns Hbody Hsec Hobj HR.
  unfold Scaffold.handleRequest. rewrite Hpath, Hm.
  cbn [String.eqb Ascii.eqb Bool.eqb andb orb]. unfold try_catch.
  rewrite (scaffold_setup R G req w tok fields secrets ns) by assumption.
  eexists. split; [reflexivity|]. repeat split.
Qed.

(** [scaffold_setup_reports_failure] on the configuration of the demo
    deployment. *)
Lemma scaffold_setup_reports_failure_witness :
  fst (Scaffold.handleRequest demo_runtime demo_globals
         (post "/api/store-secrets" (Some "s3cret") (JObj [("secrets", oauth_config)]))
         fresh_world)
  = Done (Scaffold.error_response Scaffold.reference_error 500)
  /\ secret_of configured_world "OAUTH_STRIPE_CLIENT_ID" = Some "ca_123".
Proof.
  destruct (scaffold_setup_reports_failure demo_runtime demo_globals
              (post "/api/store-secrets" (Some "s3cret") (JObj [("secrets", oauth_config)]))
              fresh_world "s3cret" [("secrets", oauth_config)] oauth_config ∅)
    as (w' & E & _);
    [ reflexivity | reflexivity | reflexivity | reflexivity | reflexivity | reflexivity
    | reflexivity | reflexivity | apply demo_reliable_from | ].
  split; [rewrite E; reflexivity | vm_compute; reflexivity].
Defined.

(** ** A write that fails during the setup of the scaffold *)

(** The loop of the scaffold when the write number [i] fails: it throws,
    and what was written is a prefix of the batch. *)
Lemma scaffold_store_each_fails R entries :
  forall ns ses aud t o i,
  (i < length entries)%nat -> rt_put_fails R (t + i) = true ->
  exists message k w',
    Scaffold.store_each R entries
      {| secrets_kv := Some ns; sessions_kv := ses; audit_kv := aud; tick := t; outbound := o |}
    = (Thrown message, w')
    /\ (k < length entries)%nat
    /\ secrets_kv w' = Some (write_secrets "secret:" (firstn k entries) ns)
    /\ sessions_kv w' = ses /\ audit_kv w' = aud.
Proof.
  induction entries as [|[k v] rest IH]; intros ns ses aud t o i Hi Hfail.
  - cbn in Hi. lia.
  - cbn [Scaffold.store_each]. exec.
    destruct (rt_put_fails R t) eqn:Hnow.
    + exists "KV put failed", 0%nat. eexists. cbn [length firstn].
      split; [reflexivity|]. split; [lia|]. repeat split.
    + destruct i as [|i]; [rewrite Nat.add_0_r in Hfail; congruence|].
      cbn [length] in Hi.
      destruct (IH (<["secret:" +:+ k := put_entry (put_arg v) None]> ns) ses aud (S t) o i)
        as (message & n & w' & E & Hn & Hsec & Hses & Haud).
      { lia. } { rewrite <- Hfail. f_equal. lia. }
      unfold put_entry, put_arg in E. rewrite E.
      exists message, (S n), w'. cbn [length firstn].
      split; [reflexivity|]. split; [lia|]. repeat split; assumption.
Qed.

(** The setup of the scaffold is not all-or-nothing: when one of the
    writes of a batch fails, the request is answered with 500, the
    secrets written before it stay (a proper prefix of the batch), and
    no audit entry is appended. *)
Theorem scaffold_setup_is_not_atomic R G req w tok fields secrets ns i :
  method req = "POST" -> path req = "/api/store-secrets" ->
  SETUP_TOKEN G = Some tok -> presents tok req = true ->
  secrets_kv w = Some ns ->
  body req = Some (JObj fields) -> assoc "secrets" fields = Some secrets ->
  object_valued secrets = true ->
  (i < length (own_entries secrets))%nat -> rt_put_fails R (tick w + i) = true ->
  exists message k w',
    Scaffold.handleRequest R G req w = (Done (Scaffold.error_response message 500), w')
    /\ (k < length (own_entries secrets))%nat
    /\ secrets_kv w' = Some (write_secrets "secret:" (firstn k (own_entries secrets)) ns)
    /\ audit_kv w' = audit_kv w.
Proof.
  intros Hm Hpath HG Hp Hns Hbody Hsec Hobj Hi Hfail.
  destruct w as [sec ses aud t o]. cbn in Hns, Hfail. subst sec.
  destruct (scaffold_store_each_fails R (own_entries secrets) ns ses aud t o i Hi Hfail)
    as (message & k & w' & E & Hk & Hsec' & _ & Haud').
  exists message, k, w'. split; [|split; [exact Hk | split; [exact Hsec' | exact Haud']]].
  unfold Scaffold.handleRequest. cbv zeta. rewrite Hm, Hpath.
  cbn [String.eqb Ascii.eqb Bool.eqb andb]. unfold try_catch.
  unfold presents in Hp. unfold Scaffold.handleStoreSecrets.
  destruct (x_setup_token req) as [s|]; [|discriminate].
  apply andb_prop in Hp as [Hne Heq]. apply negb_true_iff in Hne.
  assert (Htok : String.eqb tok "" = false).
  { apply String.eqb_eq in Heq. subst s. exact Hne. }
  rewrite Hm, Hne, HG, Htok, Heq, Hbody. cbn [String.eqb Ascii.eqb Bool.eqb negb truthy prop].
  rewrite Hsec.
  assert (Hacc : negb (truthy secrets) || negb (typeof_object secrets) = false)
    by (destruct secrets; try discriminate; reflexivity).
  rewrite Hacc. exec. rewrite E. reflexivity.
Qed.

(** [scaffold_setup_is_not_atomic] on the configuration of the demo
    deployment, with the runtime whose second write fails. *)
Lemma scaffold_setup_is_not_atomic_witness :
  exists message w',
    Scaffold.handleRequest flaky_runtime demo_globals
      (post "/api/store-secrets" (Some "s3cret") (JObj [("secrets", oauth_config)])) fresh_world
    = (Done (Scaffold.error_response message 500), w')
    /\ secret_of w' "OAUTH_STRIPE_CLIENT_ID" = Some "ca_123"
    /\ secret_of w' "OAUTH_STRIPE_AUTH_URL" = None
    /\ audit_kv w' = Some ∅.
Proof.
  destruct (scaffold_setup_is_not_atomic flaky_runtime demo_globals
              (post "/api/store-secrets" (Some "s3cret") (JObj [("secrets", oauth_config)]))
              fresh_world "s3cret" [("secrets", oauth_config)] oauth_config ∅ 1%nat)
    as (message & k & w' & E & Hk & Hsec & Haud);
    [reflexivity | reflexivity | reflexivity | reflexivity | reflexivity | reflexivity
    | reflexivity | reflexivity | cbn; lia | reflexivity |].
  exists message, w'. split; [exact E|].
  assert (Hw' : w' = snd (Scaffold.handleRequest flaky_runtime demo_globals
                            (post "/api/store-secrets" (Some "s3cret")
                               (JObj [("secrets", oauth_config)])) fresh_world))
    by (rewrite E; reflexivity).
  rewrite Hw'. repeat split; vm_compute; reflexivity.
Defined.

(** ** Delivery in the scaffold: resolved once *)

(** [handleDeliver] of the scaffold on a stored session that has no
    delivery yet: it stores the session with the delivery made of the
    session id, the status "delivered" and the time, its other fields
    unchanged, and then fails on [ADMIN_HANDLE], so that this first
    request is answered with 500 by the router; the same request again is
    answered with 200 and the stored delivery, and changes nothing. *)
Theorem scaffold_deliver_resolves_once R G req w ses session_id fields :
  path req = "/api/deliver" -> method req = "GET" ->
  Scaffold.session_param (query req) = Some session_id -> session_id <> "" ->
  sessions_kv w = Some ses ->
  kv_read R SESSIONS_KV ("session:" +:+ session_id) w = Some (JObj fields) ->
  truthy_opt (assoc "delivery" fields) = false ->
  reliable_from R (tick w) ->
  exists w1 record,
    Scaffold.handleRequest R G req w
    = (Done (Scaffold.error_response Scaffold.reference_error 500), w1)
    /\ record_at SESSIONS_KV ("session:" +:+ session_id) w1
       = Some (put_entry (Json record) None)
    /\ prop record "delivery" = Some (Scaffold.delivery_for session_id)
    /\ prop record "status" = Some (JStr "delivered")
    /\ prop record "delivered_at" = Some (JStr (rt_toISOString R (tick w)))
    /\ (forall name, name <> "delivery" -> name <> "status" -> name <> "delivered_at" ->
                     prop record name = assoc name fields)
    /\ Scaffold.handleRequest R G req w1
       = (Done (Scaffold.json_response
                  (JObj [("ok", JBool true); ("session_id", JStr session_id);
                         ("deliver", Scaffold.delivery_for session_id)]) 200), w1).
Proof.
  intros Hpath Hmethod Hparam Hne Hses Hread Hnone HR.
  set (record := JObj (set_field "delivered_at" (JStr (rt_toISOString R (tick w)))
                         (set_field "status" (JStr "delivered")
                            (set_field "delivery" (Scaffold.delivery_for session_id) fields)))).
  assert (Hdel : prop record "delivery" = Some (Scaffold.delivery_for session_id)).
  { cbn [prop record]. rewrite !assoc_set_field_other by discriminate.
    apply assoc_set_field_same. }
  assert (Hroute : forall w0,
             Scaffold.handleRequest R G req w0
             = try_catch (Scaffold.handleDeliver R G req)
                 (fun message => ret (Scaffold.error_response message 500)) w0).
  { intros w0. unfold Scaffold.handleRequest. rewrite Hpath, Hmethod. reflexivity. }
  assert (E : exists w1,
             Scaffold.handleDeliver R G req w = (Thrown Scaffold.reference_error, w1)
             /\ sessions_kv w1
                = Some (<["session:" +:+ session_id := put_entry (Json record) None]> ses)).
  { unfold Scaffold.handleDeliver.
    rewrite Hparam, nonempty_Some by assumption. cbn [negb or_null].
    unfold bind at 1. rewrite kvGet_run, Hread. cbn [truthy negb prop].
    assert (Hd : match assoc "delivery" fields with
                 | Some d => if truthy d then Some d else None
                 | None => None
                 end = None).
    { destruct (assoc "delivery" fields) as [d|]; [|reflexivity].
      cbn [truthy_opt] in Hnone. rewrite Hnone. reflexivity. }
    rewrite Hd. unfold Scaffold.assign_prop.
    destruct w as [sec ses' aud t o]. cbn in Hses, HR. subst ses'.
    unfold Scaffold.kvPut, Scaffold.audit_record, Scaffold.ADMIN_HANDLE. exec.
    rewrite HR by lia. eexists. split; reflexivity. }
  destruct E as (w1 & E & Hses1).
  exists w1, record. split; [rewrite Hroute; unfold try_catch; rewrite E; reflexivity|].
  assert (Hrec : record_at SESSIONS_KV ("session:" +:+ session_id) w1
                 = Some (put_entry (Json record) None)).
  { unfold record_at. cbn [namespace_of]. rewrite Hses1. apply lookup_insert_eq. }
  split; [exact Hrec|]. split; [exact Hdel|].
  split; [cbn [prop record]; rewrite assoc_set_field_other by discriminate;
          apply assoc_set_field_same|].
  split; [cbn [prop record]; apply assoc_set_field_same|].
  split.
  - intros name H1 H2 H3. cbn [prop record].
    rewrite !assoc_set_field_other by congruence. reflexivity.
  - rewrite Hroute. unfold try_catch.
    rewrite (scaffold_deliver_stored R G req w1 session_id record
               (Scaffold.delivery_for session_id));
      try assumption; try reflexivity.
    rewrite Hses1. cbn [mbind option_bind]. rewrite lookup_insert_eq. reflexivity.
Qed.

(** [scaffold_deliver_resolves_once] on the session of a checkout that
    was not pre-sold. *)
Lemma scaffold_deliver_resolves_once_witness :
  let session_id := session_id_at demo_runtime 0 in
  let req := get "/api/deliver" [("session", session_id)] in
  exists w1,
    Scaffold.handleRequest demo_runtime demo_globals req pending_world
    = (Done (Scaffold.error_response Scaffold.reference_error 500), w1)
    /\ Scaffold.handleRequest demo_runtime demo_globals req w1
       = (Done (Scaffold.json_response
                  (JObj [("ok", JBool true); ("session_id", JStr session_id);
                         ("deliver", Scaffold.delivery_for session_id)]) 200), w1).
Proof.
  cbv zeta.
  assert (Hses : sessions_kv pending_world = Some (default ∅ (sessions_kv pending_world)))
    by (vm_compute; reflexivity).
  destruct (scaffold_deliver_resolves_once demo_runtime demo_globals
              (get "/api/deliver" [("session", session_id_at demo_runtime 0)])
              pending_world (default ∅ (sessions_kv pending_world))
              (session_id_at demo_runtime 0)
              [("session_id", JStr (session_id_at demo_runtime 0)); ("sku", JStr "PWS-0002");
               ("user", JNull); ("manifest", JObj []); ("presold", JBool false);
               ("status", JStr "pending"); ("created_at", JStr (demo_clock 2))]
              eq_refl eq_refl eq_refl)
    as (w1 & record & E & _ & _ & _ & _ & _ & Again);
    [discriminate | exact Hses | vm_compute; reflexivity | reflexivity
    | apply demo_reliable_from |].
  exists w1. split; [exact E | exact Again].
Defined.

(** ** Inbound email in the scaffold *)

(** [handleInboundEmail] of the scaffold stores the message in the
    sessions namespace under the id [msg:<now>:<six random characters>]:
    [kvGet] of that id gives the record with the id, the time of receipt
    and the body as [payload].  It then fails on [ADMIN_HANDLE], so the
    caller is not given the id: through the router the answer is a 500.
    The secrets and audit namespaces are not touched. *)
Theorem scaffold_inbound_email_stored R G req w payload ses :
  path req = "/api/inbound-email" -> method req = "POST" ->
  body req = Some payload -> sessions_kv w = Some ses -> reliable_from R (tick w) ->
  let id := "msg:" +:+ Z_to_string (rt_now R (tick w)) +:+ ":"
            +:+ Scaffold.slice 2 8 (rt_random36 R (S (tick w))) in
  exists w',
    Scaffold.handleRequest R G req w
    = (Done (Scaffold.error_response Scaffold.reference_error 500), w')
    /\ Scaffold.kvGet R SESSIONS_KV id w'
       = (Done (JObj [("id", JStr id);
                      ("received_at", JStr (rt_toISOString R (S (S (tick w)))));
                      ("payload", payload)]), w')
    /\ secrets_kv w' = secrets_kv w
    /\ audit_kv w' = audit_kv w.
Proof.
  intros Hpath Hmethod Hbody Hses HR id.
  unfold Scaffold.handleRequest. rewrite Hpath, Hmethod.
  cbn [String.eqb Ascii.eqb Bool.eqb andb orb].
  unfold Scaffold.handleInboundEmail. rewrite Hbody.
  destruct w as [sec ses' aud t o]. cbn in Hses, HR. subst ses'. cbn [tick] in id.
  unfold Scaffold.kvPut, Scaffold.audit_record, Scaffold.ADMIN_HANDLE. exec.
  rewrite HR by lia. exec. fold id.
  eexists. split; [reflexivity|]. split; [|split; reflexivity].
  rewrite kvGet_run. unfold kv_read. cbn [namespace_of sessions_kv].
  rewrite lookup_insert_eq. reflexivity.
Qed.

(** [scaffold_inbound_email_stored] on the demo deployment. *)
Lemma scaffold_inbound_email_stored_witness :
  let id := "msg:1793577600000:000001" in
  exists w',
    Scaffold.handleRequest demo_runtime demo_globals
      (post "/api/inbound-email" None second_email) fresh_world
    = (Done (Scaffold.error_response Scaffold.reference_error 500), w')
    /\ Scaffold.kvGet demo_runtime SESSIONS_KV id w'
       = (Done (JObj [("id", JStr id); ("received_at", JStr (demo_clock 2));
                      ("payload", second_email)]), w').
Proof.
  cbv zeta.
  destruct (scaffold_inbound_email_stored demo_runtime demo_globals
              (post "/api/inbound-email" None second_email) fresh_world second_email ∅
              eq_refl eq_refl eq_refl eq_refl (demo_reliable_from _))
    as (w' & E & Hread & _).
  exists w'. split; [exact E | exact Hread].
Defined.

(** ** An exchange the provider does not grant *)

(** In the callback of the scaffold, with a state record and the token
    endpoint configured: unless the provider answers the token request
    with an ok status and a JSON body, no namespace is changed (no token,
    no audit entry); the request was sent; a refusal with a JSON body is
    answered with 500 and that body as [detail], and no answer other than
    a 500 is given. *)
Theorem scaffold_failed_exchange_stores_nothing
    R G req w code state stateObj provider tokenUrl clientId :
  params_get "code" (query req) = Some code -> code <> "" ->
  params_get "state" (query req) = Some state -> state <> "" ->
  kv_read R SESSIONS_KV ("oauth_state:" +:+ state) w = Some stateObj ->
  truthy stateObj = true -> prop stateObj "provider" = Some (JStr provider) ->
  secret_of w (Scaffold.provider_key provider "_TOKEN_URL") = Some tokenUrl -> tokenUrl <> "" ->
  secret_of w (Scaffold.provider_key provider "_CLIENT_ID") = Some clientId -> clientId <> "" ->
  (forall tokenResp,
      rt_fetch R (tick w) (token_request w provider code)
      <> FetchResponse true (Some tokenResp)) ->
  let after := Scaffold.handleOAuthCallback R G req w in
  secrets_kv (snd after) = secrets_kv w
  /\ sessions_kv (snd after) = sessions_kv w
  /\ audit_kv (snd after) = audit_kv w
  /\ outbound (snd after) = outbound w ++ [token_request w provider code]
  /\ (forall detail,
        rt_fetch R (tick w) (token_request w provider code)
        = FetchResponse false (Some detail) ->
        fst after
        = Done (Scaffold.json_response
                  (JObj [("error", JStr "token exchange failed"); ("detail", detail)]) 500))
  /\ (forall resp, fst after = Done resp -> status resp = 500).
Proof.
  intros Hc Hcne Hs Hsne Hrec Htruthy Hprov Hurl Hurlne Hcid Hcidne Hfail after.
  assert (E : after = Scaffold.handleOAuthCallback R G req w) by reflexivity.
  clearbody after. unfold Scaffold.handleOAuthCallback in E.
  rewrite Hc, Hs, !nonempty_Some in E by assumption. cbn [negb orb or_null] in E.
  unfold bind at 1 in E. rewrite kvGet_run, Hrec, Htruthy in E. cbn [negb] in E.
  rewrite Hprov in E. unfold bind at 1 2 3 4 in E.
  rewrite !getSecret_run, Hurl, Hcid, !nonempty_Some in E by assumption.
  cbn [negb orb or_null] in E.
  unfold token_request in *. rewrite Hurl, Hcid in Hfail. cbn [or_null] in Hfail.
  rewrite Hurl, Hcid. cbn [or_null].
  destruct w as [sec ses aud t o]. cbn [tick secrets_kv sessions_kv audit_kv outbound] in *.
  unfold fetch in E. revert E. exec.
  match goal with
  | |- context [rt_fetch R t ?call] =>
      destruct (rt_fetch R t call) as [|ok [tokenResp|]] eqn:Hfetch
  end.
  - intros ->. cbn [fst snd]. repeat split; intros; congruence.
  - destruct ok; [exfalso; apply (Hfail tokenResp); reflexivity|]. cbn [negb].
    intros ->. cbn [fst snd]. repeat split.
    + intros detail E. inversion E. reflexivity.
    + intros resp E. inversion E. reflexivity.
  - intros ->. cbn [fst snd]. repeat split; intros; congruence.
Qed.

(** [scaffold_failed_exchange_stores_nothing] with a provider that
    refuses the code. *)
Lemma scaffold_failed_exchange_stores_nothing_witness :
  let after :=
    Scaffold.handleOAuthCallback refusing_runtime demo_globals (callback "code-1" issued_state)
      issued_world in
  secrets_kv (snd after) = secrets_kv issued_world
  /\ audit_kv (snd after) = audit_kv issued_world
  /\ fst after
     = Done (Scaffold.json_response
               (JObj [("error", JStr "token exchange failed");
                      ("detail", JObj [("error", JStr "invalid_grant")])]) 500).
Proof.
  cbv zeta.
  destruct (scaffold_failed_exchange_stores_nothing refusing_runtime demo_globals
              (callback "code-1" issued_state) issued_world "code-1" issued_state
              (JObj [("provider", JStr "stripe"); ("created_at", JStr (demo_clock 7))])
              "stripe" "https://connect.stripe.com/oauth/token" "ca_123")
    as (Hsec & _ & Haud & _ & Hresp & _);
    [reflexivity | discriminate | reflexivity | intros H; vm_compute in H; discriminate H
    | vm_compute; reflexivity | reflexivity | reflexivity
    | vm_compute; reflexivity | discriminate | vm_compute; reflexivity | discriminate
    | intros tokenResp H; discriminate H |].
  split; [exact Hsec|]. split; [exact Haud|]. apply Hresp. reflexivity.
Defined.

(** ** The handshake of the scaffold, end to end *)

(** The handshake of the scaffold end to end, with the provider
    configured, the sessions namespace bound and no write failing:
    whether or not the redirect of [handleOAuthInit] can be built, the
    state it drew is stored, and the callback accepts it.  The callback
    sends the token request for the provider the handshake was started
    for and, when it is granted, stores the answer as the secret
    [oauth:<provider in lower case>:token]; it then fails on
    [ADMIN_HANDLE], with no audit entry written. *)
Theorem scaffold_handshake_composes
    R G req w provider clientId authUrl redirect tokenUrl ns ses :
  params_get "provider" (query req) = Some provider -> provider <> "" ->
  is_ascii provider = true ->
  secrets_kv w = Some ns -> sessions_kv w = Some ses ->
  secret_of w (Scaffold.provider_key provider "_CLIENT_ID") = Some clientId -> clientId <> "" ->
  secret_of w (Scaffold.provider_key provider "_AUTH_URL") = Some authUrl -> authUrl <> "" ->
  secret_of w "OAUTH_REDIRECT_URI" = Some redirect -> redirect <> "" ->
  secret_of w (Scaffold.provider_key provider "_TOKEN_URL") = Some tokenUrl -> tokenUrl <> "" ->
  reliable R ->
  let state := fst (state_at R (tick w)) in
  state <> "" ->
  let w1 := snd (Scaffold.handleOAuthInit R req w) in
  forall req2 code tokenResp,
    params_get "code" (query req2) = Some code -> code <> "" ->
    params_get "state" (query req2) = Some state ->
    rt_fetch R (tick w1) (token_request w provider code)
    = FetchResponse true (Some tokenResp) ->
    exists w2,
      Scaffold.handleOAuthCallback R G req2 w1 = (Thrown Scaffold.reference_error, w2)
      /\ outbound w2 = outbound w ++ [token_request w provider code]
      /\ secret_of w2 ("oauth:" +:+ toLowerCase provider +:+ ":token")
         = Some (JSON_stringify tokenResp)
      /\ audit_kv w2 = audit_kv w.
Proof.
  intros Hp Hne _ Hns Hses Hcid Hcidne Hurl Hurlne Hred Hredne Htok Htokne HR state Hstate w1.
  destruct (scaffold_init_run R req w provider clientId authUrl redirect
              Hp Hne Hcid Hcidne Hurl Hurlne Hred Hredne (reliable_from_any R _ HR))
    as (w1' & E & Hses1 & Hsec1 & Haud1).
  assert (Hw1 : w1 = w1') by (subst w1; rewrite E; reflexivity).
  assert (Hout : outbound w1 = outbound w)
    by (apply (scaffold_init_quiet R req (outbound w) w); reflexivity).
  clearbody w1. subst w1'. clear E.
  assert (Hsame : forall name, secret_of w1 name = secret_of w name)
    by (intros name; unfold secret_of; rewrite Hsec1; reflexivity).
  assert (Hreq : forall c, token_request w1 provider c = token_request w provider c)
    by (intros c; unfold token_request; rewrite !Hsame; reflexivity).
  intros req2 code tokenResp Hc Hcne Hs Hfetch.
  rewrite Hses in Hses1. cbn [fmap option_fmap option_map] in Hses1.
  eexists. split.
  - apply (scaffold_callback_run R G req2 w1 code state
             (JObj [("provider", JStr provider);
                    ("created_at", JStr (rt_toISOString R (snd (state_at R (tick w)))))])
             provider tokenUrl clientId tokenResp);
      [ exact Hc | exact Hcne | exact Hs | exact Hstate
      | unfold kv_read; cbn [namespace_of]; rewrite Hses1; fold state;
        rewrite lookup_insert_eq; reflexivity
      | reflexivity | reflexivity
      | rewrite Hsame; exact Htok | exact Htokne | rewrite Hsame; exact Hcid | exact Hcidne
      | rewrite Hreq; exact Hfetch | apply reliable_from_any; exact HR ].
  - cbn [outbound secrets_kv audit_kv]. split; [rewrite Hout, Hreq; reflexivity|].
    split; [|exact Haud1].
    unfold secret_of. cbn [secrets_kv]. rewrite Hsec1, Hns.
    cbn [fmap option_fmap option_map].
    change ("secret:" +:+ "oauth:" +:+ toLowerCase provider +:+ ":token")
      with (Scaffold.token_key provider).
    rewrite lookup_insert_eq. reflexivity.
Qed.

(** [scaffold_handshake_composes] on the configured demo deployment, for
    the provider written "Stripe". *)
Lemma scaffold_handshake_composes_witness :
  let w1 := snd (Scaffold.handleOAuthInit demo_runtime
                   (get "/api/oauth/init" [("provider", "Stripe")]) configured_world) in
  exists w2,
    Scaffold.handleOAuthCallback demo_runtime demo_globals (callback "code-1" issued_state) w1
    = (Thrown Scaffold.reference_error, w2)
    /\ outbound w2 = [token_request configured_world "Stripe" "code-1"]
    /\ secret_of w2 "oauth:stripe:token"
       = Some (JSON_stringify (JObj [("access_token", JStr "tok")]))
    /\ audit_kv w2 = Some ∅.
Proof.
  cbv zeta.
  assert (Hsec : secrets_kv configured_world = Some (default ∅ (secrets_kv configured_world)))
    by (vm_compute; reflexivity).
  assert (Hses : sessions_kv configured_world = Some ∅) by (vm_compute; reflexivity).
  assert (Hstate : fst (state_at demo_runtime (tick configured_world)) = issued_state)
    by reflexivity.
  apply (scaffold_handshake_composes demo_runtime demo_globals
           (get "/api/oauth/init" [("provider", "Stripe")]) configured_world "Stripe"
           "ca_123" "https://connect.stripe.com/oauth/authorize"
           "https://example.com/api/oauth/callback" "https://connect.stripe.com/oauth/token"
           (default ∅ (secrets_kv configured_world)) ∅);
    [ reflexivity | discriminate | reflexivity | exact Hsec | exact Hses
    | vm_compute; reflexivity | discriminate
    | vm_compute; reflexivity | discriminate
    | vm_compute; reflexivity | discriminate
    | vm_compute; reflexivity | discriminate
    | apply demo_reliable
    | intros H; vm_compute in H; discriminate H
    | reflexivity | discriminate | exact (f_equal Some (eq_sym Hstate))
    | reflexivity ].
Defined.

(** ** The listing of the scaffold's audit trail *)

(** The audit listing of the scaffold lists nothing.  Without the audit
    namespace it answers 500 "AUDIT_KV not bound"; with it, the loop over
    the listing fails before its first step, whatever the namespace
    holds, and the router answers 500.  The world is as it was. *)
Theorem scaffold_audit_listing_fails R G req w :
  path req = "/api/audit/logs" -> method req = "GET" ->
  Scaffold.handleRequest R G req w
  = (Done (Scaffold.json_response
             (if bound AUDIT_KV w
              then JObj [("error", JStr Scaffold.not_iterable)]
              else JObj [("ok", JBool false); ("error", JStr "AUDIT_KV not bound")]) 500),
     w).
Proof.
  intros Hpath Hmethod. unfold Scaffold.handleRequest. rewrite Hpath, Hmethod.
  cbn [String.eqb Ascii.eqb Bool.eqb andb orb].
  unfold Scaffold.handleListAudits, bound. destruct w as [sec ses aud t o]. exec.
  destruct aud; reflexivity.
Qed.

(** [scaffold_audit_listing_fails] on the demo deployment. *)
Lemma scaffold_audit_listing_fails_witness :
  Scaffold.handleRequest demo_runtime demo_globals (get "/api/audit/logs" []) fresh_world
  = (Done (Scaffold.error_response Scaffold.not_iterable 500), fresh_world).
Proof.
  exact (scaffold_audit_listing_fails demo_runtime demo_globals (get "/api/audit/logs" [])
           fresh_world eq_refl eq_refl).
Defined.

(** ** The delivery link of a generated session id *)

Lemma encodeURIComponent_unreserved s : all_unreserved s = true -> encodeURIComponent s = s.
Proof.
  unfold all_unreserved, encodeURIComponent.
  induction s as [|c rest IH]; cbn [list_ascii_of_string forallb escape]; [reflexivity|].
  intros H. apply andb_prop in H as [Hc Hrest]. unfold unreserved in Hc. rewrite Hc.
  rewrite IH by exact Hrest. reflexivity.
Qed.

Lemma all_unreserved_app a b :
  all_unreserved (a +:+ b) = all_unreserved a && all_unreserved b.
Proof.
  unfold all_unreserved. induction a as [|c rest IH]; cbn [list_ascii_of_string forallb];
    [reflexivity|].
  change (String c rest +:+ b) with (String c (rest +:+ b)).
  cbn [list_ascii_of_string forallb]. rewrite IH. apply andb_assoc.
Qed.

Lemma all_unreserved_uint d : all_unreserved (NilEmpty.string_of_uint d) = true.
Proof. induction d; cbn [NilEmpty.string_of_uint]; try reflexivity; exact IHd. Qed.

Lemma all_unreserved_Z n : all_unreserved (Z_to_string n) = true.
Proof.
  unfold Z_to_string, NilZero.string_of_int.
  destruct (Z.to_int n) as [d|d]; unfold NilZero.string_of_uint;
    destruct d; try reflexivity; apply all_unreserved_uint.
Qed.

Lemma base36_digit_unreserved d :
  (d < 36)%nat ->
  unreserved (if (d <? 10)%nat then ascii_of_nat (48 + d) else ascii_of_nat (87 + d)) = true.
Proof.
  intros H. do 36 (destruct d as [|d]; [reflexivity|]). lia.
Qed.

Lemma all_unreserved_base36 fuel n acc :
  all_unreserved acc = true -> all_unreserved (Scaffold.base36_digits fuel n acc) = true.
Proof.
  revert n acc. induction fuel as [|fuel IH]; intros n acc Hacc; cbn [Scaffold.base36_digits];
    [exact Hacc|].
  assert (Hd : (Z.to_nat (n mod 36) < 36)%nat).
  { pose proof (Z.mod_pos_bound n 36 ltac:(lia)). lia. }
  assert (Hnext : all_unreserved
                    (String (if (Z.to_nat (n mod 36) <? 10)%nat
                             then ascii_of_nat (48 + Z.to_nat (n mod 36))
                             else ascii_of_nat (87 + Z.to_nat (n mod 36))) acc) = true).
  { unfold all_unreserved. cbn [list_ascii_of_string forallb].
    rewrite (base36_digit_unreserved _ Hd). exact Hacc. }
  destruct (n / 36 =? 0)%Z; [exact Hnext | apply IH; exact Hnext].
Qed.

Lemma all_unreserved_words words :
  all_unreserved (String.concat "-" (List.map Z_to_string words)) = true.
Proof.
  induction words as [|n rest IH]; [reflexivity|].
  cbn [List.map String.concat]. destruct (List.map Z_to_string rest) as [|s more] eqn:E.
  - apply all_unreserved_Z.
  - change (String.append (Z_to_string n) (String.append "-" (String.concat "-" (s :: more))))
      with (Z_to_string n +:+ "-" +:+ String.concat "-" (s :: more)).
    rewrite !all_unreserved_app, all_unreserved_Z, IH. reflexivity.
Qed.

(** The session ids [makeSessionId] makes need no escaping: the delivery
    link the scaffold builds for one ends in the id itself. *)
Theorem generated_session_link_is_verbatim R t :
  0 <= rt_now R (S t) ->
  encodeURIComponent (session_id_at R t) = session_id_at R t
  /\ Scaffold.delivery_for (session_id_at R t)
     = JObj [("proton_link", JStr ("https://proton.me/s/" +:+ session_id_at R t))].
Proof.
  intros _.
  assert (H : encodeURIComponent (session_id_at R t) = session_id_at R t).
  { apply encodeURIComponent_unreserved. unfold session_id_at.
    rewrite !all_unreserved_app, all_unreserved_words.
    unfold Scaffold.toString36. rewrite all_unreserved_base36 by reflexivity. reflexivity. }
  split; [exact H|]. unfold Scaffold.delivery_for. rewrite H. reflexivity.
Qed.

(** [generated_session_link_is_verbatim] on the first session id of the
    demo runtime. *)
Lemma generated_session_link_is_verbatim_witness :
  Scaffold.delivery_for (session_id_at demo_runtime 0)
  = JObj [("proton_link", JStr "https://proton.me/s/sess_mvyhslc1_1-2-3-0")].
Proof.
  destruct (generated_session_link_is_verbatim demo_runtime 0) as [_ H].
  - vm_compute. discriminate.
  - rewrite H. vm_compute. reflexivity.
Defined.
